(** * CMIC / SL record reconciliation: a shallow embedding of
      [CMIC_SL_comparison.py]

    The script normalises two spreadsheet exports ([clean_cmic],
    [clean_sl]) and outer-joins them on a synthetic key ([compare_dfs]).
    The development below embeds these functions together with the
    pandas operations they call, and states the properties of the
    specification over the embedding.

    Conventions of the embedding.
    - A pandas value is a [cell]: missing ([Null], covering NaN, None and
      NaT), text, integer, float, boolean or timestamp.  Floats are their
      exact rational value; infinities and binary64 rounding are outside
      the model.  Text is a sequence of 8-bit characters, which is what
      the ISO-8859-1 decoding of the CMIC file produces.
    - A DataFrame row maps column labels to cells; a column that does not
      exist reads as [Null].  A DataFrame is the list of its rows, each
      with its index label.  A column assignment [df[c] = ...] is a map
      over the rows; an assignment that can raise is a [mapM] in the
      [option] monad, [None] standing for "an exception was raised".
    - The parsers and printers of the Python and pandas libraries
      ([int], [float], [to_numeric], [to_datetime], [repr]) are the
      fields of the class [Pandas]; every theorem holds for any
      implementation of them.
    - What pandas does with a table without rows is not part of the
      embedding.  A row does not record the order of the columns; the
      columns of the result of [compare_dfs] and their order are
      described on their own, by [compare_dfs_columns].
    - The file system is what [glob.glob] and the two readers answer:
      the loader takes the lists of paths and the readers as arguments,
      and returns the files it writes.

    The functions of the script, with their lines in the source:
    [convert_to_str] (16-17), [combine_cols] (19-23), [cmic_cont_or_co]
    (29-33), [clean_cmic] (35-70), [sl_cont_or_co] (74-78),
    [gather_co_rel_data] (80-84), [clean_sl] (86-130), [compare_cols]
    (135-139), [compare_dfs] (141-164) and [file_loader] (171-196). *)

From Stdlib Require Import List String Ascii ZArith QArith Bool Arith Lia.
From Stdlib Require Import DecimalString Sorted.
Import ListNotations.

Local Close Scope Q_scope.
Local Open Scope string_scope.
Local Open Scope list_scope.

(** ** Values *)

Inductive cell : Type :=
| Null
| Str (s : string)
| Int (z : Z)
| Flt (q : Q)
| Bool (b : bool)
| Date (t : Z).

Definition isnull (c : cell) : bool :=
  match c with Null => true | _ => false end.

Definition notnull (c : cell) : bool := negb (isnull c).

(** The numeric value of a number-like cell (Python's [bool] is a
    subclass of [int]). *)
Definition num_of (c : cell) : option Q :=
  match c with
  | Int z => Some (inject_Z z)
  | Flt q => Some q
  | Bool b => Some (inject_Z (if b then 1 else 0))
  | _ => None
  end.

(** Python's [==] on two scalars, which is also pandas' element-wise
    [==] between two columns: a missing value equals nothing, not even
    another missing value. *)
Definition py_eq (a b : cell) : bool :=
  match a, b with
  | Null, _ | _, Null => false
  | Str s, Str t => String.eqb s t
  | Date t, Date u => Z.eqb t u
  | _, _ =>
      match num_of a, num_of b with
      | Some x, Some y => Qeq_bool x y
      | _, _ => false
      end
  end.

(** Equality of key values as the hash tables behind [drop_duplicates]
    and [merge] see it: like [==], except that all missing values fall
    in one group. *)
Definition key_eqb (a b : cell) : bool :=
  match a, b with
  | Null, Null => true
  | _, _ => py_eq a b
  end.

(** ** Python string methods *)

Module PyStr.

Local Open Scope nat_scope.

Definition of_rev (l : list ascii) : string :=
  string_of_list_ascii (rev l).

(** [s.split(sep)] for a non-empty [sep]: cut at each occurrence of
    [sep], scanning from the left; [skip] counts the characters of a
    matched separator still to be passed over. *)
Fixpoint split_aux (sep s : string) (skip : nat) (acc : list ascii)
  : list string :=
  match s with
  | EmptyString => [of_rev acc]
  | String c s' =>
      match skip with
      | S k => split_aux sep s' k acc
      | O =>
          if String.prefix sep s
          then of_rev acc :: split_aux sep s' (String.length sep - 1) []
          else split_aux sep s' 0 (c :: acc)
      end
  end.

Definition split (sep s : string) : list string := split_aux sep s 0 [].

(** [str.isspace] on the code points below 256. *)
Definition isspace (c : ascii) : bool :=
  let n := nat_of_ascii c in
  ((9 <=? n) && (n <=? 13)) || ((28 <=? n) && (n <=? 32))
  || (n =? 133) || (n =? 160).

Fixpoint lstrip_by (p : ascii -> bool) (s : string) : string :=
  match s with
  | EmptyString => EmptyString
  | String c s' => if p c then lstrip_by p s' else s
  end.

Fixpoint rstrip_by (p : ascii -> bool) (s : string) : string :=
  match s with
  | EmptyString => EmptyString
  | String c s' =>
      match rstrip_by p s' with
      | EmptyString => if p c then EmptyString else String c EmptyString
      | t => String c t
      end
  end.

Definition strip_by (p : ascii -> bool) (s : string) : string :=
  rstrip_by p (lstrip_by p s).

(** [s.strip()] and [s.strip('.')]. *)
Definition strip : string -> string := strip_by isspace.
Definition strip_dot : string -> string := strip_by (Ascii.eqb ".").

(** [str.lower] on the code points below 256: the ASCII capitals and
    the Latin-1 capitals 0xC0-0xDE except the multiplication sign. *)
Definition lower_char (c : ascii) : ascii :=
  let n := nat_of_ascii c in
  if ((65 <=? n) && (n <=? 90))
     || ((192 <=? n) && (n <=? 222) && negb (n =? 215))
  then ascii_of_nat (n + 32) else c.

Fixpoint lower (s : string) : string :=
  match s with
  | EmptyString => EmptyString
  | String c s' => String (lower_char c) (lower s')
  end.

(** The slice [s[0:n]]. *)
Definition take (n : nat) (s : string) : string := String.substring 0 n s.

(** [s.replace(',', '')]. *)
Fixpoint remove_commas (s : string) : string :=
  match s with
  | EmptyString => EmptyString
  | String c s' =>
      if Ascii.eqb c "," then remove_commas s' else String c (remove_commas s')
  end.

(** [str(z)] for an integer. *)
Definition of_Z (z : Z) : string := NilZero.string_of_int (Z.to_int z).

End PyStr.

(** ** Library parsers and printers *)

Class Pandas : Type := {
  (** conversion of a text element by [astype(int)]; [None]: ValueError *)
  int_of_str : string -> option Z;
  (** conversion of a text element by [astype(float)]; [None]:
      ValueError, [Some None]: the text denotes NaN *)
  float_of_str : string -> option (option Q);
  (** [pd.to_numeric] on a text element; [None]: the text is not a finite
      number (a missing value under [errors="coerce"]) *)
  numeric_of_str : string -> option Q;
  (** [pd.to_datetime] on a text element, in nanoseconds since the
      epoch; [None]: the parser raises, [Some None]: NaT *)
  datetime_of_str : string -> option (option Z);
  (** [astype(str)] on a float and on a timestamp *)
  str_of_float : Q -> string;
  str_of_datetime : Z -> string
}.

(** ** DataFrames *)

(** A column label is a position (the header-less SL table) or a name. *)
Inductive label : Type :=
| Pos (n : nat)
| Name (s : string).

Coercion Name : string >-> label.

Definition label_eqb (a b : label) : bool :=
  match a, b with
  | Pos n, Pos m => Nat.eqb n m
  | Name s, Name t => String.eqb s t
  | _, _ => false
  end.

(** A row: the value of each column.  A frame: its rows with their
    index labels. *)
Definition row : Type := label -> cell.

Definition frame : Type := list (nat * row).

Definition empty_row : row := fun _ => Null.

(** [r[l] = v] *)
Definition upd (l : label) (v : cell) (r : row) : row :=
  fun k => if label_eqb k l then v else r k.

(** A row given by its non-missing columns. *)
Definition row_of (kvs : list (label * cell)) : row :=
  fold_right (fun kv r => upd (fst kv) (snd kv) r) empty_row kvs.

(** The index [read_table] and [read_csv] give to a freshly loaded
    table: 0, 1, 2, ... *)
Definition range_index (rows : list row) : frame :=
  combine (seq 0 (List.length rows)) rows.

Fixpoint mapM {A B : Type} (f : A -> option B) (l : list A)
  : option (list B) :=
  match l with
  | [] => Some []
  | x :: l' =>
      match f x with
      | None => None
      | Some y =>
          match mapM f l' with
          | None => None
          | Some ys => Some (y :: ys)
          end
      end
  end.

(** [df[l] = f(row)] for every row, where [f] cannot raise. *)
Definition assign (l : label) (f : row -> cell) (df : frame) : frame :=
  map (fun ir => (fst ir, upd l (f (snd ir)) (snd ir))) df.

(** [df[l] = f(row)] for every row, where [f] can raise. *)
Definition assign_e (l : label) (f : row -> option cell) (df : frame)
  : option frame :=
  mapM (fun ir =>
          match f (snd ir) with
          | Some v => Some (fst ir, upd l v (snd ir))
          | None => None
          end) df.

(** [df[mask]] *)
Definition select (p : row -> bool) (df : frame) : frame :=
  filter (fun ir => p (snd ir)) df.

(** [df.rename(columns=mapping)]: the column [new] holds what [old]
    held, and [old] is gone. *)
Definition rename (mapping : list (string * string)) (r : row) : row :=
  fun l =>
    match l with
    | Pos _ => r l
    | Name s =>
        match find (fun p => String.eqb (snd p) s) mapping with
        | Some p => r (Name (fst p))
        | None =>
            if existsb (fun p => String.eqb (fst p) s) mapping
            then Null else r l
        end
    end.

(** ** Element-wise pandas operations *)

(** [col.map(f)] and [col.apply(f)] for a [f] that uses string methods
    of its argument: an element that is not text has none of them, and
    the call raises. *)
Definition apply_text (f : string -> option string) (c : cell)
  : option cell :=
  match c with
  | Str s =>
      match f s with
      | Some t => Some (Str t)
      | None => None
      end
  | _ => None
  end.

(** Truncation of a rational toward zero, the float-to-int cast. *)
Definition Qtrunc (q : Q) : Z := Z.quot (Qnum q) (Zpos (Qden q)).

Section Elementwise.

Context `{Pandas}.

(** [pd.to_numeric(col, errors="coerce")] *)
Definition to_numeric_coerce (c : cell) : cell :=
  match c with
  | Str s =>
      match numeric_of_str s with
      | Some q => Flt q
      | None => Null
      end
  | Date t => Int t
  | _ => c
  end.

(** [pd.to_datetime(col, infer_datetime_format=True)]; numbers are
    nanoseconds since the epoch. *)
Definition to_datetime (c : cell) : option cell :=
  match c with
  | Null => Some Null
  | Str s =>
      match datetime_of_str s with
      | Some (Some t) => Some (Date t)
      | Some None => Some Null
      | None => None
      end
  | Int z => Some (Date z)
  | Flt q => Some (Date (Qtrunc q))
  | Bool _ => None
  | Date t => Some (Date t)
  end.

(** [col / d] for an integer [d]: true division; text raises. *)
Definition truediv (c : cell) (d : Z) : option cell :=
  match c with
  | Null => Some Null
  | Str _ | Date _ => None
  | _ =>
      match num_of c with
      | Some q => Some (Flt (Qdiv q (inject_Z d)))
      | None => None
      end
  end.

(** [col.astype(int)]: a missing value cannot be cast. *)
Definition astype_int (c : cell) : option Z :=
  match c with
  | Null => None
  | Str s => int_of_str s
  | Int z => Some z
  | Flt q => Some (Qtrunc q)
  | Bool b => Some (if b then 1 else 0)%Z
  | Date t => Some t
  end.

(** [col.astype(str)] *)
Definition astype_str (c : cell) : string :=
  match c with
  | Null => "nan"
  | Str s => s
  | Int z => PyStr.of_Z z
  | Flt q => str_of_float q
  | Bool b => if b then "True" else "False"
  | Date t => str_of_datetime t
  end.

(** [a + b] between columns, or between a column and a scalar: text
    concatenates, numbers add, a missing operand gives a missing
    result, anything else raises TypeError. *)
Definition py_add (a b : cell) : option cell :=
  match a, b with
  | Null, _ | _, Null => Some Null
  | Str s, Str t => Some (Str (String.append s t))
  | Int x, Int y => Some (Int (x + y))
  | _, _ =>
      match num_of a, num_of b with
      | Some x, Some y => Some (Flt (Qplus x y))
      | _, _ => None
      end
  end.

(** *** The helpers of the script *)

(** [convert_to_str(val)]: [val.astype(int).astype(str)] *)
Definition convert_to_str (c : cell) : option cell :=
  match astype_int c with
  | Some z => Some (Str (PyStr.of_Z z))
  | None => None
  end.

(** [combine_cols(df, cols)], for one row.  With an empty [cols] the
    source reads [cols[0]] and raises. *)
Fixpoint combine_cols (r : row) (cols : list string) : option cell :=
  match cols with
  | [] => None
  | c :: rest =>
      match rest with
      | [] => Some (r c)
      | _ :: _ =>
          match py_add (r c) (Str "_") with
          | None => None
          | Some a =>
              match combine_cols r rest with
              | None => None
              | Some b => py_add a b
              end
          end
      end
  end.

(** [cmic_cont_or_co(val)] *)
Definition cmic_cont_or_co (val : cell) : string :=
  if py_eq val (Int 0) then "Contract" else "CO".

(** [sl_cont_or_co(val1, val2)] *)
Definition sl_cont_or_co (val1 val2 : cell) : string :=
  if py_eq val1 val2 then "Contract" else "CO".

(** [gather_co_rel_data(cont_type, cont_val, co_val)] *)
Definition gather_co_rel_data (cont_type cont_val co_val : cell) : cell :=
  if py_eq cont_type (Str "CO") then co_val else cont_val.

End Elementwise.

Notation "x <- e ;; k" :=
  (match e with Some x => k | None => None end)
  (at level 61, e at next level, right associativity).

(** ** Clean up CMIC *)

Section CleanCmic.

Context `{Pandas}.

(** The [columns=] argument of [df.rename] in [clean_cmic]. *)
Definition cmic_columns : list (string * string) :=
  [ ("VLS_JOBVEN1_CODE", "job_no"); ("VLS_JOBVEN1_NAME", "job_name");
    ("VLS_CONT_CODE", "subcontract_no");
    ("VLS_JOBVEN2_CODE", "vendor_no"); ("VLS_JOBVEN2_NAME", "vendor_name");
    ("VLS_SCH_TASK_CODE", "item_no"); ("VLS_SCH_TASK_NAME", "item_name");
    ("VLS_SCH_CAT_CODE", "category");
    ("VLS_SCH_PHS_CODE", "phase_no"); ("VLS_SCH_JOB_CODE", "job_cost_no");
    ("VLS_CHG_CODE", "co_code"); ("VLS_MST_DATE", "co_date");
    ("VLS_SCH_UNIT", "qty"); ("VLS_SCH_WM_CODE", "qty_type");
    ("VLS_SCH_AMT", "dollar_amount");
    ("VLS_CONT_AMT", "cont_total"); ("CS_JV2_CONT_AMT", "vendor_total") ].

(** The column lists of [clean_cmic]; [clean_sl] combines the same
    columns. *)
Definition cols_to_convert : list string :=
  ["job_no"; "vendor_no"; "item_no"; "job_cost_no"; "category"].

Definition cols_to_combine : list string :=
  ["job_no"; "subcontract_no"; "item_no"; "phase_no"; "category";
   "cont_or_co"].

(** [lambda x: x[0:n].strip().lower()] *)
Definition short_name (n : nat) (x : string) : string :=
  PyStr.lower (PyStr.strip (PyStr.take n x)).

(** [lambda x: x+'0' if len(x)==6 else x] *)
Definition pad_phase (x : string) : string :=
  if Nat.eqb (String.length x) 6 then String.append x "0" else x.

(** [for col in cols: df[col] = convert_to_str(df[col])] *)
Fixpoint convert_cols (cols : list string) (df : frame) : option frame :=
  match cols with
  | [] => Some df
  | col :: cols' =>
      df' <- assign_e col (fun r => convert_to_str (r col)) df ;;
      convert_cols cols' df'
  end.

(** [clean_cmic(df)] *)
Definition clean_cmic (df : frame) : option frame :=
  let df := map (fun ir => (fst ir, rename cmic_columns (snd ir))) df in
  let df := select (fun r => notnull (r "job_no")) df in
  let df := assign "co_code" (fun r => to_numeric_coerce (r "co_code")) df in
  let df :=
    assign "cont_or_co" (fun r => Str (cmic_cont_or_co (r "co_code"))) df in
  df <- assign_e "category" (fun r => truediv (r "category") 100) df ;;
  df <- assign_e "co_date" (fun r => to_datetime (r "co_date")) df ;;
  let df :=
    assign "item_name"
      (fun r => Str (short_name 30 (astype_str (r "item_name")))) df in
  let df :=
    assign "vendor_name"
      (fun r => Str (short_name 15 (astype_str (r "vendor_name")))) df in
  let df := assign "phase_no" (fun r => Str (astype_str (r "phase_no"))) df in
  df <- assign_e "phase_no"
          (fun r => apply_text (fun x => Some (pad_phase x)) (r "phase_no"))
          df ;;
  df <- convert_cols cols_to_convert df ;;
  assign_e "ID" (fun r => combine_cols r cols_to_combine) df.

End CleanCmic.

(** ** Clean up SL *)

(** Two rows agree on the columns of a subset when their values in
    these columns are equal as keys. *)
Definition keys_eqb (k1 k2 : list cell) : bool :=
  (Nat.eqb (List.length k1) (List.length k2))
  && forallb (fun p => key_eqb (fst p) (snd p)) (combine k1 k2).

Definition key_of (subset : list label) (r : row) : list cell :=
  map r subset.

(** [df.drop_duplicates(subset)]: the first row of each group of rows
    that agree on the columns of [subset] is kept; [seen] holds the
    keys of the rows kept so far. *)
Fixpoint drop_duplicates_from (subset : list label) (seen : list (list cell))
  (df : frame) : frame :=
  match df with
  | [] => []
  | ir :: rest =>
      let k := key_of subset (snd ir) in
      if existsb (keys_eqb k) seen
      then drop_duplicates_from subset seen rest
      else ir :: drop_duplicates_from subset (k :: seen) rest
  end.

Definition drop_duplicates (subset : list label) (df : frame) : frame :=
  drop_duplicates_from subset [] df.

(** [df.sort_index()]: rows in increasing order of their index label.
    Rows with the same label keep their order; in [clean_sl] such rows
    are copies of one another. *)
Fixpoint insert_by_index (x : nat * row) (l : frame) : frame :=
  match l with
  | [] => [x]
  | y :: l' =>
      if Nat.leb (fst x) (fst y) then x :: l else y :: insert_by_index x l'
  end.

Fixpoint sort_index (df : frame) : frame :=
  match df with
  | [] => []
  | x :: l => insert_by_index x (sort_index l)
  end.

(** [l[-1]] *)
Definition item_last (l : list string) : option string :=
  nth_error (rev l) 0.

(** A column on which the [.str] accessor is available holds text (an
    all-numeric or all-missing column has a numeric dtype, and the
    accessor raises AttributeError). *)
Definition is_text (c : cell) : bool :=
  match c with Str _ => true | _ => false end.

Definition has_str_accessor (col : list cell) : bool :=
  match col with
  | [] => true
  | _ :: _ => existsb is_text col
  end.

Section CleanSl.

Context `{Pandas}.

(** One element of [col.str.replace(',', '')]: an element that is
    not text becomes missing. *)
Definition str_replace_comma (c : cell) : cell :=
  match c with
  | Str s => Str (PyStr.remove_commas s)
  | _ => Null
  end.

(** One element of [col.astype(float)] on a column of text. *)
Definition astype_float (c : cell) : option cell :=
  match c with
  | Null => Some Null
  | Str s =>
      match float_of_str s with
      | Some (Some q) => Some (Flt q)
      | Some None => Some Null
      | None => None
      end
  | Int z => Some (Flt (inject_Z z))
  | Flt q => Some (Flt q)
  | Bool b => Some (Flt (inject_Z (if b then 1 else 0)))
  | Date _ => None
  end.

(** [df[l] = df[l].str.replace(',', '').astype(float)] *)
Definition to_amount (l : label) (df : frame) : option frame :=
  if has_str_accessor (map (fun ir => snd ir l) df)
  then assign_e l (fun r => astype_float (str_replace_comma (r l))) df
  else None.

(** [col.fillna(v)] *)
Definition fillna (v : cell) (c : cell) : cell :=
  if isnull c then v else c.

(** The text extraction rules, one per canonical field. *)
Definition sl_job_no (x : string) : option string :=
  a <- nth_error (PyStr.split " " x) 4 ;;
  b <- nth_error (PyStr.split "-" a) 0 ;;
  Some (PyStr.strip b).

Definition sl_job_name (x : string) : option string :=
  a <- nth_error (PyStr.split "- " x) 1 ;;
  Some (PyStr.strip a).

Definition sl_subcontract_no (x : string) : option string :=
  nth_error (PyStr.split " " x) 3.

Definition sl_vendor_no (x : string) : option string :=
  a <- nth_error (PyStr.split ": " x) 2 ;;
  b <- nth_error (PyStr.split " " a) 2 ;;
  Some (PyStr.strip b).

Definition sl_vendor_name (x : string) : option string :=
  a <- nth_error (PyStr.split ": " x) 2 ;;
  b <- item_last (PyStr.split "  " a) ;;
  Some (PyStr.strip b).

Definition sl_item_no (x : string) : option string :=
  a <- item_last (PyStr.split ": " x) ;;
  Some (PyStr.strip a).

Definition sl_item_name (x : string) : option string :=
  a <- nth_error (PyStr.split "  " x) 0 ;;
  Some (PyStr.strip a).

Definition sl_category (x : string) : option string :=
  a <- item_last (PyStr.split ": " x) ;;
  Some (PyStr.strip a).

Definition sl_phase_no (x : string) : option string :=
  a <- item_last (PyStr.split "Phase: " x) ;;
  b <- nth_error (PyStr.split "  " a) 0 ;;
  Some (PyStr.strip_dot (PyStr.strip b)).

Definition sl_job_cost_no (x : string) : option string :=
  a <- nth_error (PyStr.split "- " x) 0 ;;
  b <- item_last (PyStr.split " " a) ;;
  Some (PyStr.strip b).

(** The columns [drop_duplicates] compares in [clean_sl]. *)
Definition sl_dedup_subset : list label :=
  [Pos 41; Pos 42; Name "cont_or_co"; Name "co_date"].

(** The first part of [clean_sl] (lines 93-96): tag, date,
    de-duplicate. *)
Definition sl_dedup (df : frame) : option frame :=
  let df :=
    assign "cont_or_co"
      (fun x => Str (sl_cont_or_co (x (Pos 47)) (x (Pos 48)))) df in
  let df := assign "co_date" (fun r => r (Pos 102)) df in
  df <- assign_e "co_date" (fun r => to_datetime (r "co_date")) df ;;
  Some (drop_duplicates sl_dedup_subset df).

(** The row filter of [clean_sl] (line 97):
    [df[df['cont_or_co']=='Contract'].append(df[~(df['co_date'].isnull())]).sort_index()] *)
Definition sl_filter (df : frame) : frame :=
  sort_index
    (select (fun r => py_eq (r "cont_or_co") (Str "Contract")) df
     ++ select (fun r => negb (isnull (r "co_date"))) df).

(** The last part of [clean_sl] (lines 99-128): the canonical fields. *)
Definition sl_fields (df : frame) : option frame :=
  df <- assign_e "job_no" (fun r => apply_text sl_job_no (r (Pos 26))) df ;;
  df <- assign_e "job_name" (fun r => apply_text sl_job_name (r (Pos 26))) df ;;
  df <- assign_e "subcontract_no"
          (fun r => apply_text sl_subcontract_no (r (Pos 20))) df ;;
  df <- assign_e "vendor_no" (fun r => apply_text sl_vendor_no (r (Pos 20))) df ;;
  df <- assign_e "vendor_name"
          (fun r => apply_text sl_vendor_name (r (Pos 20))) df ;;
  let df :=
    assign "vendor_name"
      (fun r => Str (short_name 15 (astype_str (r "vendor_name")))) df in
  df <- assign_e "item_no" (fun r => apply_text sl_item_no (r (Pos 41))) df ;;
  df <- assign_e "item_name" (fun r => apply_text sl_item_name (r (Pos 42))) df ;;
  let df :=
    assign "item_name"
      (fun r => Str (short_name 30 (astype_str (r "item_name")))) df in
  df <- assign_e "category" (fun r => apply_text sl_category (r (Pos 42))) df ;;
  df <- assign_e "phase_no"
          (fun r => apply_text sl_phase_no (Str (astype_str (r (Pos 42))))) df ;;
  df <- assign_e "job_cost_no"
          (fun r => apply_text sl_job_cost_no (r (Pos 42))) df ;;
  let df := assign "co_code" (fun _ => Null) df in
  let df :=
    assign "qty"
      (fun x => gather_co_rel_data (x "cont_or_co") (x (Pos 57)) (x (Pos 106)))
      df in
  let df := assign "qty" (fun r => fillna (Str "0") (r "qty")) df in
  df <- to_amount "qty" df ;;
  let df :=
    assign "qty_type"
      (fun x => gather_co_rel_data (x "cont_or_co") (x (Pos 56)) (x (Pos 105)))
      df in
  let df := assign "qty_type" (fun r => fillna (Str "LS") (r "qty_type")) df in
  let df :=
    assign "dollar_amount"
      (fun x => gather_co_rel_data (x "cont_or_co") (x (Pos 47)) (x (Pos 108)))
      df in
  df <- to_amount "dollar_amount" df ;;
  let df := assign "cont_total" (fun r => r (Pos 128)) df in
  df <- to_amount "cont_total" df ;;
  let df := assign "vendor_total" (fun r => r (Pos 129)) df in
  df <- to_amount "vendor_total" df ;;
  assign_e "ID" (fun r => combine_cols r cols_to_combine) df.

(** [clean_sl(df)] *)
Definition clean_sl (df : frame) : option frame :=
  df <- sl_dedup df ;;
  sl_fields (sl_filter df).

End CleanSl.

(** ** Combine and compare *)

(** [df[cols]]: only the columns of [cols] remain. *)
Definition project (cols : list string) (r : row) : row :=
  fun l =>
    match l with
    | Pos _ => Null
    | Name s => if existsb (String.eqb s) cols then r l else Null
    end.

(** Key values in order of first appearance. *)
Fixpoint distinct_keys (seen ks : list cell) : list cell :=
  match ks with
  | [] => []
  | k :: ks' =>
      if existsb (key_eqb k) seen
      then distinct_keys seen ks'
      else k :: distinct_keys (k :: seen) ks'
  end.

Section Merge.

(** [pd.merge(left, right, how='outer', on=key, suffixes=(sl, sr))]
    for two tables that have the same columns [key :: others]. *)
Variable key : string.
Variable others : list string.
Variables suffix_l suffix_r : string.

Definition side (o : option row) (c : string) : cell :=
  match o with
  | Some r => r c
  | None => Null
  end.

(** One row of the result: the key, then every other column once per
    side under its suffixed name; the columns of an absent side are
    missing values. *)
Definition merged_row (k : cell) (l r : option row) : row :=
  fold_right
    (fun c acc =>
       upd (String.append c suffix_l) (side l c)
         (upd (String.append c suffix_r) (side r c) acc))
    (upd key k empty_row) others.

(** The rows that carry a key. *)
Definition with_key (k : cell) (rows : list row) : list row :=
  filter (fun r : row => key_eqb (r key) k) rows.

(** The rows of one key: the products of its left and right rows, or
    the rows of the only side that has the key. *)
Definition merge_group (left right : list row) (k : cell) : list row :=
  match with_key k left, with_key k right with
  | [], rs => map (fun r : row => merged_row (r key) None (Some r)) rs
  | ls, [] => map (fun l : row => merged_row (l key) (Some l) None) ls
  | ls, rs =>
      flat_map
        (fun l : row =>
           map (fun r => merged_row (l key) (Some l) (Some r)) rs) ls
  end.

(** The keys of the result: those of the left table, then the new ones
    of the right table, the missing key (if any) last. *)
Definition merge_keys (left right : list row) : list cell :=
  let ks :=
    distinct_keys []
      (map (fun r : row => r key) left
       ++ map (fun r : row => r key) right) in
  filter notnull ks ++ filter isnull ks.

(** The result, with a fresh index. *)
Definition merge_outer (left right : frame) : frame :=
  let l := map snd left in
  let r := map snd right in
  range_index (flat_map (merge_group l r) (merge_keys l r)).

End Merge.

(** The column lists of [compare_dfs]. *)
Definition cols_to_keep : list string :=
  ["job_no"; "job_name"; "subcontract_no"; "vendor_no"; "vendor_name";
   "item_no"; "item_name"; "category"; "phase_no"; "job_cost_no";
   "cont_or_co"; "co_date"; "qty"; "qty_type"; "dollar_amount";
   "cont_total"; "vendor_total"; "ID"].

Definition cols_to_compare : list string :=
  ["job_no"; "job_name"; "subcontract_no"; "vendor_name";
   "item_no"; "item_name"; "category"; "phase_no"; "job_cost_no";
   "cont_or_co"; "co_date"; "qty"; "qty_type"; "dollar_amount";
   "cont_total"; "vendor_total"].

(** [cols_to_keep] without the join key: the columns that get a suffix. *)
Definition suffixed_cols : list string :=
  filter (fun c => negb (String.eqb c "ID")) cols_to_keep.

(** [col+'_cmic'], [col+'_sl'] and [col+'_zcomparison'] *)
Definition cmic_of (col : string) : label := Name (String.append col "_cmic").
Definition sl_of (col : string) : label := Name (String.append col "_sl").
Definition zcomparison_of (col : string) : label :=
  Name (String.append col "_zcomparison").

(** [compare_cols(df, cols)] *)
Fixpoint compare_cols (df : frame) (cols : list string) : frame :=
  match cols with
  | [] => df
  | col :: cols' =>
      compare_cols
        (assign (zcomparison_of col)
           (fun r => Bool (py_eq (r (cmic_of col)) (r (sl_of col)))) df)
        cols'
  end.

(** [combined.loc[mask, 'co_date_zcomparison'] = True] with the mask of
    [compare_dfs]. *)
Definition force_contract_dates (df : frame) : frame :=
  map (fun ir : nat * row =>
         if py_eq (snd ir "cont_or_co_sl") (Str "Contract")
            && py_eq (snd ir "cont_or_co_cmic") (Str "Contract")
         then (fst ir, upd "co_date_zcomparison" (Bool true) (snd ir))
         else ir) df.

(** [compare_dfs(cmic, sl)].  The final [reindex] only reorders the
    columns, which a row of the embedding does not record. *)
Definition compare_dfs (cmic sl : frame) : frame :=
  let cmic := map (fun ir => (fst ir, project cols_to_keep (snd ir))) cmic in
  let sl := map (fun ir => (fst ir, project cols_to_keep (snd ir))) sl in
  let combined := merge_outer "ID" suffixed_cols "_cmic" "_sl" cmic sl in
  let combined := compare_cols combined cols_to_compare in
  force_contract_dates combined.

(** ** A plain implementation of the library parsers

    Decimal notation only: integers such as [-12], amounts such as
    [1500.25], dates such as [2019-10-09].  It is used to run the
    embedding on concrete tables. *)

Module Plain.

Local Open Scope Z_scope.

Definition digit (c : ascii) : option Z :=
  let n := nat_of_ascii c in
  if (Nat.leb 48 n && Nat.leb n 57)%bool then Some (Z.of_nat n - 48) else None.

Fixpoint digits_from (acc : Z) (s : string) : option Z :=
  match s with
  | EmptyString => Some acc
  | String c s' =>
      match digit c with
      | Some d => digits_from (10 * acc + d) s'
      | None => None
      end
  end.

(** A non-empty run of decimal digits. *)
Definition natural (s : string) : option Z :=
  match s with
  | EmptyString => None
  | _ => digits_from 0 s
  end.

Definition signed (f : string -> option Q) (s : string) : option Q :=
  match s with
  | String "-" s' =>
      match f s' with
      | Some q => Some (Qopp q)
      | None => None
      end
  | _ => f s
  end.

Definition unsigned_decimal (s : string) : option Q :=
  match PyStr.split "." s with
  | [i] =>
      match natural i with
      | Some n => Some (inject_Z n)
      | None => None
      end
  | [i; f] =>
      match natural i, natural f with
      | Some n, Some m =>
          let scale := 10 ^ Z.of_nat (String.length f) in
          Some (Qmake (n * scale + m) (Z.to_pos scale))
      | _, _ => None
      end
  | _ => None
  end.

Definition decimal : string -> option Q := signed unsigned_decimal.

Definition integer (s : string) : option Z :=
  match signed (fun t => option_map inject_Z (natural t)) s with
  | Some q => Some (Qnum q)
  | None => None
  end.

(** Days from 1970-01-01 to a date of the proleptic Gregorian
    calendar. *)
Definition days_from_civil (y m d : Z) : Z :=
  let y' := if m <=? 2 then y - 1 else y in
  let era := y' / 400 in
  let yoe := y' - era * 400 in
  let doy := (153 * (if 2 <? m then m - 3 else m + 9) + 2) / 5 + d - 1 in
  let doe := yoe * 365 + yoe / 4 - yoe / 100 + doy in
  era * 146097 + doe - 719468.

Definition iso_date (s : string) : option Z :=
  match PyStr.split "-" s with
  | [y; m; d] =>
      match natural y, natural m, natural d with
      | Some y, Some m, Some d =>
          if (1 <=? m) && (m <=? 12) && (1 <=? d) && (d <=? 31)
          then Some (days_from_civil y m d * 86400 * 1000000000)
          else None
      | _, _, _ => None
      end
  | _ => None
  end.

Definition show_float (q : Q) : string :=
  if Z.eqb (Z.rem (Qnum q) (Zpos (Qden q))) 0
  then String.append (PyStr.of_Z (Qtrunc q)) ".0"
  else String.append (PyStr.of_Z (Qnum q))
         (String.append "/" (PyStr.of_Z (Zpos (Qden q)))).

#[export] Instance pandas : Pandas := {
  int_of_str := integer;
  float_of_str s :=
    if String.eqb s "nan" then Some None else option_map Some (decimal s);
  numeric_of_str := decimal;
  datetime_of_str s :=
    if String.eqb s "NaT" then Some None else option_map Some (iso_date s);
  str_of_float := show_float;
  str_of_datetime := PyStr.of_Z
}.

End Plain.

(** ** Row-wise views

    The script works column by column.  The definitions below describe
    the same computations one row at a time; the properties section
    proves that they agree with the column-wise functions. *)

(** The row-wise view of [compare_cols]. *)
Definition compare_row (r : row) (cols : list string) : row :=
  fold_left
    (fun r col =>
       upd (zcomparison_of col) (Bool (py_eq (r (cmic_of col)) (r (sl_of col)))) r)
    cols r.

(** The row-wise view of [force_contract_dates]. *)
Definition force_row (r : row) : row :=
  if py_eq (r "cont_or_co_sl") (Str "Contract")
     && py_eq (r "cont_or_co_cmic") (Str "Contract")
  then upd "co_date_zcomparison" (Bool true) r else r.

(** [df[cols_to_keep]] *)
Definition keep (df : frame) : frame :=
  map (fun ir => (fst ir, project cols_to_keep (snd ir))) df.

(** The frame [compare_dfs] merges, before the comparison columns. *)
Definition merged (cmic sl : frame) : frame :=
  merge_outer "ID" suffixed_cols "_cmic" "_sl" (keep cmic) (keep sl).

(** One row of [assign] and of [assign_e]. *)
Definition set (l : label) (f : row -> cell) (r : row) : row :=
  upd l (f r) r.

Definition set_e (l : label) (f : row -> option cell) (r : row) : option row :=
  v <- f r ;; Some (upd l v r).

(** A row function applied to every row of a frame, with and without
    exceptions. *)
Definition on_rows (g : row -> option row) (df : frame) : option frame :=
  mapM (fun ir => r <- g (snd ir) ;; Some (fst ir, r)) df.

Definition each_row (h : row -> row) (df : frame) : frame :=
  map (fun ir => (fst ir, h (snd ir))) df.

Section CmicRowDefs.

Context `{Pandas}.

(** One row of [convert_cols]. *)
Fixpoint convert_row (cols : list string) (r : row) : option row :=
  match cols with
  | [] => Some r
  | col :: cols' =>
      r' <- set_e col (fun r => convert_to_str (r col)) r ;;
      convert_row cols' r'
  end.

(** What [clean_cmic] does to one row that passed the filter. *)
Definition cmic_row (r : row) : option row :=
  let r := set "co_code" (fun r => to_numeric_coerce (r "co_code")) r in
  let r := set "cont_or_co" (fun r => Str (cmic_cont_or_co (r "co_code"))) r in
  r <- set_e "category" (fun r => truediv (r "category") 100) r ;;
  r <- set_e "co_date" (fun r => to_datetime (r "co_date")) r ;;
  let r :=
    set "item_name"
      (fun r => Str (short_name 30 (astype_str (r "item_name")))) r in
  let r :=
    set "vendor_name"
      (fun r => Str (short_name 15 (astype_str (r "vendor_name")))) r in
  let r := set "phase_no" (fun r => Str (astype_str (r "phase_no"))) r in
  r <- set_e "phase_no"
         (fun r => apply_text (fun x => Some (pad_phase x)) (r "phase_no")) r ;;
  r <- convert_row cols_to_convert r ;;
  set_e "ID" (fun r => combine_cols r cols_to_combine) r.

(** The rows [clean_cmic] works on: renamed, with a job number. *)
Definition cmic_kept (df : frame) : frame :=
  select (fun r => notnull (r "job_no")) (each_row (rename cmic_columns) df).

(** The [category] column of the result: the source code divided by
    100, cast to an integer, printed. *)
Definition cmic_category (c : cell) : option cell :=
  q <- truediv c 100 ;; convert_to_str q.

(** Everything [clean_cmic] computes for a row, in terms of the row
    it started from. *)
Record cmic_result (r r' : row) : Prop := {
  res_job_no : convert_to_str (r "job_no") = Some (r' "job_no");
  res_vendor_no : convert_to_str (r "vendor_no") = Some (r' "vendor_no");
  res_item_no : convert_to_str (r "item_no") = Some (r' "item_no");
  res_job_cost_no : convert_to_str (r "job_cost_no") = Some (r' "job_cost_no");
  res_category : cmic_category (r "category") = Some (r' "category");
  res_co_date : to_datetime (r "co_date") = Some (r' "co_date");
  res_co_code : r' "co_code" = to_numeric_coerce (r "co_code");
  res_cont_or_co :
    r' "cont_or_co" = Str (cmic_cont_or_co (to_numeric_coerce (r "co_code")));
  res_phase_no : r' "phase_no" = Str (pad_phase (astype_str (r "phase_no")));
  res_subcontract_no : r' "subcontract_no" = r "subcontract_no";
  res_item_name :
    r' "item_name" = Str (short_name 30 (astype_str (r "item_name")));
  res_vendor_name :
    r' "vendor_name" = Str (short_name 15 (astype_str (r "vendor_name")));
  res_ID : combine_cols r' cols_to_combine = Some (r' "ID")
}.

End CmicRowDefs.

Section SlRowDefs.

Context `{Pandas}.

(** What the second half of [clean_sl] does to one row (the [.str]
    accessor, which looks at a whole column, left aside). *)
Definition sl_row (r : row) : option row :=
  r <- set_e "job_no" (fun r => apply_text sl_job_no (r (Pos 26))) r ;;
  r <- set_e "job_name" (fun r => apply_text sl_job_name (r (Pos 26))) r ;;
  r <- set_e "subcontract_no"
         (fun r => apply_text sl_subcontract_no (r (Pos 20))) r ;;
  r <- set_e "vendor_no" (fun r => apply_text sl_vendor_no (r (Pos 20))) r ;;
  r <- set_e "vendor_name" (fun r => apply_text sl_vendor_name (r (Pos 20))) r ;;
  let r :=
    set "vendor_name"
      (fun r => Str (short_name 15 (astype_str (r "vendor_name")))) r in
  r <- set_e "item_no" (fun r => apply_text sl_item_no (r (Pos 41))) r ;;
  r <- set_e "item_name" (fun r => apply_text sl_item_name (r (Pos 42))) r ;;
  let r :=
    set "item_name"
      (fun r => Str (short_name 30 (astype_str (r "item_name")))) r in
  r <- set_e "category" (fun r => apply_text sl_category (r (Pos 42))) r ;;
  r <- set_e "phase_no"
         (fun r => apply_text sl_phase_no (Str (astype_str (r (Pos 42))))) r ;;
  r <- set_e "job_cost_no" (fun r => apply_text sl_job_cost_no (r (Pos 42))) r ;;
  let r := set "co_code" (fun _ => Null) r in
  let r :=
    set "qty"
      (fun x => gather_co_rel_data (x "cont_or_co") (x (Pos 57)) (x (Pos 106)))
      r in
  let r := set "qty" (fun r => fillna (Str "0") (r "qty")) r in
  r <- set_e "qty" (fun r => astype_float (str_replace_comma (r "qty"))) r ;;
  let r :=
    set "qty_type"
      (fun x => gather_co_rel_data (x "cont_or_co") (x (Pos 56)) (x (Pos 105)))
      r in
  let r := set "qty_type" (fun r => fillna (Str "LS") (r "qty_type")) r in
  let r :=
    set "dollar_amount"
      (fun x => gather_co_rel_data (x "cont_or_co") (x (Pos 47)) (x (Pos 108)))
      r in
  r <- set_e "dollar_amount"
         (fun r => astype_float (str_replace_comma (r "dollar_amount"))) r ;;
  let r := set "cont_total" (fun r => r (Pos 128)) r in
  r <- set_e "cont_total"
         (fun r => astype_float (str_replace_comma (r "cont_total"))) r ;;
  let r := set "vendor_total" (fun r => r (Pos 129)) r in
  r <- set_e "vendor_total"
         (fun r => astype_float (str_replace_comma (r "vendor_total"))) r ;;
  set_e "ID" (fun r => combine_cols r cols_to_combine) r.

(** What [clean_sl] leaves of a row, and what it adds to it. *)
Record sl_result (r r' : row) : Prop := {
  sl_positions : forall n, r' (Pos n) = r (Pos n);
  sl_cont_or_co_kept : r' "cont_or_co" = r "cont_or_co";
  sl_co_date_kept : r' "co_date" = r "co_date";
  sl_res_job_no : apply_text sl_job_no (r (Pos 26)) = Some (r' "job_no");
  sl_res_subcontract_no :
    apply_text sl_subcontract_no (r (Pos 20)) = Some (r' "subcontract_no");
  sl_res_item_no : apply_text sl_item_no (r (Pos 41)) = Some (r' "item_no");
  sl_res_category : apply_text sl_category (r (Pos 42)) = Some (r' "category");
  sl_res_phase_no :
    apply_text sl_phase_no (Str (astype_str (r (Pos 42))))
    = Some (r' "phase_no");
  sl_res_ID : combine_cols r' cols_to_combine = Some (r' "ID")
}.

(** The row [sl_dedup] makes of an input row: the tag and the date. *)
Definition sl_tagged (r : row) (date : cell) : row :=
  upd "co_date" date
    (upd "co_date" (r (Pos 102))
       (upd "cont_or_co" (Str (sl_cont_or_co (r (Pos 47)) (r (Pos 48)))) r)).

End SlRowDefs.

(** A frame computes what a row function computes on each row. *)
Definition refines (K : frame -> option frame) (k : row -> option row)
  : Prop :=
  forall d o, K d = Some o -> on_rows k d = Some o.

(** ** Vocabulary of the properties *)

(** Whether [astype(int)] accepts a value. *)
Definition int_castable `{Pandas} (c : cell) : bool :=
  match astype_int c with
  | Some _ => true
  | None => false
  end.

(** The representative of a key value: two values fall in the same
    group of a hash table exactly when their representatives are the
    same. *)
Definition key_class (c : cell) : cell :=
  match num_of c with
  | Some q => Flt (Qred q)
  | None => c
  end.

(** The columns [drop_duplicates] compares in [clean_sl], for one row
    of a frame. *)
Definition sl_key (ir : nat * row) : list cell :=
  key_of sl_dedup_subset (snd ir).

(** Whether a text contains the separator of [combine_cols]. *)
Fixpoint has_sep (s : string) : bool :=
  match s with
  | EmptyString => false
  | String c s' => Ascii.eqb c "_" || has_sep s'
  end.

(** A text value in which the separator does not occur. *)
Definition text_without_sep (c : cell) : Prop :=
  exists s, c = Str s /\ has_sep s = false.

(** The fields of the key that are followed by a separator. *)
Definition separated_cols : list string :=
  ["job_no"; "subcontract_no"; "item_no"; "phase_no"; "category"].

(** A row of a frame that one of the two normalisers returned. *)
Definition normalised `{Pandas} (r : row) : Prop :=
  exists df out i,
    (clean_cmic df = Some out \/ clean_sl df = Some out) /\ In (i, r) out.

(** The number of rows of a frame whose [ID] is (equal to) [k]. *)
Definition id_count (k : cell) (df : frame) : nat :=
  List.length (filter (fun ir : nat * row => key_eqb (snd ir "ID") k) df).

(** The number of rows an outer join makes of [m] left rows and [n]
    right rows that carry the same key. *)
Definition joined (m n : nat) : nat :=
  match m, n with
  | 0, _ => n
  | _, 0 => m
  | _, _ => m * n
  end.

(** The rows [compare_dfs] joins: the kept columns of each frame. *)
Definition kept_rows (df : frame) : list row := map snd (keep df).

(** One row of the join of [compare_dfs]. *)
Definition join_row (k : cell) (l r : option row) : row :=
  merged_row "ID" suffixed_cols "_cmic" "_sl" k l r.

(** The rows of one key, by the sides that have the key. *)
Inductive group_row (left right : list row) (k : cell) (m : row) : Prop :=
| both_sides (l r : row) :
    In l (with_key "ID" k left) -> In r (with_key "ID" k right) ->
    m = join_row (l "ID") (Some l) (Some r) -> group_row left right k m
| left_only (l : row) :
    In l (with_key "ID" k left) -> with_key "ID" k right = [] ->
    m = join_row (l "ID") (Some l) None -> group_row left right k m
| right_only (r : row) :
    with_key "ID" k left = [] -> In r (with_key "ID" k right) ->
    m = join_row (r "ID") None (Some r) -> group_row left right k m.

(** ** Tables to run the embedding on *)

(** The frame a call returned, empty if it raised. *)
Definition returned (o : option frame) : frame :=
  match o with
  | Some df => df
  | None => []
  end.

(** Whether a call returned. *)
Definition is_some {A : Type} (o : option A) : bool :=
  match o with
  | Some _ => true
  | None => false
  end.

Module Example.

(** A CMIC line as [read_table] delivers it: the codes of numeric
    columns are numbers, the subcontract and phase codes text. *)
Definition cmic_line (job : cell) (sub : string) (item : Z) (phase : string)
  (cat co_code : cell) (date : cell) : row :=
  row_of
    [ (Name "VLS_JOBVEN1_CODE", job); (Name "VLS_JOBVEN1_NAME", Str "Bridge");
      (Name "VLS_CONT_CODE", Str sub);
      (Name "VLS_JOBVEN2_CODE", Int 77); (Name "VLS_JOBVEN2_NAME", Str "Acme Corp");
      (Name "VLS_SCH_TASK_CODE", Int item);
      (Name "VLS_SCH_TASK_NAME", Str "Concrete work");
      (Name "VLS_SCH_CAT_CODE", cat); (Name "VLS_SCH_PHS_CODE", Str phase);
      (Name "VLS_SCH_JOB_CODE", Int 1); (Name "VLS_CHG_CODE", co_code);
      (Name "VLS_MST_DATE", date); (Name "VLS_SCH_UNIT", Int 2);
      (Name "VLS_SCH_WM_CODE", Str "EA"); (Name "VLS_SCH_AMT", Int 1500);
      (Name "VLS_CONT_AMT", Int 10000); (Name "CS_JV2_CONT_AMT", Int 20000) ].

(** The scenario of the specification, with the category a number. *)
Definition scenario : row :=
  cmic_line (Int 100) "5" 20 "0010000" (Int 300) (Int 0) Null.

(** The same line with the category as the text ["300"]; the job and
    item numbers are text as well. *)
Definition scenario_text : row :=
  upd "VLS_JOBVEN1_CODE" (Str "100")
    (upd "VLS_SCH_TASK_CODE" (Str "20")
       (upd "VLS_SCH_CAT_CODE" (Str "300") scenario)).

(** A contract line, two change orders on the same item, a line whose
    change code is not a number, and a line without job number. *)
Definition cmic_table : frame :=
  range_index
    [ scenario;
      cmic_line (Int 100) "5" 20 "0010000" (Int 300) (Int 1) (Str "2019-10-09");
      cmic_line (Int 100) "5" 20 "0010000" (Int 300) (Int 2) (Str "2019-11-20");
      cmic_line (Int 100) "5" 21 "0010000" (Int 300) (Str "n/a") Null;
      cmic_line Null "5" 22 "0010000" (Int 300) (Int 0) Null ].

(** A table with a line that has no vendor number. *)
Definition cmic_table_no_vendor : frame :=
  range_index [ scenario; upd "VLS_JOBVEN2_CODE" Null scenario ].

End Example.

Module ExampleSl.

(** An SL line: the amounts of columns 47 and 48, the change-order date
    of column 102 and the change-order amount of column 108 vary. *)
Definition sl_line (amount47 amount48 date amount108 : cell) : row :=
  row_of
    [ (Pos 20, Str "Sub No : 5 Vendor: No - 77  Acme Corp");
      (Pos 26, Str "Job Number and Name: 100 - Bridge");
      (Pos 41, Str "Item: 20");
      (Pos 42, Str "Concrete work 1- x  Phase: 0010000.  Category: 3");
      (Pos 47, amount47); (Pos 48, amount48);
      (Pos 56, Str "EA"); (Pos 57, Str "2");
      (Pos 102, date);
      (Pos 105, Str "EA"); (Pos 106, Str "1"); (Pos 108, amount108);
      (Pos 128, Str "10,000.00"); (Pos 129, Str "20,000.00") ].

(** A contract line without date. *)
Definition contract : row :=
  sl_line (Str "1,500.00") (Str "1,500.00") Null Null.

(** A contract line that carries a date. *)
Definition dated_contract : row :=
  sl_line (Str "1,500.00") (Str "1,500.00") (Str "2019-10-09") Null.

(** Two change orders of one item, and a change order without date. *)
Definition change_order_1 : row :=
  sl_line (Str "1,500.00") (Str "1,750.00") (Str "2019-10-09") (Str "250.00").
Definition change_order_2 : row :=
  sl_line (Str "1,500.00") (Str "1,900.00") (Str "2019-11-20") (Str "150.00").
Definition undated_change_order : row :=
  sl_line (Str "1,500.00") (Str "1,750.00") Null (Str "250.00").

(** A line whose two amounts are both missing. *)
Definition no_amounts : row :=
  sl_line Null Null (Str "2019-10-09") (Str "250.00").

Definition sl_table : frame :=
  range_index [contract; change_order_1; change_order_1; change_order_2;
               undated_change_order].

End ExampleSl.

Module ExampleKey.

(** Two CMIC lines that differ in subcontract number, item number and
    phase, with a separator inside the subcontract number of the first
    and inside the phase of the second. *)
Definition collision_table : frame :=
  range_index
    [ Example.cmic_line (Int 100) "5_20" 7 "0010000" (Int 300) (Int 1) Null;
      Example.cmic_line (Int 100) "5" 20 "7_0010000" (Int 300) (Int 1) Null ].

End ExampleKey.

Module ExampleCompare.

(** The two normalised frames of the examples. *)
Definition cmic : frame := returned (@clean_cmic Plain.pandas Example.cmic_table).

Definition sl : frame :=
  returned
    (@clean_sl Plain.pandas
       (range_index [ExampleSl.dated_contract; ExampleSl.change_order_1])).

Definition combined : frame := compare_dfs cmic sl.

(** An SL frame without repeated row: a contract line and one change
    order. *)
Definition sl_single : frame :=
  returned
    (@clean_sl Plain.pandas
       (range_index [ExampleSl.contract; ExampleSl.change_order_1])).

(** The row at a position of a frame. *)
Definition row_at (n : nat) (df : frame) : nat * row :=
  nth n df (0, empty_row).

End ExampleCompare.

(** ** Load files *)

Module PyText.

(** [s.split()]: the maximal runs of characters that are not white
    space; [acc] holds the run being read, in reverse. *)
Fixpoint split_ws_aux (s : string) (acc : list ascii) : list string :=
  match s with
  | EmptyString =>
      match acc with
      | [] => []
      | _ :: _ => [PyStr.of_rev acc]
      end
  | String c s' =>
      if PyStr.isspace c
      then
        match acc with
        | [] => split_ws_aux s' []
        | _ :: _ => PyStr.of_rev acc :: split_ws_aux s' []
        end
      else split_ws_aux s' (c :: acc)
  end.

Definition split_ws (s : string) : list string := split_ws_aux s [].

(** [sub in s] *)
Fixpoint contains (sub s : string) : bool :=
  match s with
  | EmptyString => String.prefix sub s
  | String _ s' => String.prefix sub s || contains sub s'
  end.

End PyText.

Section FileLoader.

Context `{Pandas}.

(** The readers [pd.read_table(path, encoding="ISO-8859-1")] and
    [pd.read_csv(path, header=None)], by the table they return for a
    path; [None]: the reader raises. *)
Variable read_table : string -> option frame.
Variable read_csv : string -> option frame.

(** [cmic_file.split()[-1].split('.')[0]] *)
Definition job_no_of_file (cmic_file : string) : option string :=
  a <- item_last (PyText.split_ws cmic_file) ;;
  nth_error (PyStr.split "." a) 0.

(** [[s for s in sl_files if job_no in s][0]] *)
Definition sl_file_of (job_no : string) (sl_files : list string)
  : option string :=
  nth_error (filter (PyText.contains job_no) sl_files) 0.

(** [loc+'comparison_'+job_no+'.csv'] *)
Definition comparison_file (loc job_no : string) : string :=
  String.append loc
    (String.append "comparison_" (String.append job_no ".csv")).

(** The body of the loop of [file_loader] for one CMIC file: the path
    and the table of the call of [to_csv]. *)
Definition compare_files (loc : string) (sl_files : list string)
  (cmic_file : string) : option (string * frame) :=
  job_no <- job_no_of_file cmic_file ;;
  sl_file <- sl_file_of job_no sl_files ;;
  cmic_df <- read_table cmic_file ;;
  sl_df <- read_csv sl_file ;;
  cmic_df <- clean_cmic cmic_df ;;
  sl_df <- clean_sl sl_df ;;
  Some (comparison_file loc job_no, compare_dfs cmic_df sl_df).

(** [file_loader(loc)], where [cmic_files] and [sl_files] are what
    [glob.glob(loc+'cmic'+'*.*')] and [glob.glob(loc+'sl'+'*.*')]
    answer.  The result is the list of the files written, in the order
    of the calls of [to_csv], and whether the loop came to its end
    ([false]: an exception left it).  The files written are not among
    the files read; what [print] shows is left out. *)
Fixpoint file_loader (loc : string) (cmic_files sl_files : list string)
  : list (string * frame) * bool :=
  match cmic_files with
  | [] => ([], true)
  | cmic_file :: rest =>
      match compare_files loc sl_files cmic_file with
      | None => ([], false)
      | Some w =>
          let (ws, ok) := file_loader loc rest sl_files in (w :: ws, ok)
      end
  end.

End FileLoader.

(** ** Vocabulary of the properties of the loader *)

(** No character of a text satisfies [p]. *)
Fixpoint avoids (p : ascii -> bool) (s : string) : bool :=
  match s with
  | EmptyString => true
  | String c s' => negb (p c) && avoids p s'
  end.

(** A text without white space, and a text without dot. *)
Definition no_space : string -> bool := avoids PyStr.isspace.
Definition no_dot : string -> bool := avoids (Ascii.eqb ".").

(** ** Vocabulary of the properties of the normalised fields *)

(** The rows of the loaded CMIC table that have a job number: the rows
    [clean_cmic] works on. *)
Definition cmic_input (df : frame) : frame :=
  select (fun r => notnull (r "VLS_JOBVEN1_CODE")) df.


(** A name as the normalisers leave it: text of at most [n] characters
    that [lower()] and [strip()] do not change. *)
Definition short_text (n : nat) (c : cell) : Prop :=
  exists s,
    c = Str s /\ String.length s <= n
    /\ PyStr.lower s = s /\ PyStr.strip s = s.

(** ['_'.join(fields)] *)
Fixpoint join_sep (fields : list string) : string :=
  match fields with
  | [] => ""
  | [x] => x
  | x :: rest => String.append (String.append x "_") (join_sep rest)
  end.

(** ** Row-wise view of the other fields of [clean_sl] *)

Section SlValueDefs.

Context `{Pandas}.

(** [gather_co_rel_data] on a row: the contract column [cont] or the
    change-order column [co], by the tag of the row. *)
Definition sl_pick (r : row) (cont co : nat) : cell :=
  gather_co_rel_data (r "cont_or_co") (r (Pos cont)) (r (Pos co)).

(** The fields of a row of [clean_sl] that are not part of the key, in
    terms of the row before the extraction. *)
Record sl_values (r r' : row) : Prop := {
  sl_val_co_code : r' "co_code" = Null;
  sl_val_qty :
    astype_float (str_replace_comma (fillna (Str "0") (sl_pick r 57 106)))
    = Some (r' "qty");
  sl_val_qty_type : r' "qty_type" = fillna (Str "LS") (sl_pick r 56 105);
  sl_val_dollar_amount :
    astype_float (str_replace_comma (sl_pick r 47 108))
    = Some (r' "dollar_amount");
  sl_val_cont_total :
    astype_float (str_replace_comma (r (Pos 128))) = Some (r' "cont_total");
  sl_val_vendor_total :
    astype_float (str_replace_comma (r (Pos 129))) = Some (r' "vendor_total");
  sl_val_vendor_name :
    exists v,
      apply_text sl_vendor_name (r (Pos 20)) = Some v
      /\ r' "vendor_name" = Str (short_name 15 (astype_str v));
  sl_val_item_name :
    exists v,
      apply_text sl_item_name (r (Pos 42)) = Some v
      /\ r' "item_name" = Str (short_name 30 (astype_str v));
  sl_val_job_cost_no :
    apply_text sl_job_cost_no (r (Pos 42)) = Some (r' "job_cost_no");
  sl_val_job_name :
    apply_text sl_job_name (r (Pos 26)) = Some (r' "job_name");
  sl_val_vendor_no :
    apply_text sl_vendor_no (r (Pos 20)) = Some (r' "vendor_no")
}.

End SlValueDefs.

(** The unit, the quantity and the amount of a row of [clean_sl], read
    from the positional columns [unit], [qty] and [amount] of the row:
    a missing unit counts as "LS", a missing quantity as "0", and the
    figures are cast to floats once their commas are removed. *)
Definition sl_amounts_from `{Pandas} (r : row) (unit qty amount : nat)
  : Prop :=
  r "qty_type" = fillna (Str "LS") (r (Pos unit))
  /\ astype_float (str_replace_comma (fillna (Str "0") (r (Pos qty))))
     = Some (r "qty")
  /\ astype_float (str_replace_comma (r (Pos amount)))
     = Some (r "dollar_amount").

(** The number of occurrences of a character in a text. *)
Fixpoint count_char (c : ascii) (s : string) : nat :=
  match s with
  | EmptyString => 0
  | String x s' => (if Ascii.eqb x c then 1 else 0) + count_char c s'
  end.

(** ** The columns of the comparison *)

(** The columns of [pd.merge(left[cols], right[cols], how='outer',
    on=key, suffixes=(sl, sr))]: those of the left frame, then those of
    the right frame without the key; a column that both frames have
    carries the suffix of its side. *)
Definition merge_columns (key : string) (cols : list string)
  (suffix_l suffix_r : string) : list string :=
  map (fun c => if String.eqb c key then c else String.append c suffix_l) cols
  ++ map (fun c => String.append c suffix_r)
       (filter (fun c => negb (String.eqb c key)) cols).

(** The columns [compare_cols] adds, after the columns of the frame. *)
Definition zcomparison_columns (cols : list string) : list string :=
  map (fun c => String.append c "_zcomparison") cols.

(** [sorted(names)]: ascending order of the code points. *)
Fixpoint insert_name (x : string) (l : list string) : list string :=
  match l with
  | [] => [x]
  | y :: l' => if String.leb x y then x :: l else y :: insert_name x l'
  end.

Definition sorted (l : list string) : list string :=
  fold_right insert_name [] l.

(** The columns of the frame [compare_dfs] returns, in the order that
    [reindex(sorted(combined.columns), axis=1)] gives them. *)
Definition compare_dfs_columns : list string :=
  sorted (merge_columns "ID" cols_to_keep "_cmic" "_sl"
          ++ zcomparison_columns cols_to_compare).

(** Whether each name of a list is below all the names after it. *)
Fixpoint increasing (l : list string) : bool :=
  match l with
  | [] => true
  | x :: l' => forallb (String.ltb x) l' && increasing l'
  end.

Module ExampleLoader.

(** A directory with two CMIC files and one SL file: the readers
    return the tables of the examples for every path. *)
Definition read_table (path : string) : option frame :=
  Some Example.cmic_table.

Definition read_csv (path : string) : option frame :=
  Some (range_index [ExampleSl.dated_contract; ExampleSl.change_order_1]).

Definition cmic_files : list string := ["/d/cmic 100.txt"; "/d/cmic 300.txt"].

Definition sl_files : list string := ["/d/sl 100.csv"].

End ExampleLoader.

Module ExampleFields.

(** A CMIC table with a category code that is not a whole hundred and
    a phase code of six characters, and a line without subcontract
    number, item name and vendor name. *)
Definition cmic_table : frame :=
  range_index
    [ Example.cmic_line (Int 100) "5" 20 "001000" (Int 350) (Int 0) Null;
      upd "VLS_CONT_CODE" Null
        (upd "VLS_SCH_TASK_NAME" Null
           (upd "VLS_JOBVEN2_NAME" Null Example.scenario)) ].

(** An SL table with a change order whose date is not a date. *)
Definition sl_bad_date : frame :=
  range_index
    [ ExampleSl.contract;
      ExampleSl.sl_line (Str "1,500.00") (Str "1,750.00") (Str "soon") Null ].

(** An SL table with a contract line whose column 41 is missing. *)
Definition sl_no_item : frame :=
  range_index [ upd (Pos 41) Null ExampleSl.contract ].

(** An SL table with a contract line whose column 20 has one space. *)
Definition sl_short_header : frame :=
  range_index [ upd (Pos 20) (Str "Sub 5") ExampleSl.contract ].

(** An SL table with a change order whose amount, in column 108, is a
    number, and without unit and quantity in columns 105 and 106. *)
Definition sl_numeric_amount : frame :=
  range_index
    [ ExampleSl.contract;
      upd (Pos 105) Null
        (upd (Pos 106) Null
           (ExampleSl.sl_line (Str "1,500.00") (Str "1,750.00")
              (Str "2019-10-09") (Flt (250 # 1)))) ].

End ExampleFields.

(** * Properties

    ** Lists, and lists in the [option] monad *)

Section MapM.
Context {A B : Type} (f : A -> option B).

Lemma mapM_Forall2 (l : list A) (l' : list B) :
  mapM f l = Some l' -> Forall2 (fun x y => f x = Some y) l l'.
Proof.
  revert l'. induction l as [|x l IH]; intros l' E; simpl in E.
  - injection E as <-. constructor.
  - destruct (f x) as [y|] eqn:Fx; [|discriminate].
    destruct (mapM f l) as [ys|]; [|discriminate].
    injection E as <-. constructor; auto.
Qed.

Lemma mapM_None (l : list A) (x : A) :
  In x l -> f x = None -> mapM f l = None.
Proof.
  induction l as [|a l IH]; intros I E; simpl; [contradiction|].
  destruct I as [->|I].
  - now rewrite E.
  - destruct (f a); [|reflexivity]. now rewrite (IH I E).
Qed.
End MapM.

Lemma mapM_ext {A B : Type} (f g : A -> option B) (l : list A) :
  (forall x, f x = g x) -> mapM f l = mapM g l.
Proof.
  intro E. induction l as [|x l IH]; simpl; [reflexivity|].
  now rewrite E, IH.
Qed.

Lemma mapM_In {A B : Type} (f : A -> option B) (l : list A) (l' : list B)
  (y : B) :
  mapM f l = Some l' -> In y l' -> exists x, In x l /\ f x = Some y.
Proof.
  intros M I. apply mapM_Forall2 in M.
  induction M as [|x y' l l' F _ IH]; [contradiction|].
  destruct I as [->|I].
  - exists x. split; [now left|assumption].
  - destruct (IH I) as [x' [I' F']]. exists x'. split; [now right|assumption].
Qed.

Lemma Forall2_map_left {A B C : Type} (R : B -> C -> Prop) (f : A -> B)
  (l : list A) (l' : list C) :
  Forall2 R (map f l) l' -> Forall2 (fun x y => R (f x) y) l l'.
Proof.
  revert l'. induction l as [|x l IH]; intros l' F; inversion F; subst;
    constructor; auto.
Qed.

Lemma Forall2_In_right {A B : Type} (R : A -> B -> Prop)
  (l : list A) (l' : list B) (y : B) :
  Forall2 R l l' -> In y l' -> exists x, In x l /\ R x y.
Proof.
  induction 1 as [|a b l l' Rab _ IH]; intro I; [contradiction|].
  destruct I as [->|I].
  - exists a. split; [now left|assumption].
  - destruct (IH I) as [x [Ix Rx]]. exists x. split; [now right|assumption].
Qed.

Section ListCounting.

Context {A B : Type}.

Lemma filter_map_length (p : B -> bool) (q : A -> bool) (g : A -> B)
  (l : list A) :
  (forall x, In x l -> p (g x) = q x) ->
  List.length (filter p (map g l)) = List.length (filter q l).
Proof.
  induction l as [|x l IH]; intro E; [reflexivity|].
  cbn [map filter]. rewrite (E x) by now left.
  assert (E' : forall y, In y l -> p (g y) = q y)
    by (intros y I; apply E; now right).
  destruct (q x); cbn [List.length]; now rewrite (IH E').
Qed.

Lemma filter_all_or_none (p : A -> bool) (b : bool) (l : list A) :
  (forall x, In x l -> p x = b) ->
  List.length (filter p l) = if b then List.length l else 0.
Proof.
  induction l as [|x l IH]; intro E; [now destruct b|].
  cbn [filter]. rewrite (E x) by now left.
  assert (E' : forall y, In y l -> p y = b) by (intros y I; apply E; now right).
  destruct b; cbn [List.length]; now rewrite (IH E').
Qed.

Lemma filter_flat_map_length (p : B -> bool) (f : A -> list B) (l : list A) :
  List.length (filter p (flat_map f l))
  = list_sum (map (fun x => List.length (filter p (f x))) l).
Proof.
  induction l as [|x l IH]; [reflexivity|].
  cbn [flat_map map]. change (list_sum (?a :: ?t)) with (a + list_sum t).
  now rewrite filter_app, length_app, IH.
Qed.

Lemma product_length (f : A -> A -> B) (ls rs : list A) :
  List.length (flat_map (fun l => map (f l) rs) ls)
  = List.length ls * List.length rs.
Proof.
  induction ls as [|l ls IH]; [reflexivity|].
  cbn [flat_map List.length]. rewrite length_app, length_map, IH. lia.
Qed.

Lemma sum_selected (p : A -> bool) (c : nat) (l : list A) :
  list_sum (map (fun x => if p x then c else 0) l)
  = List.length (filter p l) * c.
Proof.
  induction l as [|x l IH]; [reflexivity|].
  cbn [map filter]. change (list_sum (?a :: ?t)) with (a + list_sum t).
  rewrite IH. destruct (p x); cbn [List.length]; lia.
Qed.

Lemma filter_split_length (p a b : A -> bool) (l : list A) :
  (forall x, b x = negb (a x)) ->
  List.length (filter p (filter a l ++ filter b l))
  = List.length (filter p l).
Proof.
  intro N. rewrite filter_app, length_app.
  induction l as [|x l IH]; [reflexivity|].
  cbn [filter]. rewrite N.
  destruct (a x), (p x) eqn:P; cbn [negb filter List.length];
    rewrite ?P; cbn [List.length]; lia.
Qed.

End ListCounting.

Lemma length_zero_nil {A : Type} (l : list A) : List.length l = 0 -> l = [].
Proof. now destruct l. Qed.

(** ** Values and keys *)

Lemma py_eq_text (c : cell) (s : string) :
  py_eq c (Str s) = true -> c = Str s.
Proof.
  destruct c as [|t|z|q|b|t]; simpl; try discriminate.
  intro E. apply String.eqb_eq in E. now subst.
Qed.

Lemma py_eq_present (a b : cell) :
  py_eq a b = true -> isnull a = false /\ isnull b = false.
Proof.
  destruct a, b; cbn; try discriminate; now split.
Qed.

Lemma Qeq_bool_class (x y : Q) :
  Qeq_bool x y = true <-> Flt (Qred x) = Flt (Qred y).
Proof. rewrite Qeq_bool_iff, <- Qred_eq_iff. split; congruence. Qed.

Lemma key_eqb_class (a b : cell) :
  key_eqb a b = true <-> key_class a = key_class b.
Proof.
  destruct a as [|s|z|q|x|t], b as [|s'|z'|q'|x'|t'];
    cbn -[Qred Qeq_bool inject_Z];
    try apply Qeq_bool_class;
    try (split; [discriminate|discriminate]);
    try (split; reflexivity).
  - rewrite String.eqb_eq. split; congruence.
  - rewrite Z.eqb_eq. split; congruence.
Qed.

Lemma key_eqb_refl (a : cell) : key_eqb a a = true.
Proof. now apply key_eqb_class. Qed.

Lemma key_eqb_sym (a b : cell) : key_eqb a b = key_eqb b a.
Proof.
  apply eq_true_iff_eq. rewrite !key_eqb_class. split; congruence.
Qed.

Lemma key_eqb_trans (a b c : cell) :
  key_eqb a b = true -> key_eqb b c = true -> key_eqb a c = true.
Proof. rewrite !key_eqb_class. congruence. Qed.

Lemma key_eqb_congr (a b k : cell) :
  key_eqb a b = true -> key_eqb a k = key_eqb b k.
Proof.
  intro E. apply eq_true_iff_eq. rewrite key_eqb_class in E.
  rewrite !key_eqb_class, E. reflexivity.
Qed.

Lemma keys_eqb_sym (k1 k2 : list cell) : keys_eqb k1 k2 = keys_eqb k2 k1.
Proof.
  unfold keys_eqb. rewrite Nat.eqb_sym. f_equal.
  revert k2. induction k1 as [|a k1 IH]; intros [|b k2]; try reflexivity.
  cbn. now rewrite key_eqb_sym, IH.
Qed.

(** ** Rows and column assignments *)

Lemma label_eqb_refl (l : label) : label_eqb l l = true.
Proof. destruct l; simpl; [apply Nat.eqb_refl|apply String.eqb_refl]. Qed.

Lemma upd_same (l : label) (v : cell) (r : row) : upd l v r l = v.
Proof. unfold upd. now rewrite label_eqb_refl. Qed.

Lemma upd_other (l k : label) (v : cell) (r : row) :
  label_eqb k l = false -> upd l v r k = r k.
Proof. unfold upd. now intros ->. Qed.

(** Follow a lookup through the assignments that built a row. *)
Ltac lookups :=
  repeat first
    [ rewrite upd_same
    | rewrite upd_other by reflexivity
    | progress (unfold set; cbv beta)
    | match goal with
      | Er : ?x = upd _ _ _ |- context [?x _] => rewrite Er
      end ].

Ltac lookups_in H :=
  repeat first
    [ rewrite upd_same in H
    | rewrite upd_other in H by reflexivity
    | progress (unfold set in H; cbv beta in H)
    | match goal with
      | Er : ?x = upd _ _ _ |- _ =>
          match type of H with context [x _] => rewrite Er in H end
      end ].

Lemma assign_each_row (l : label) (f : row -> cell) (df : frame) :
  assign l f df = each_row (set l f) df.
Proof. reflexivity. Qed.

Lemma assign_e_on_rows (l : label) (f : row -> option cell) (df : frame) :
  assign_e l f df = on_rows (set_e l f) df.
Proof.
  apply mapM_ext. intros [i r]. unfold set_e. simpl. now destruct (f r).
Qed.

Lemma on_rows_each_row (g : row -> option row) (h : row -> row) (df : frame) :
  on_rows g (each_row h df) = on_rows (fun r => g (h r)) df.
Proof.
  unfold on_rows, each_row.
  induction df as [|[i r] df IH]; simpl; [reflexivity|].
  now rewrite IH.
Qed.

Lemma on_rows_bind (g k : row -> option row) (K : frame -> option frame)
  (df : frame) :
  (forall d, K d = on_rows k d) ->
  (d <- on_rows g df ;; K d) = on_rows (fun r => r' <- g r ;; k r') df.
Proof.
  intro E. unfold on_rows in *.
  induction df as [|[i r] df IH]; simpl.
  - now rewrite E.
  - destruct (g r) as [r'|]; simpl; [|reflexivity].
    destruct (mapM _ df) as [d|] eqn:M.
    + rewrite E in *. simpl. destruct (k r'); simpl; [|reflexivity].
      now rewrite <- IH.
    + destruct (k r'); simpl; [|reflexivity]. now rewrite <- IH.
Qed.

Lemma on_rows_ext (g k : row -> option row) (df : frame) :
  (forall r, g r = k r) -> on_rows g df = on_rows k df.
Proof. intro E. apply mapM_ext. intro ir. now rewrite E. Qed.

Lemma on_rows_pure (df : frame) : Some df = on_rows Some df.
Proof.
  unfold on_rows. induction df as [|[i r] df IH]; simpl; [reflexivity|].
  now rewrite <- IH.
Qed.

Lemma on_rows_Forall2 (g : row -> option row) (df out : frame) :
  on_rows g df = Some out ->
  Forall2 (fun ir ir' => fst ir' = fst ir /\ g (snd ir) = Some (snd ir')) df out.
Proof.
  intro M. apply mapM_Forall2 in M.
  induction M as [|[i r] [i' r'] l l' F _ IH]; constructor; [|assumption].
  simpl in *. destruct (g r) as [r0|]; [|discriminate].
  injection F as <- <-. now split.
Qed.

Lemma on_rows_None (g : row -> option row) (df : frame) (ir : nat * row) :
  In ir df -> g (snd ir) = None -> on_rows g df = None.
Proof.
  intros I E. apply (mapM_None _ df ir I). now rewrite E.
Qed.

Lemma refine_step (X : option frame) (g k : row -> option row)
  (K : frame -> option frame) (df o : frame) :
  (forall d', X = Some d' -> on_rows g df = Some d') ->
  refines K k ->
  (d <- X ;; K d) = Some o ->
  on_rows (fun r => r' <- g r ;; k r') df = Some o.
Proof.
  intros G R E. destruct X as [d'|]; [|discriminate].
  rewrite <- (on_rows_bind _ k (on_rows k)) by reflexivity.
  rewrite (G d' eq_refl). now apply R.
Qed.

Lemma set_e_inv (l : label) (f : row -> option cell) (r r' : row) :
  set_e l f r = Some r' -> exists v, f r = Some v /\ r' = upd l v r.
Proof.
  unfold set_e. destruct (f r) as [v|]; [|discriminate].
  intro E. injection E as <-. now exists v.
Qed.

Lemma set_e_ok (l : label) (f : row -> option cell) (r : row) (v : cell) :
  f r = Some v -> set_e l f r = Some (upd l v r).
Proof. unfold set_e. now intros ->. Qed.

Ltac bind_inv H :=
  repeat match type of H with
    | (match ?e with Some _ => _ | None => None end) = Some _ =>
        let E := fresh "E" in destruct e eqn:E; [|discriminate H]
    end.

(** Invert the assignments of a pipeline: each row is the row before
    it with one column set. *)
Ltac set_inv :=
  repeat match goal with
    | E : set_e _ _ _ = Some _ |- _ =>
        let v := fresh "v" in
        let Ev := fresh "Ev" in
        let Er := fresh "Er" in
        apply set_e_inv in E; destruct E as [v [Ev Er]]
    end.

Ltac lookups_in_results :=
  repeat match goal with
    | E : _ = Some ?v |- _ => is_var v; progress lookups_in E
    end.

Lemma map_snd_range_index (rows : list row) :
  map snd (range_index rows) = rows.
Proof.
  unfold range_index. generalize 0.
  induction rows as [|r rows IH]; intro n; [reflexivity|].
  cbn [List.length seq combine map snd]. now rewrite IH.
Qed.

Lemma returned_spec (o : option frame) :
  is_some o = true -> o = Some (returned o).
Proof. destruct o; [reflexivity|discriminate]. Qed.

(** ** [clean_cmic], row by row *)

Section CleanCmicRows.

Context `{Pandas}.

Lemma convert_cols_on_rows (cols : list string) (df : frame) :
  convert_cols cols df = on_rows (convert_row cols) df.
Proof.
  revert df. induction cols as [|c cols IH]; intro df; simpl.
  - apply on_rows_pure.
  - rewrite assign_e_on_rows. apply on_rows_bind. exact IH.
Qed.

Lemma clean_cmic_rowwise (df : frame) :
  clean_cmic df = on_rows cmic_row (cmic_kept df).
Proof.
  unfold clean_cmic. cbv zeta. fold (each_row (rename cmic_columns) df).
  fold (cmic_kept df). generalize (cmic_kept df). clear df. intro df.
  rewrite !assign_each_row, !assign_e_on_rows, !on_rows_each_row.
  unfold cmic_row.
  apply on_rows_bind. intro d.
  rewrite assign_e_on_rows.
  apply on_rows_bind. clear d. intro d.
  rewrite !assign_each_row, !assign_e_on_rows, !on_rows_each_row.
  apply (on_rows_bind
           (fun r =>
              set_e "phase_no" _
                (set "phase_no" _ (set "vendor_name" _ (set "item_name" _ r))))).
  clear d. intro d.
  rewrite convert_cols_on_rows.
  apply on_rows_bind. clear d. intro d.
  apply assign_e_on_rows.
Qed.

Lemma cmic_row_inv (r r' : row) :
  cmic_row r = Some r' -> cmic_result r r'.
Proof.
  intro R. unfold cmic_row in R. cbv zeta in R.
  cbn [convert_row cols_to_convert] in R.
  bind_inv R. bind_inv E2. injection E2 as <-. set_inv.
  lookups_in_results.
  cbn [apply_text] in Ev5. injection Ev5 as <-.
  cbn [combine_cols cols_to_combine] in Ev. lookups_in Ev.
  split; cbn [combine_cols cols_to_combine]; lookups;
    try reflexivity; try assumption.
  unfold cmic_category. rewrite Ev7. exact Ev0.
Qed.

(** The renamed columns, read from the table as loaded. *)
Lemma rename_cmic (raw : row) :
  let r := rename cmic_columns raw in
  r "job_no" = raw "VLS_JOBVEN1_CODE"
  /\ r "subcontract_no" = raw "VLS_CONT_CODE"
  /\ r "vendor_no" = raw "VLS_JOBVEN2_CODE"
  /\ r "item_no" = raw "VLS_SCH_TASK_CODE"
  /\ r "category" = raw "VLS_SCH_CAT_CODE"
  /\ r "phase_no" = raw "VLS_SCH_PHS_CODE"
  /\ r "job_cost_no" = raw "VLS_SCH_JOB_CODE"
  /\ r "co_code" = raw "VLS_CHG_CODE"
  /\ r "co_date" = raw "VLS_MST_DATE".
Proof. repeat split; reflexivity. Qed.

(** The filter of [clean_cmic], on the table as loaded. *)
Lemma cmic_kept_raw (df : frame) :
  cmic_kept df
  = each_row (rename cmic_columns)
      (select (fun r => notnull (r "VLS_JOBVEN1_CODE")) df).
Proof.
  unfold cmic_kept, select, each_row.
  induction df as [|[i r] df IH]; [reflexivity|].
  cbn [map filter fst snd].
  change (rename cmic_columns r "job_no") with (r "VLS_JOBVEN1_CODE").
  destruct (notnull (r "VLS_JOBVEN1_CODE")); cbn [map fst snd]; now rewrite IH.
Qed.

(** A row is normalised whenever its casts and conversions succeed
    and its subcontract number is text or missing. *)
Lemma cmic_row_succeeds (r : row) :
  astype_int (r "job_no") <> None ->
  astype_int (r "vendor_no") <> None ->
  astype_int (r "item_no") <> None ->
  astype_int (r "job_cost_no") <> None ->
  cmic_category (r "category") <> None ->
  to_datetime (r "co_date") <> None ->
  is_text (r "subcontract_no") || isnull (r "subcontract_no") = true ->
  exists r', cmic_row r = Some r'.
Proof.
  intros J V I C K D S.
  unfold cmic_category in K.
  destruct (truediv (r "category") 100) as [q|] eqn:Eq; [|contradiction].
  unfold convert_to_str in K.
  destruct (astype_int q) as [zq|] eqn:Ezq; [|contradiction].
  destruct (to_datetime (r "co_date")) as [d|] eqn:Ed; [|contradiction].
  destruct (astype_int (r "job_no")) as [zj|] eqn:Ej; [|contradiction].
  destruct (astype_int (r "vendor_no")) as [zv|] eqn:Ev; [|contradiction].
  destruct (astype_int (r "item_no")) as [zi|] eqn:Ei; [|contradiction].
  destruct (astype_int (r "job_cost_no")) as [zc|] eqn:Ec; [|contradiction].
  unfold cmic_row. cbv zeta.
  rewrite (set_e_ok "category" _ _ q) by (lookups; exact Eq).
  rewrite (set_e_ok "co_date" _ _ d) by (lookups; exact Ed).
  erewrite (set_e_ok "phase_no") by (lookups; reflexivity).
  cbn [convert_row cols_to_convert].
  rewrite (set_e_ok "job_no" _ _ (Str (PyStr.of_Z zj)))
    by (lookups; unfold convert_to_str; now rewrite Ej).
  rewrite (set_e_ok "vendor_no" _ _ (Str (PyStr.of_Z zv)))
    by (lookups; unfold convert_to_str; now rewrite Ev).
  rewrite (set_e_ok "item_no" _ _ (Str (PyStr.of_Z zi)))
    by (lookups; unfold convert_to_str; now rewrite Ei).
  rewrite (set_e_ok "job_cost_no" _ _ (Str (PyStr.of_Z zc)))
    by (lookups; unfold convert_to_str; now rewrite Ec).
  rewrite (set_e_ok "category" _ _ (Str (PyStr.of_Z zq)))
    by (lookups; unfold convert_to_str; now rewrite Ezq).
  unfold set_e. cbn [combine_cols cols_to_combine]. lookups.
  destruct (r "subcontract_no") as [|s| | | |]; try discriminate S;
    cbn [py_add]; eexists; reflexivity.
Qed.

Lemma cmic_row_raises (r : row) :
  astype_int (r "vendor_no") = None
  \/ astype_int (r "item_no") = None
  \/ astype_int (r "job_cost_no") = None
  \/ cmic_category (r "category") = None ->
  cmic_row r = None.
Proof.
  intro F. destruct (cmic_row r) as [r'|] eqn:R; [|reflexivity].
  apply cmic_row_inv in R. destruct R. exfalso.
  unfold convert_to_str in *.
  destruct F as [F|[F|[F|F]]]; rewrite F in *; discriminate.
Qed.

(** The rows of the result, one for each row that passed the filter. *)
Lemma clean_cmic_rows (df out : frame) :
  clean_cmic df = Some out ->
  Forall2 (fun ir ir' => fst ir' = fst ir
                         /\ cmic_result (rename cmic_columns (snd ir)) (snd ir'))
    (select (fun r => notnull (r "VLS_JOBVEN1_CODE")) df) out.
Proof.
  rewrite clean_cmic_rowwise, cmic_kept_raw. intro M.
  apply on_rows_Forall2 in M. unfold each_row in M.
  apply Forall2_map_left in M.
  eapply Forall2_impl; [|exact M].
  intros ir ir' [E R]. split; [exact E|]. apply cmic_row_inv. exact R.
Qed.

(** The frame [clean_cmic] returns has the index labels of the input
    rows with a job number, in their order. *)
Lemma clean_cmic_index (df out : frame) :
  clean_cmic df = Some out ->
  map fst out
  = map fst (select (fun r => notnull (r "VLS_JOBVEN1_CODE")) df).
Proof.
  intro C. apply clean_cmic_rows in C.
  induction C as [|ir ir' l l' [E _] _ IH]; [reflexivity|].
  cbn [map]. now rewrite E, IH.
Qed.

End CleanCmicRows.

(** ** Properties of [clean_cmic] *)

Section CleanCmicProperties.

Context `{Pandas}.

Lemma cont_or_co_of_code (code : cell) :
  match num_of code with
  | Some q => cmic_cont_or_co code = if Qeq_bool q 0 then "Contract" else "CO"
  | None => cmic_cont_or_co code = "CO"
  end.
Proof.
  unfold cmic_cont_or_co. destruct code as [|s|z|q|b|t]; reflexivity.
Qed.

Lemma to_numeric_not_number (c : cell) :
  num_of (to_numeric_coerce c) = None -> to_numeric_coerce c = Null.
Proof.
  destruct c as [|s|z|q|b|t]; simpl; try discriminate; try reflexivity.
  destruct (numeric_of_str s); [discriminate|reflexivity].
Qed.

(** C5.  In the frame [clean_cmic] returns, which has one row for each
    input row with a job number, [co_code] is the change code as
    [to_numeric] reads it.  When that is a number, [cont_or_co] is
    "Contract" if the number equals 0 and "CO" otherwise; when the change
    code is not a number it has been coerced to a missing value and
    [cont_or_co] is "CO". *)
Theorem cmic_cont_or_co_by_co_code (df out : frame) :
  clean_cmic df = Some out ->
  Forall2
    (fun ir ir' : nat * row =>
       let code := to_numeric_coerce (snd ir "VLS_CHG_CODE") in
       snd ir' "co_code" = code
       /\ match num_of code with
          | Some q =>
              snd ir' "cont_or_co"
              = Str (if Qeq_bool q 0 then "Contract" else "CO")
          | None => code = Null /\ snd ir' "cont_or_co" = Str "CO"
          end)
    (select (fun r => notnull (r "VLS_JOBVEN1_CODE")) df) out.
Proof.
  intro C. apply clean_cmic_rows in C.
  eapply Forall2_impl; [|exact C].
  intros ir ir' [_ R]. destruct R as [_ _ _ _ _ _ Rcode Rtag _ _ _ _ _].
  change (rename cmic_columns (snd ir) "co_code")
    with (snd ir "VLS_CHG_CODE") in *.
  cbv zeta. split; [exact Rcode|].
  pose proof (cont_or_co_of_code (to_numeric_coerce (snd ir "VLS_CHG_CODE"))) as T.
  pose proof (to_numeric_not_number (snd ir "VLS_CHG_CODE")) as N.
  destruct (num_of (to_numeric_coerce (snd ir "VLS_CHG_CODE"))).
  - rewrite Rtag, T. reflexivity.
  - split; [now apply N|]. rewrite Rtag, T. reflexivity.
Qed.

Lemma not_castable_category (c : cell) :
  int_castable c = false -> cmic_category c = None.
Proof.
  unfold int_castable, cmic_category.
  destruct c as [|s|z|q|b|t]; simpl; try discriminate; reflexivity.
Qed.

(** C10.  The only filter of [clean_cmic] is the one on the job number:
    the frame it returns has exactly the rows of the input whose job
    number is present.  And the casts have no guard: when a row with a
    job number holds, as vendor number, item number, job-cost number or
    category, a value that [astype(int)] does not accept (a missing
    value, or text that is not an integer), [clean_cmic] raises. *)
Theorem clean_cmic_unguarded_casts (df : frame) :
  (forall out,
     clean_cmic df = Some out ->
     map fst out
     = map fst (select (fun r => notnull (r "VLS_JOBVEN1_CODE")) df))
  /\ (forall (ir : nat * row) (col : string),
        In ir df ->
        notnull (snd ir "VLS_JOBVEN1_CODE") = true ->
        In col ["VLS_JOBVEN2_CODE"; "VLS_SCH_TASK_CODE"; "VLS_SCH_JOB_CODE";
                "VLS_SCH_CAT_CODE"] ->
        int_castable (snd ir col) = false ->
        clean_cmic df = None).
Proof.
  split.
  - intros out C. now apply clean_cmic_index.
  - intros ir col I J C U.
    rewrite clean_cmic_rowwise, cmic_kept_raw.
    apply (on_rows_None _ _ (fst ir, rename cmic_columns (snd ir))).
    + unfold each_row. apply in_map_iff. exists ir. split; [reflexivity|].
      apply filter_In. split; assumption.
    + cbn [snd]. apply cmic_row_raises.
      unfold int_castable in U. cbn [In] in C.
      destruct C as [<-|[<-|[<-|[<-|[]]]]].
      * left.
        change (rename cmic_columns (snd ir) "vendor_no")
          with (snd ir "VLS_JOBVEN2_CODE").
        destruct (astype_int _); [discriminate|reflexivity].
      * right; left.
        change (rename cmic_columns (snd ir) "item_no")
          with (snd ir "VLS_SCH_TASK_CODE").
        destruct (astype_int _); [discriminate|reflexivity].
      * right; right; left.
        change (rename cmic_columns (snd ir) "job_cost_no")
          with (snd ir "VLS_SCH_JOB_CODE").
        destruct (astype_int _); [discriminate|reflexivity].
      * right; right; right.
        change (rename cmic_columns (snd ir) "category")
          with (snd ir "VLS_SCH_CAT_CODE").
        now apply not_castable_category.
Qed.

(** C9.  A CMIC line with job number 100, subcontract number "5", item
    number 20, phase "0010000", the number 300 as category and change
    code 0, whose other codes can be converted, is normalised to
    category "3", the phase unchanged, "Contract" and the key
    "100_5_20_0010000_3_Contract".  The job and item numbers may be
    numbers or text that [astype(int)] reads; the category has to be a
    number, since it is divided by 100. *)
Theorem cmic_scenario (i : nat) (raw : row) :
  astype_int (raw "VLS_JOBVEN1_CODE") = Some 100%Z ->
  raw "VLS_CONT_CODE" = Str "5" ->
  astype_int (raw "VLS_SCH_TASK_CODE") = Some 20%Z ->
  raw "VLS_SCH_PHS_CODE" = Str "0010000" ->
  raw "VLS_SCH_CAT_CODE" = Int 300 ->
  raw "VLS_CHG_CODE" = Int 0 ->
  int_castable (raw "VLS_JOBVEN2_CODE") = true ->
  int_castable (raw "VLS_SCH_JOB_CODE") = true ->
  to_datetime (raw "VLS_MST_DATE") <> None ->
  exists r',
    clean_cmic [(i, raw)] = Some [(i, r')]
    /\ r' "category" = Str "3"
    /\ r' "phase_no" = Str "0010000"
    /\ r' "cont_or_co" = Str "Contract"
    /\ r' "ID" = Str "100_5_20_0010000_3_Contract".
Proof.
  intros J S I P C K V JC D.
  rewrite clean_cmic_rowwise, cmic_kept_raw.
  assert (N : notnull (raw "VLS_JOBVEN1_CODE") = true).
  { destruct (raw "VLS_JOBVEN1_CODE"); [discriminate J|reflexivity..]. }
  cbn [select filter snd]. rewrite N. cbn [each_row map fst snd].
  pose (r := rename cmic_columns raw).
  destruct (rename_cmic raw) as (Rj & Rs & Rv & Ri & Rc & Rp & Rjc & Rk & Rd).
  fold r in Rj, Rs, Rv, Ri, Rc, Rp, Rjc, Rk, Rd |- *.
  unfold int_castable in V, JC.
  destruct (cmic_row_succeeds r) as [r' R].
  - rewrite Rj, J. discriminate.
  - rewrite Rv. intro E. rewrite E in V. discriminate V.
  - rewrite Ri, I. discriminate.
  - rewrite Rjc. intro E. rewrite E in JC. discriminate JC.
  - rewrite Rc, C. discriminate.
  - rewrite Rd. exact D.
  - rewrite Rs, S. reflexivity.
  - exists r'. unfold on_rows. cbn [mapM fst snd]. rewrite R.
    split; [reflexivity|].
    destruct (cmic_row_inv _ _ R)
      as [Qj _ Qi _ Qc _ _ Qt Qp Qs _ _ Qid].
    unfold convert_to_str in Qj, Qi.
    rewrite Rj, J in Qj. rewrite Ri, I in Qi. rewrite Rc, C in Qc.
    rewrite Rk, K in Qt. rewrite Rp, P in Qp. rewrite Rs, S in Qs.
    injection Qj as Qj. injection Qi as Qi.
    assert (Qc' : r' "category" = Str "3").
    { vm_compute in Qc. now injection Qc. }
    assert (Qt' : r' "cont_or_co" = Str "Contract") by exact Qt.
    assert (Qp' : r' "phase_no" = Str "0010000") by exact Qp.
    repeat split; try assumption.
    cbn [combine_cols cols_to_combine] in Qid.
    rewrite <- Qj, Qs, <- Qi, Qp', Qc', Qt' in Qid.
    vm_compute in Qid. now injection Qid.
Qed.

End CleanCmicProperties.

(** *** On the example tables *)

(** The tags of the example CMIC table. *)
Lemma cmic_cont_or_co_by_co_code_witness :
  Forall2
    (fun ir ir' : nat * row =>
       let code := @to_numeric_coerce Plain.pandas (snd ir "VLS_CHG_CODE") in
       snd ir' "co_code" = code
       /\ match num_of code with
          | Some q =>
              snd ir' "cont_or_co"
              = Str (if Qeq_bool q 0 then "Contract" else "CO")
          | None => code = Null /\ snd ir' "cont_or_co" = Str "CO"
          end)
    (select (fun r => notnull (r "VLS_JOBVEN1_CODE")) Example.cmic_table)
    (returned (@clean_cmic Plain.pandas Example.cmic_table)).
Proof.
  apply cmic_cont_or_co_by_co_code.
  apply returned_spec. vm_compute. reflexivity.
Defined.

(** A missing vendor number makes [clean_cmic] raise. *)
Lemma clean_cmic_unguarded_casts_witness :
  @clean_cmic Plain.pandas Example.cmic_table_no_vendor = None.
Proof.
  apply (proj2 (@clean_cmic_unguarded_casts Plain.pandas
                  Example.cmic_table_no_vendor)
           (1, upd "VLS_JOBVEN2_CODE" Null Example.scenario) "VLS_JOBVEN2_CODE").
  - right. left. reflexivity.
  - reflexivity.
  - left. reflexivity.
  - reflexivity.
Defined.

(** The category of the scenario as text: [clean_cmic] raises. *)
Lemma cmic_scenario_text_category_raises :
  @clean_cmic Plain.pandas (range_index [Example.scenario_text]) = None.
Proof. vm_compute. reflexivity. Qed.

(** The scenario with the job and item numbers as text and the
    category a number. *)
Lemma cmic_scenario_witness :
  exists r',
    @clean_cmic Plain.pandas
      [(0, upd "VLS_SCH_CAT_CODE" (Int 300) Example.scenario_text)]
    = Some [(0, r')]
    /\ r' "category" = Str "3"
    /\ r' "phase_no" = Str "0010000"
    /\ r' "cont_or_co" = Str "Contract"
    /\ r' "ID" = Str "100_5_20_0010000_3_Contract".
Proof.
  apply cmic_scenario; try reflexivity. discriminate.
Defined.

(** ** [clean_sl], row by row *)

Section CleanSlRows.

Context `{Pandas}.

Lemma to_amount_assign_e (l : label) (df d' : frame) :
  to_amount l df = Some d' ->
  assign_e l (fun r => astype_float (str_replace_comma (r l))) df = Some d'.
Proof.
  unfold to_amount. now destruct (has_str_accessor _).
Qed.

Ltac frame_to_rows :=
  let d' := fresh "d" in
  let E := fresh "E" in
  intros d' E; try apply to_amount_assign_e in E; rewrite <- E;
  rewrite ?assign_each_row, assign_e_on_rows, ?on_rows_each_row;
  reflexivity.

Lemma sl_fields_rows : refines sl_fields sl_row.
Proof.
  unfold sl_fields, sl_row. cbv zeta.
  do 14 (intros ? ?; apply refine_step; [frame_to_rows|]).
  intros dl ol E. rewrite <- E. symmetry. apply assign_e_on_rows.
Qed.

Lemma sl_row_inv (r r' : row) : sl_row r = Some r' -> sl_result r r'.
Proof.
  intro R. unfold sl_row in R. cbv zeta in R.
  bind_inv R. set_inv. lookups_in_results.
  cbn [combine_cols cols_to_combine] in Ev. lookups_in Ev.
  split; intros; cbn [combine_cols cols_to_combine]; lookups;
    try reflexivity; assumption.
Qed.

(** The rows of the frame [clean_sl] returns, in terms of the rows
    that passed its filter. *)
Lemma sl_fields_Forall2 (df out : frame) :
  sl_fields df = Some out ->
  Forall2 (fun ir ir' => fst ir' = fst ir /\ sl_result (snd ir) (snd ir'))
    df out.
Proof.
  intro E. apply sl_fields_rows in E. apply on_rows_Forall2 in E.
  eapply Forall2_impl; [|exact E].
  intros ir ir' [I R]. split; [exact I|]. now apply sl_row_inv.
Qed.

End CleanSlRows.

(** ** De-duplication, filter and sort of [clean_sl] *)

Lemma drop_duplicates_from_In (subset : list label) (seen : list (list cell))
  (df : frame) (ir : nat * row) :
  In ir (drop_duplicates_from subset seen df) -> In ir df.
Proof.
  revert seen. induction df as [|x df IH]; intros seen I; [contradiction|].
  cbn in I. destruct (existsb _ seen).
  - right. now apply (IH seen).
  - destruct I as [->|I]; [now left|]. right. now apply (IH _ I).
Qed.

Lemma drop_duplicates_from_new (subset : list label) (seen : list (list cell))
  (df : frame) :
  Forall (fun ir => existsb (keys_eqb (key_of subset (snd ir))) seen = false)
    (drop_duplicates_from subset seen df).
Proof.
  revert seen. induction df as [|x df IH]; intro seen; [constructor|].
  cbn. destruct (existsb _ seen) eqn:E; [apply IH|].
  constructor; [exact E|].
  eapply Forall_impl; [|apply (IH (key_of subset (snd x) :: seen))].
  intros ir N. cbn in N. now apply orb_false_elim in N.
Qed.

Lemma drop_duplicates_from_distinct (subset : list label)
  (seen : list (list cell)) (df : frame) :
  ForallOrdPairs
    (fun a b => keys_eqb (key_of subset (snd a)) (key_of subset (snd b)) = false)
    (drop_duplicates_from subset seen df).
Proof.
  revert seen. induction df as [|x df IH]; intro seen; [constructor|].
  cbn. destruct (existsb _ seen); [apply IH|].
  constructor; [|apply IH].
  eapply Forall_impl; [|apply drop_duplicates_from_new].
  intros ir N. cbn in N. apply orb_false_elim in N.
  rewrite keys_eqb_sym. exact (proj1 N).
Qed.

Lemma insert_by_index_In (x y : nat * row) (l : frame) :
  In y (insert_by_index x l) <-> y = x \/ In y l.
Proof.
  induction l as [|z l IH]; cbn.
  - split; intros [->|[]]; now left.
  - destruct (Nat.leb (fst x) (fst z)); cbn.
    + split; intros [E|I]; auto.
    + rewrite IH. split; intros [E|[E|I]]; auto.
Qed.

Lemma sort_index_In (y : nat * row) (l : frame) :
  In y (sort_index l) <-> In y l.
Proof.
  induction l as [|x l IH]; cbn; [reflexivity|].
  rewrite insert_by_index_In, IH. split; intros [E|I]; auto.
Qed.

Lemma insert_by_index_count (x : nat * row) (l : frame) (i : nat) :
  count_occ Nat.eq_dec (map fst (insert_by_index x l)) i
  = count_occ Nat.eq_dec (map fst (x :: l)) i.
Proof.
  induction l as [|y l IH]; [reflexivity|].
  cbn [insert_by_index]. destruct (Nat.leb (fst x) (fst y)); [reflexivity|].
  cbn [map count_occ] in *.
  destruct (Nat.eq_dec (fst y) i), (Nat.eq_dec (fst x) i); rewrite IH; reflexivity.
Qed.

Lemma sort_index_count (l : frame) (i : nat) :
  count_occ Nat.eq_dec (map fst (sort_index l)) i
  = count_occ Nat.eq_dec (map fst l) i.
Proof.
  induction l as [|x l IH]; [reflexivity|].
  cbn [sort_index]. rewrite insert_by_index_count. cbn [map count_occ].
  now rewrite IH.
Qed.

Lemma insert_by_index_sorted (x : nat * row) (l : frame) :
  StronglySorted (fun a b => fst a <= fst b) l ->
  StronglySorted (fun a b => fst a <= fst b) (insert_by_index x l).
Proof.
  induction 1 as [|y l S IH F]; cbn [insert_by_index].
  - repeat constructor.
  - destruct (Nat.leb (fst x) (fst y)) eqn:E.
    + apply Nat.leb_le in E. constructor; [now constructor|].
      constructor; [exact E|].
      eapply Forall_impl; [|exact F]. intros z Z. cbn in *. lia.
    + apply Nat.leb_gt in E. constructor; [exact IH|].
      apply Forall_forall. intros z Z. apply insert_by_index_In in Z.
      destruct Z as [->|Z]; [lia|].
      now apply (proj1 (Forall_forall _ _) F).
Qed.

(** [sort_index] returns the rows in the order of their index labels. *)
Lemma sort_index_sorted (l : frame) :
  StronglySorted (fun a b => fst a <= fst b) (sort_index l).
Proof.
  induction l as [|x l IH]; [constructor|].
  now apply insert_by_index_sorted.
Qed.

(** The filter keeps a row once for each of the two conditions it
    meets: the number of rows with index label [i] after the filter is
    the number of "Contract" rows with that label plus the number of
    dated rows with that label. *)
Lemma sl_filter_count (d : frame) (i : nat) :
  count_occ Nat.eq_dec (map fst (sl_filter d)) i
  = count_occ Nat.eq_dec
      (map fst (select (fun r => py_eq (r "cont_or_co") (Str "Contract")) d)) i
    + count_occ Nat.eq_dec
        (map fst (select (fun r => negb (isnull (r "co_date"))) d)) i.
Proof.
  unfold sl_filter. now rewrite sort_index_count, map_app, count_occ_app.
Qed.

(** A dated "Contract" row is in the filtered frame at least twice. *)
Lemma sl_filter_repeats_dated_contract (d : frame) (i : nat) (r : row) :
  In (i, r) d ->
  py_eq (r "cont_or_co") (Str "Contract") = true ->
  isnull (r "co_date") = false ->
  2 <= count_occ Nat.eq_dec (map fst (sl_filter d)) i.
Proof.
  intros I C D. rewrite sl_filter_count.
  assert (A : forall p : row -> bool,
             p r = true -> 1 <= count_occ Nat.eq_dec (map fst (select p d)) i).
  { intros p P. apply count_occ_In.
    apply in_map_iff. exists (i, r). split; [reflexivity|].
    apply filter_In. now split. }
  pose proof (A (fun r => py_eq (r "cont_or_co") (Str "Contract")) C) as A1.
  assert (D' : negb (isnull (r "co_date")) = true) by now rewrite D.
  pose proof (A (fun r => negb (isnull (r "co_date"))) D') as A2.
  lia.
Qed.

(** ** Properties of [clean_sl] *)

Section CleanSlProperties.

Context `{Pandas}.

(** Every row of the de-duplicated frame is an input row with its tag
    and its date. *)
Lemma sl_dedup_rows (df d : frame) (ir : nat * row) :
  sl_dedup df = Some d ->
  In ir d ->
  exists ir0 date,
    In ir0 df /\ fst ir = fst ir0
    /\ to_datetime (snd ir0 (Pos 102)) = Some date
    /\ snd ir = sl_tagged (snd ir0) date.
Proof.
  unfold sl_dedup. cbv zeta. intros E I.
  destruct (assign_e _ _ _) as [d0|] eqn:A; [|discriminate].
  injection E as <-. apply drop_duplicates_from_In in I.
  unfold assign_e in A.
  destruct (mapM_In _ _ _ _ A I) as [[i r1] [I1 F]].
  unfold assign in I1. rewrite map_map in I1.
  apply in_map_iff in I1. destruct I1 as [[i0 r0] [E0 I0]].
  cbn [fst snd] in E0. injection E0 as Ei Er. subst i r1.
  cbn [fst snd] in F. lookups_in F.
  destruct (to_datetime (r0 (Pos 102))) as [date|] eqn:D; [|discriminate].
  injection F as <-. exists (i0, r0), date. repeat split; assumption.
Qed.

Lemma sl_filter_In (d : frame) (ir : nat * row) :
  In ir (sl_filter d) ->
  In ir d
  /\ (py_eq (snd ir "cont_or_co") (Str "Contract") = true
      \/ isnull (snd ir "co_date") = false).
Proof.
  unfold sl_filter, select. rewrite sort_index_In, in_app_iff, !filter_In.
  intros [[I C]|[I D]]; split; auto.
  right. now apply negb_true_iff.
Qed.

(** Every row of the frame [clean_sl] returns comes from an input row:
    it has the positional columns of that row, its tag and its date. *)
Lemma clean_sl_rows (df out : frame) (ir' : nat * row) :
  clean_sl df = Some out ->
  In ir' out ->
  exists ir0 date,
    In ir0 df /\ fst ir' = fst ir0
    /\ to_datetime (snd ir0 (Pos 102)) = Some date
    /\ sl_result (sl_tagged (snd ir0) date) (snd ir')
    /\ (sl_cont_or_co (snd ir0 (Pos 47)) (snd ir0 (Pos 48)) = "Contract"
        \/ isnull date = false).
Proof.
  unfold clean_sl. intros E I.
  destruct (sl_dedup df) as [d|] eqn:D; [|discriminate].
  apply sl_fields_Forall2 in E.
  destruct (Forall2_In_right _ _ _ _ E I) as [ir [Iir [Ei R]]].
  apply sl_filter_In in Iir. destruct Iir as [Id K].
  destruct (sl_dedup_rows _ _ _ D Id) as (ir0 & date & I0 & E0 & T & S).
  exists ir0, date. rewrite S in R, K.
  split; [exact I0|]. split; [congruence|]. split; [exact T|].
  split; [exact R|].
  unfold sl_tagged in K. lookups_in K.
  destruct K as [K|K]; [left|right; exact K].
  apply py_eq_text in K. now injection K.
Qed.

Lemma sl_cont_or_co_cases (a b : cell) :
  (sl_cont_or_co a b = "Contract" /\ py_eq a b = true)
  \/ (sl_cont_or_co a b = "CO" /\ py_eq a b = false).
Proof.
  unfold sl_cont_or_co. destruct (py_eq a b); [left|right]; now split.
Qed.

(** C3.  [sl_cont_or_co] answers "Contract" if and only if the two
    amounts are both present and equal, and "CO" as soon as one of them
    is missing, also when both are; and in every row of the frame
    [clean_sl] returns, [cont_or_co] is what [sl_cont_or_co] answers for
    the amounts in columns 47 and 48 of that row. *)
Theorem sl_cont_or_co_by_amounts (df : frame) :
  (forall a b,
     sl_cont_or_co a b = "Contract"
     <-> isnull a = false /\ isnull b = false /\ py_eq a b = true)
  /\ (forall a b,
        isnull a = true \/ isnull b = true -> sl_cont_or_co a b = "CO")
  /\ (forall out,
        clean_sl df = Some out ->
        Forall
          (fun ir : nat * row =>
             snd ir "cont_or_co"
             = Str (sl_cont_or_co (snd ir (Pos 47)) (snd ir (Pos 48))))
          out).
Proof.
  split; [|split].
  - intros a b.
    destruct (sl_cont_or_co_cases a b) as [[-> Q]|[-> Q]].
    + pose proof (py_eq_present _ _ Q) as [Na Nb]. now split.
    + split; [discriminate|]. intros (_ & _ & Q'). congruence.
  - intros a b N.
    destruct (sl_cont_or_co_cases a b) as [[_ Q]|[E _]]; [|exact E].
    apply py_eq_present in Q. destruct Q as [Na Nb].
    destruct N as [N|N]; congruence.
  - intros out E. apply Forall_forall. intros ir I.
    destruct (clean_sl_rows _ _ _ E I) as (ir0 & date & _ & _ & _ & R & _).
    destruct R as [Rp Rt _ _ _ _ _ _ _].
    unfold sl_tagged in Rt, Rp. lookups_in Rt.
    rewrite Rt, (Rp 47), (Rp 48). lookups. reflexivity.
Qed.

(** C8.  What normalisation makes unique is not [ID].  After the
    de-duplication step of [clean_sl] no two rows agree on column 41,
    column 42, [cont_or_co] and [co_date]; [clean_cmic] removes no
    duplicate at all: it returns one record for each input row that has
    a job number. *)
Theorem dedup_key_is_not_id :
  (forall df d,
     sl_dedup df = Some d ->
     ForallOrdPairs (fun a b => keys_eqb (sl_key a) (sl_key b) = false) d)
  /\ (forall df out,
        clean_cmic df = Some out ->
        List.length out
        = List.length (select (fun r => notnull (r "VLS_JOBVEN1_CODE")) df)).
Proof.
  split.
  - intros df d E. unfold sl_dedup in E. cbv zeta in E.
    destruct (assign_e _ _ _) as [d0|]; [|discriminate].
    injection E as <-. apply drop_duplicates_from_distinct.
  - intros df out E.
    pose proof (clean_cmic_index df out E) as M.
    apply (f_equal (@List.length nat)) in M.
    now rewrite !length_map in M.
Qed.

End CleanSlProperties.

(** *** On the example tables *)

(** A line whose two amounts are both missing is tagged "CO". *)
Lemma sl_missing_amounts_tagged_co :
  map (fun ir : nat * row =>
         (snd ir (Pos 47), snd ir (Pos 48), snd ir "cont_or_co"))
    (returned (@clean_sl Plain.pandas (range_index [ExampleSl.no_amounts])))
  = [(Null, Null, Str "CO")].
Proof. vm_compute. reflexivity. Qed.

(** The tags of the example SL table. *)
Lemma sl_cont_or_co_by_amounts_witness :
  Forall
    (fun ir : nat * row =>
       snd ir "cont_or_co"
       = Str (sl_cont_or_co (snd ir (Pos 47)) (snd ir (Pos 48))))
    (returned (@clean_sl Plain.pandas ExampleSl.sl_table)).
Proof.
  apply (proj2 (proj2 (@sl_cont_or_co_by_amounts Plain.pandas
                         ExampleSl.sl_table))).
  apply returned_spec. vm_compute. reflexivity.
Defined.

(** C4.  The frame [clean_sl] returns for a contract line, a contract
    line that carries a date and a dated change order: index labels,
    tags and dates.  The dated contract line (label 1) is there twice. *)
Lemma sl_dated_contract_kept_twice :
  map (fun ir : nat * row => (fst ir, snd ir "cont_or_co", snd ir "co_date"))
    (returned
       (@clean_sl Plain.pandas
          (range_index [ExampleSl.contract; ExampleSl.dated_contract;
                        ExampleSl.change_order_1])))
  = [ (0, Str "Contract", Null);
      (1, Str "Contract", Date 1570579200000000000);
      (1, Str "Contract", Date 1570579200000000000);
      (2, Str "CO", Date 1570579200000000000) ].
Proof. vm_compute. reflexivity. Qed.

(** Two change orders of one item have the same [ID], in the CMIC
    frame (index labels 1 and 2) and in the SL frame (labels 1 and 3). *)
Lemma change_orders_share_id :
  map (fun ir : nat * row => (fst ir, snd ir "co_date", snd ir "ID"))
    (returned (@clean_cmic Plain.pandas Example.cmic_table))
  = [ (0, Null, Str "100_5_20_0010000_3_Contract");
      (1, Date 1570579200000000000, Str "100_5_20_0010000_3_CO");
      (2, Date 1574208000000000000, Str "100_5_20_0010000_3_CO");
      (3, Null, Str "100_5_21_0010000_3_CO") ]
  /\ map (fun ir : nat * row => (fst ir, snd ir "co_date", snd ir "ID"))
       (returned (@clean_sl Plain.pandas ExampleSl.sl_table))
     = [ (0, Null, Str "100_5_20_0010000_3_Contract");
         (1, Date 1570579200000000000, Str "100_5_20_0010000_3_CO");
         (3, Date 1574208000000000000, Str "100_5_20_0010000_3_CO") ].
Proof. split; vm_compute; reflexivity. Qed.

(** The de-duplicated example SL table. *)
Lemma dedup_key_is_not_id_witness :
  ForallOrdPairs (fun a b => keys_eqb (sl_key a) (sl_key b) = false)
    (returned (@sl_dedup Plain.pandas ExampleSl.sl_table)).
Proof.
  apply (proj1 (@dedup_key_is_not_id Plain.pandas) ExampleSl.sl_table).
  apply returned_spec. vm_compute. reflexivity.
Defined.

(** ** The join key *)

Lemma append_sep_inj (a b t u : string) :
  has_sep a = false -> has_sep b = false ->
  String.append (String.append a "_") t = String.append (String.append b "_") u ->
  a = b /\ t = u.
Proof.
  revert b. induction a as [|c a IH]; intros [|c' b] Ha Hb E; cbn in *.
  - injection E as E. now split.
  - injection E as Ec E. subst c'. cbn in Hb. discriminate Hb.
  - injection E as Ec E. subst c. cbn in Ha. discriminate Ha.
  - injection E as Ec E. subst c'.
    apply orb_false_elim in Ha, Hb.
    destruct (IH b (proj2 Ha) (proj2 Hb) E) as [-> ->]. now split.
Qed.

Lemma combine_cols_cons (r : row) (c c' : string) (cols : list string) :
  combine_cols r (c :: c' :: cols)
  = (a <- py_add (r c) (Str "_") ;;
     b <- combine_cols r (c' :: cols) ;;
     py_add a b).
Proof. reflexivity. Qed.

(** The key of a row whose fields are text. *)
Lemma combine_cols_text (r : row) (c : string) (cols : list string) (s : string)
  (k : cell) :
  r c = Str s ->
  combine_cols r (c :: cols) = Some k ->
  cols <> [] ->
  combine_cols r cols = Some Null /\ k = Null
  \/ exists t, combine_cols r cols = Some (Str t)
               /\ k = Str (String.append (String.append s "_") t).
Proof.
  intros E K N. destruct cols as [|c' cols]; [contradiction|].
  rewrite combine_cols_cons, E in K. cbn [py_add] in K.
  destruct (combine_cols r (c' :: cols)) as [[|t| | | |]|]; try discriminate K;
    cbn [py_add num_of] in K; try discriminate K.
  - injection K as <-. now left.
  - injection K as <-. right. now exists t.
Qed.

Lemma combine_cols_deterministic (r1 r2 : row) (cols : list string) :
  (forall c, In c cols -> r1 (Name c) = r2 (Name c)) ->
  combine_cols r1 cols = combine_cols r2 cols.
Proof.
  induction cols as [|c cols IH]; intro E; [reflexivity|].
  cbn [combine_cols]. rewrite (E c) by now left.
  destruct cols as [|c' cols]; [reflexivity|].
  rewrite IH; [reflexivity|]. intros x I. apply E. now right.
Qed.

(** On rows whose fields are text, without separator in all fields but
    the last, [combine_cols] is injective. *)
Lemma combine_cols_injective (r1 r2 : row) (cols : list string) (last : string) :
  (forall c, In c cols ->
             text_without_sep (r1 (Name c)) /\ text_without_sep (r2 (Name c))) ->
  is_text (r1 last) = true -> is_text (r2 last) = true ->
  forall k,
    combine_cols r1 (cols ++ [last]) = Some k ->
    combine_cols r2 (cols ++ [last]) = Some k ->
    forall c, In c (cols ++ [last]) -> r1 (Name c) = r2 (Name c).
Proof.
  intros T L1 L2.
  induction cols as [|c cols IH]; intros k K1 K2 x I.
  - cbn in *. destruct I as [<-|[]]. congruence.
  - destruct (T c (or_introl eq_refl)) as [[s1 [E1 S1]] [s2 [E2 S2]]].
    assert (N : cols ++ [last] <> []) by now destruct cols.
    assert (T' : forall c0, In c0 cols ->
                 text_without_sep (r1 (Name c0)) /\ text_without_sep (r2 (Name c0))).
    { intros c0 I0. apply T. now right. }
    assert (X : forall r : row,
               (forall c0, In c0 cols -> text_without_sep (r (Name c0))) ->
               is_text (r last) = true ->
               combine_cols r (cols ++ [last]) <> Some Null).
    { clear. intros r Tr Lr. induction cols as [|c cols IH]; cbn [app].
      - cbn. destruct (r last); try discriminate Lr. discriminate.
      - destruct (Tr c (or_introl eq_refl)) as [s [E _]].
        assert (N : cols ++ [last] <> []) by now destruct cols.
        intro K. destruct (combine_cols_text r c _ s _ E K N)
          as [[K' _]|[t [_ Q]]]; [|discriminate Q].
        revert K'. apply IH. intros c0 I0. apply Tr. now right. }
    cbn [app] in K1, K2.
    destruct (combine_cols_text r1 c _ s1 k E1 K1 N) as [[K1' _]|[t1 [K1' Q1]]].
    { exfalso. revert K1'. apply X; [|exact L1].
      intros c0 I0. apply (T' c0 I0). }
    destruct (combine_cols_text r2 c _ s2 k E2 K2 N) as [[K2' _]|[t2 [K2' Q2]]].
    { exfalso. revert K2'. apply X; [|exact L2].
      intros c0 I0. apply (T' c0 I0). }
    rewrite Q1 in Q2. injection Q2 as Q2.
    destruct (append_sep_inj _ _ _ _ S1 S2 Q2) as [-> ->].
    cbn [app] in I. destruct I as [<-|I]; [congruence|].
    apply (IH T' (Str t2)); assumption.
Qed.

Section NormalisedKey.

Context `{Pandas}.

(** In a normalised row, [ID] is what [combine_cols] makes of the six
    key fields, and [cont_or_co] is text. *)
Lemma normalised_ID (r : row) :
  normalised r ->
  combine_cols r cols_to_combine = Some (r "ID")
  /\ is_text (r "cont_or_co") = true.
Proof.
  intros (df & out & i & [E|E] & I).
  - apply clean_cmic_rows in E.
    destruct (Forall2_In_right _ _ _ _ E I) as [ir [_ [_ R]]].
    cbn [snd] in R. destruct R as [_ _ _ _ _ _ _ Rt _ _ _ _ Rid].
    split; [exact Rid|]. now rewrite Rt.
  - destruct (clean_sl_rows _ _ _ E I) as (ir0 & date & _ & _ & _ & R & _).
    cbn [snd] in R. destruct R as [_ Rt _ _ _ _ _ _ Rid].
    split; [exact Rid|]. rewrite Rt. unfold sl_tagged. lookups. reflexivity.
Qed.

(** C1.  For the records of both sources the key is a function of the
    six key fields: records with the same fields have the same [ID].
    Records whose fields [job_no], [subcontract_no], [item_no],
    [phase_no] and [category] are text without the separator "_" and
    that have the same [ID] have the same six fields. *)
Theorem id_injective_without_separator (r1 r2 : row) :
  normalised r1 -> normalised r2 ->
  ((forall c : string, In c cols_to_combine -> r1 c = r2 c) ->
   r1 "ID" = r2 "ID")
  /\ ((forall c : string,
         In c separated_cols ->
         text_without_sep (r1 c) /\ text_without_sep (r2 c)) ->
      r1 "ID" = r2 "ID" ->
      forall c : string, In c cols_to_combine -> r1 c = r2 c).
Proof.
  intros N1 N2.
  destruct (normalised_ID _ N1) as [K1 T1].
  destruct (normalised_ID _ N2) as [K2 T2].
  split.
  - intro E. apply (combine_cols_deterministic r1 r2) in E.
    rewrite K1, K2 in E. now injection E.
  - intros S E. rewrite <- E in K2.
    exact (combine_cols_injective r1 r2 separated_cols "cont_or_co"
             S T1 T2 (r1 "ID") K1 K2).
Qed.

End NormalisedKey.

(** Two CMIC lines with different key fields and the same [ID]: the
    separator occurs inside a field. *)
Lemma separator_collision :
  map (fun ir : nat * row =>
         (map (fun c : string => snd ir c) cols_to_combine, snd ir "ID"))
    (returned (@clean_cmic Plain.pandas ExampleKey.collision_table))
  = [ ([Str "100"; Str "5_20"; Str "7"; Str "0010000"; Str "3"; Str "CO"],
       Str "100_5_20_7_0010000_3_CO");
      ([Str "100"; Str "5"; Str "20"; Str "7_0010000"; Str "3"; Str "CO"],
       Str "100_5_20_7_0010000_3_CO") ].
Proof. vm_compute. reflexivity. Qed.

(** The rows of the example CMIC frame are normalised rows. *)
Lemma example_cmic_normalised (n : nat) :
  n < List.length ExampleCompare.cmic ->
  @normalised Plain.pandas (snd (ExampleCompare.row_at n ExampleCompare.cmic)).
Proof.
  intro L.
  exists Example.cmic_table, ExampleCompare.cmic,
    (fst (ExampleCompare.row_at n ExampleCompare.cmic)).
  split.
  - left. apply returned_spec. vm_compute. reflexivity.
  - rewrite <- surjective_pairing. now apply nth_In.
Qed.

(** The two change orders of the example CMIC frame: the same key and
    the same key fields. *)
Lemma id_injective_without_separator_witness :
  let r1 := snd (ExampleCompare.row_at 1 ExampleCompare.cmic) in
  let r2 := snd (ExampleCompare.row_at 2 ExampleCompare.cmic) in
  r1 "ID" = r2 "ID"
  /\ Forall (fun c : string => r1 c = r2 c) cols_to_combine.
Proof.
  cbv zeta. split; [vm_compute; reflexivity|].
  apply Forall_forall.
  apply (@id_injective_without_separator Plain.pandas).
  - apply example_cmic_normalised. vm_compute. repeat constructor.
  - apply example_cmic_normalised. vm_compute. repeat constructor.
  - intros c I. cbn [separated_cols In] in I.
    destruct I as [<-|[<-|[<-|[<-|[<-|[]]]]]];
      split; eexists; split; vm_compute; reflexivity.
  - vm_compute. reflexivity.
Defined.

(** ** The comparison, row by row *)

Lemma compare_cols_rows (cols : list string) (df : frame) :
  compare_cols df cols
  = map (fun ir => (fst ir, compare_row (snd ir) cols)) df.
Proof.
  revert df. induction cols as [|c cols IH]; intro df; simpl.
  - unfold compare_row. simpl. rewrite <- (map_id df) at 1.
    apply map_ext. now intros [].
  - rewrite IH. unfold assign. rewrite map_map. reflexivity.
Qed.

Lemma compare_row_zcomparison (r : row) (col : string) :
  In col cols_to_compare ->
  compare_row r cols_to_compare (zcomparison_of col)
  = Bool (py_eq (r (cmic_of col)) (r (sl_of col))).
Proof.
  intro I. unfold cols_to_compare in I. simpl in I.
  repeat (destruct I as [<-|I]; [reflexivity|]). contradiction.
Qed.

Lemma compare_row_cmic (r : row) (col : string) :
  In col suffixed_cols ->
  compare_row r cols_to_compare (cmic_of col) = r (cmic_of col).
Proof.
  intro I. unfold suffixed_cols in I. simpl in I.
  repeat (destruct I as [<-|I]; [reflexivity|]). contradiction.
Qed.

Lemma compare_row_sl (r : row) (col : string) :
  In col suffixed_cols ->
  compare_row r cols_to_compare (sl_of col) = r (sl_of col).
Proof.
  intro I. unfold suffixed_cols in I. simpl in I.
  repeat (destruct I as [<-|I]; [reflexivity|]). contradiction.
Qed.

Lemma compare_row_ID (r : row) :
  compare_row r cols_to_compare "ID" = r "ID".
Proof. reflexivity. Qed.

Lemma force_contract_dates_rows (df : frame) :
  force_contract_dates df = map (fun ir => (fst ir, force_row (snd ir))) df.
Proof.
  apply map_ext. intros [i r]. unfold force_row. simpl.
  now destruct (py_eq (r "cont_or_co_sl") (Str "Contract")
                && py_eq (r "cont_or_co_cmic") (Str "Contract")).
Qed.

Lemma compare_dfs_rows (cmic sl : frame) :
  compare_dfs cmic sl
  = map (fun ir => (fst ir, force_row (compare_row (snd ir) cols_to_compare)))
      (merged cmic sl).
Proof.
  unfold compare_dfs. rewrite force_contract_dates_rows, compare_cols_rows.
  rewrite map_map. reflexivity.
Qed.

Lemma force_row_contract (r : row) :
  r "cont_or_co_cmic" = Str "Contract" ->
  r "cont_or_co_sl" = Str "Contract" ->
  force_row r "co_date_zcomparison" = Bool true.
Proof.
  intros E1 E2. unfold force_row. rewrite E1, E2. reflexivity.
Qed.

Lemma force_row_other (r : row) (l : label) :
  label_eqb l "co_date_zcomparison" = false -> force_row r l = r l.
Proof.
  intro N. unfold force_row.
  destruct (_ && _); [|reflexivity]. unfold upd. now rewrite N.
Qed.

Lemma compare_dfs_row_shape (cmic sl : frame) (ir : nat * row) :
  In ir (compare_dfs cmic sl) ->
  exists m, In m (merged cmic sl)
            /\ snd ir = force_row (compare_row (snd m) cols_to_compare).
Proof.
  rewrite compare_dfs_rows. intro I.
  apply in_map_iff in I. destruct I as [m [<- I]]. now exists m.
Qed.

Lemma suffixed_not_forced (col : string) :
  In col suffixed_cols ->
  label_eqb (cmic_of col) "co_date_zcomparison" = false
  /\ label_eqb (sl_of col) "co_date_zcomparison" = false.
Proof.
  unfold suffixed_cols. simpl. intro S.
  repeat (destruct S as [<-|S]; [split; reflexivity|]). contradiction.
Qed.

Lemma compared_are_suffixed (col : string) :
  In col cols_to_compare -> In col suffixed_cols.
Proof. unfold cols_to_compare, suffixed_cols. simpl. tauto. Qed.

Lemma zcomparison_forced_iff (col : string) :
  In col cols_to_compare ->
  label_eqb (zcomparison_of col) "co_date_zcomparison" = String.eqb col "co_date".
Proof.
  unfold cols_to_compare. simpl. intro S.
  repeat (destruct S as [<-|S]; [reflexivity|]). contradiction.
Qed.

Lemma force_row_cases (r : row) (l : label) :
  force_row r l = r l
  \/ (r "cont_or_co_cmic" = Str "Contract" /\ r "cont_or_co_sl" = Str "Contract").
Proof.
  unfold force_row.
  destruct (py_eq (r "cont_or_co_sl") (Str "Contract")) eqn:Esl;
    [|left; reflexivity].
  destruct (py_eq (r "cont_or_co_cmic") (Str "Contract")) eqn:Ecmic;
    [|left; reflexivity].
  right. split; apply py_eq_text; assumption.
Qed.

Lemma compared_ID (m : row) :
  force_row (compare_row m cols_to_compare) "ID" = m "ID".
Proof. rewrite force_row_other by reflexivity. apply compare_row_ID. Qed.

(** ** Properties of the comparison columns *)

(** C6.  In every row of the frame [compare_dfs] returns in which both
    [cont_or_co_cmic] and [cont_or_co_sl] are "Contract",
    [co_date_zcomparison] is true, whatever the two dates are. *)
Theorem contract_rows_force_co_date (cmic sl : frame) (ir : nat * row) :
  In ir (compare_dfs cmic sl) ->
  snd ir "cont_or_co_cmic" = Str "Contract" ->
  snd ir "cont_or_co_sl" = Str "Contract" ->
  snd ir "co_date_zcomparison" = Bool true.
Proof.
  intros I. destruct (compare_dfs_row_shape _ _ _ I) as [m [_ E]].
  rewrite E. intros E1 E2.
  rewrite force_row_other in E1, E2 by reflexivity.
  apply force_row_contract; assumption.
Qed.

(** A row of two contract lines whose dates differ. *)
Lemma contract_rows_force_co_date_witness :
  let ir := ExampleCompare.row_at 0 ExampleCompare.combined in
  snd ir "co_date_cmic" = Null
  /\ snd ir "co_date_sl" = Date 1570579200000000000
  /\ snd ir "co_date_zcomparison" = Bool true.
Proof.
  cbv zeta. split; [vm_compute; reflexivity|].
  split; [vm_compute; reflexivity|].
  apply (contract_rows_force_co_date ExampleCompare.cmic ExampleCompare.sl).
  - apply nth_In. vm_compute. repeat constructor.
  - vm_compute. reflexivity.
  - vm_compute. reflexivity.
Defined.

(** C7.  For every compared column and every row of the frame
    [compare_dfs] returns, if the [_cmic] value and the [_sl] value of
    the column are both missing then its [_zcomparison] value is false,
    except for [co_date] in a row where both sides are "Contract". *)
Theorem null_fields_compare_false
  (cmic sl : frame) (ir : nat * row) (col : string) :
  In ir (compare_dfs cmic sl) ->
  In col cols_to_compare ->
  snd ir (cmic_of col) = Null ->
  snd ir (sl_of col) = Null ->
  ~ (col = "co_date"
     /\ snd ir "cont_or_co_cmic" = Str "Contract"
     /\ snd ir "cont_or_co_sl" = Str "Contract") ->
  snd ir (zcomparison_of col) = Bool false.
Proof.
  intros I C. destruct (compare_dfs_row_shape _ _ _ I) as [m [_ E]].
  rewrite E. clear E I. intros E1 E2 N.
  pose proof (compared_are_suffixed _ C) as S.
  destruct (suffixed_not_forced _ S) as [F1 F2].
  rewrite force_row_other in E1, E2 by exact F1 || exact F2.
  rewrite compare_row_cmic in E1 by exact S.
  rewrite compare_row_sl in E2 by exact S.
  rewrite (force_row_other _ "cont_or_co_cmic") in N by reflexivity.
  rewrite (force_row_other _ "cont_or_co_sl") in N by reflexivity.
  assert (Z : compare_row (snd m) cols_to_compare (zcomparison_of col) = Bool false).
  { rewrite compare_row_zcomparison by exact C. rewrite E1. reflexivity. }
  destruct (String.eqb col "co_date") eqn:D.
  - destruct (force_row_cases (compare_row (snd m) cols_to_compare)
                (zcomparison_of col)) as [F|[K1 K2]].
    + rewrite F. exact Z.
    + exfalso. apply N. apply String.eqb_eq in D. split; [exact D|].
      split; [exact K1|exact K2].
  - rewrite force_row_other; [exact Z|].
    rewrite zcomparison_forced_iff by exact C. exact D.
Qed.

(** A row whose key only the CMIC frame has: both dates are missing. *)
Lemma null_fields_compare_false_witness :
  let ir := ExampleCompare.row_at 4 ExampleCompare.combined in
  snd ir (zcomparison_of "co_date") = Bool false.
Proof.
  cbv zeta.
  apply (null_fields_compare_false ExampleCompare.cmic ExampleCompare.sl).
  - apply nth_In. vm_compute. repeat constructor.
  - vm_compute. tauto.
  - vm_compute. reflexivity.
  - vm_compute. reflexivity.
  - intros (_ & _ & C). vm_compute in C. discriminate C.
Defined.

(** ** The outer join *)

(** The keys of a join, each class of equal keys once. *)
Lemma distinct_keys_count (k : cell) (seen ks : list cell) :
  List.length (filter (fun x => key_eqb x k) (distinct_keys seen ks))
  = if existsb (fun x => key_eqb x k) seen then 0
    else if existsb (fun x => key_eqb x k) ks then 1 else 0.
Proof.
  revert seen. induction ks as [|x ks IH]; intro seen.
  - cbn. now destruct (existsb _ seen).
  - cbn [distinct_keys existsb].
    destruct (existsb (key_eqb x) seen) eqn:S.
    + rewrite IH. destruct (existsb (fun y => key_eqb y k) seen) eqn:K;
        [reflexivity|].
      destruct (key_eqb x k) eqn:X; [|reflexivity].
      exfalso. apply existsb_exists in S. destruct S as [y [Iy Ey]].
      assert (existsb (fun y => key_eqb y k) seen = true); [|congruence].
      apply existsb_exists. exists y. split; [exact Iy|].
      rewrite key_eqb_sym in Ey. now rewrite (key_eqb_congr _ _ _ Ey).
    + cbn [filter]. destruct (key_eqb x k) eqn:X.
      * cbn [List.length]. rewrite IH. cbn [existsb]. rewrite X. cbn [orb].
        destruct (existsb (fun y => key_eqb y k) seen) eqn:K; [|reflexivity].
        exfalso. apply existsb_exists in K. destruct K as [y [Iy Ey]].
        assert (existsb (key_eqb x) seen = true); [|congruence].
        apply existsb_exists. exists y. split; [exact Iy|].
        rewrite (key_eqb_congr _ _ _ X). now rewrite key_eqb_sym.
      * rewrite IH. cbn [existsb]. rewrite X. reflexivity.
Qed.

Lemma merge_keys_count (k : cell) (left right : list row) :
  List.length (filter (fun x => key_eqb x k) (merge_keys "ID" left right))
  = if existsb (fun x => key_eqb x k)
         (map (fun r : row => r "ID") left ++ map (fun r : row => r "ID") right)
    then 1 else 0.
Proof.
  unfold merge_keys.
  rewrite (filter_split_length _ notnull isnull).
  - now rewrite distinct_keys_count.
  - intro x. unfold notnull. now rewrite negb_involutive.
Qed.

Lemma join_row_ID (k : cell) (l r : option row) : join_row k l r "ID" = k.
Proof. reflexivity. Qed.

Lemma join_row_cmic (k : cell) (l r : option row) (col : string) :
  In col suffixed_cols -> join_row k l r (cmic_of col) = side l col.
Proof.
  intro I. unfold suffixed_cols in I. simpl in I.
  repeat (destruct I as [<-|I]; [reflexivity|]). contradiction.
Qed.

Lemma join_row_sl (k : cell) (l r : option row) (col : string) :
  In col suffixed_cols -> join_row k l r (sl_of col) = side r col.
Proof.
  intro I. unfold suffixed_cols in I. simpl in I.
  repeat (destruct I as [<-|I]; [reflexivity|]). contradiction.
Qed.

Lemma merge_group_rows (left right : list row) (k : cell) (m : row) :
  In m (merge_group "ID" suffixed_cols "_cmic" "_sl" left right k) ->
  group_row left right k m.
Proof.
  unfold merge_group.
  destruct (with_key "ID" k left) as [|l0 ls] eqn:L.
  - intro I. apply in_map_iff in I. destruct I as [r [<- I]].
    now apply (right_only _ _ _ _ r).
  - destruct (with_key "ID" k right) as [|r0 rs] eqn:R.
    + intro I. apply in_map_iff in I. destruct I as [l [<- I]].
      apply (left_only _ _ _ _ l); [now rewrite L|exact R|reflexivity].
    + intro I. apply in_flat_map in I. destruct I as [l [Il I]].
      apply in_map_iff in I. destruct I as [r [<- Ir]].
      apply (both_sides _ _ _ _ l r); [now rewrite L|now rewrite R|reflexivity].
Qed.

Lemma with_key_In (k : cell) (rows : list row) (x : row) :
  In x (with_key "ID" k rows) -> key_eqb (x "ID") k = true.
Proof. unfold with_key. rewrite filter_In. tauto. Qed.

Lemma group_row_ID (left right : list row) (k : cell) (m : row) :
  group_row left right k m -> key_eqb (m "ID") k = true.
Proof.
  intros [l r Il _ ->|l Il _ ->|r _ Ir ->]; rewrite join_row_ID;
    eapply with_key_In; eassumption.
Qed.

Lemma with_key_congr (k k' : cell) (rows : list row) :
  key_eqb k' k = true -> with_key "ID" k' rows = with_key "ID" k rows.
Proof.
  intro E. unfold with_key. apply filter_ext. intro r.
  apply eq_true_iff_eq. rewrite !key_eqb_class. rewrite key_eqb_class in E.
  rewrite E. reflexivity.
Qed.

Lemma merge_group_length (left right : list row) (k : cell) :
  List.length (merge_group "ID" suffixed_cols "_cmic" "_sl" left right k)
  = joined (List.length (with_key "ID" k left))
      (List.length (with_key "ID" k right)).
Proof.
  unfold merge_group.
  destruct (with_key "ID" k left) as [|l0 ls];
    destruct (with_key "ID" k right) as [|r0 rs];
    rewrite ?length_map; try reflexivity.
  now rewrite
    (product_length (fun l r : row => join_row (l "ID") (Some l) (Some r))).
Qed.

Lemma with_key_exists (k : cell) (rows : list row) :
  existsb (fun x => key_eqb x k) (map (fun r : row => r "ID") rows)
  = negb (Nat.eqb (List.length (with_key "ID" k rows)) 0).
Proof.
  induction rows as [|r rows IH]; [reflexivity|].
  cbn [map existsb with_key filter]. fold (with_key "ID" k rows).
  destruct (key_eqb (r "ID") k); [reflexivity|]. exact IH.
Qed.

Lemma compare_dfs_snd (cmic sl : frame) :
  map snd (compare_dfs cmic sl)
  = map (fun m => force_row (compare_row m cols_to_compare))
      (flat_map
         (merge_group "ID" suffixed_cols "_cmic" "_sl"
            (kept_rows cmic) (kept_rows sl))
         (merge_keys "ID" (kept_rows cmic) (kept_rows sl))).
Proof.
  rewrite compare_dfs_rows, map_map. cbn [snd].
  rewrite <- (map_map snd (fun m => force_row (compare_row m cols_to_compare))).
  unfold merged, merge_outer. now rewrite map_snd_range_index.
Qed.

Lemma id_count_rows (k : cell) (df : frame) :
  id_count k df
  = List.length (filter (fun r : row => key_eqb (r "ID") k) (map snd df)).
Proof. unfold id_count. symmetry. now apply filter_map_length. Qed.

Lemma kept_rows_count (k : cell) (df : frame) :
  List.length (with_key "ID" k (kept_rows df)) = id_count k df.
Proof.
  unfold with_key, kept_rows, keep, id_count. rewrite map_map. cbn [snd].
  now apply filter_map_length.
Qed.

Lemma group_count (left right : list row) (k k' : cell) :
  List.length
    (filter (fun r : row => key_eqb (r "ID") k)
       (merge_group "ID" suffixed_cols "_cmic" "_sl" left right k'))
  = if key_eqb k' k
    then joined (List.length (with_key "ID" k left))
           (List.length (with_key "ID" k right))
    else 0.
Proof.
  rewrite (filter_all_or_none _ (key_eqb k' k)).
  - destruct (key_eqb k' k) eqn:E; [|reflexivity].
    now rewrite merge_group_length, !(with_key_congr k k') by exact E.
  - intros m I. apply merge_group_rows, group_row_ID in I.
    now apply key_eqb_congr.
Qed.

Lemma join_count (left right : list row) (k : cell) :
  List.length
    (filter (fun r : row => key_eqb (r "ID") k)
       (flat_map (merge_group "ID" suffixed_cols "_cmic" "_sl" left right)
          (merge_keys "ID" left right)))
  = joined (List.length (with_key "ID" k left))
      (List.length (with_key "ID" k right)).
Proof.
  rewrite filter_flat_map_length.
  rewrite (map_ext _ _ (group_count left right k)).
  rewrite (sum_selected (fun k' => key_eqb k' k)), merge_keys_count.
  rewrite existsb_app, !with_key_exists.
  destruct (List.length (with_key "ID" k left)),
    (List.length (with_key "ID" k right)); cbn; lia.
Qed.

(** A row of the result whose key only one side has. *)
Lemma one_sided_row (cmic sl : frame) (k : cell) (ir : nat * row) :
  In ir (compare_dfs cmic sl) ->
  key_eqb (snd ir "ID") k = true ->
  exists m,
    snd ir = force_row (compare_row m cols_to_compare)
    /\ group_row (kept_rows cmic) (kept_rows sl) k m.
Proof.
  intros I K.
  apply (in_map snd) in I. rewrite compare_dfs_snd in I.
  apply in_map_iff in I. destruct I as [m [E I]].
  exists m. split; [now symmetry|].
  apply in_flat_map in I. destruct I as [k' [_ I]].
  apply merge_group_rows in I.
  rewrite <- E, compared_ID in K.
  pose proof (group_row_ID _ _ _ _ I) as K'.
  assert (Q : key_eqb k' k = true).
  { rewrite <- (key_eqb_congr _ _ k K'). exact K. }
  destruct I as [l r Il Ir M|l Il R M|r L Ir M];
    rewrite ?(with_key_congr k k') in * by exact Q.
  - now apply (both_sides _ _ _ _ l r).
  - now apply (left_only _ _ _ _ l).
  - now apply (right_only _ _ _ _ r).
Qed.

(** C2.  [compare_dfs] is an outer join on [ID].  A key that occurs
    [m] times in the CMIC frame and [n] times in the SL frame occurs in
    the result once for each pair of a CMIC and an SL row that carry
    it, and once for each row that carries it when only one frame has
    it; in particular a key of either frame that occurs at most once in
    each occurs exactly once.  In the rows of a key that only the CMIC
    frame has, all [_sl] columns are missing, and in the rows of a key
    that only the SL frame has, all [_cmic] columns are. *)
Theorem outer_join_by_id (cmic sl : frame) (k : cell) :
  let out := compare_dfs cmic sl in
  let m := id_count k cmic in
  let n := id_count k sl in
  id_count k out = joined m n
  /\ (0 < m + n -> m <= 1 -> n <= 1 -> id_count k out = 1)
  /\ (n = 0 ->
      forall (ir : nat * row) (col : string),
        In ir out -> key_eqb (snd ir "ID") k = true ->
        In col suffixed_cols -> snd ir (sl_of col) = Null)
  /\ (m = 0 ->
      forall (ir : nat * row) (col : string),
        In ir out -> key_eqb (snd ir "ID") k = true ->
        In col suffixed_cols -> snd ir (cmic_of col) = Null).
Proof.
  cbv zeta.
  assert (C : id_count k (compare_dfs cmic sl)
              = joined (id_count k cmic) (id_count k sl)).
  { rewrite id_count_rows, compare_dfs_snd.
    rewrite (filter_map_length _ (fun r : row => key_eqb (r "ID") k)).
    - now rewrite join_count, !kept_rows_count.
    - intros m _. now rewrite compared_ID. }
  split; [exact C|]. split.
  { intros P M N. rewrite C.
    destruct (id_count k cmic) as [|[|m]], (id_count k sl) as [|[|n]];
      cbn; lia. }
  split.
  - intros N ir col I K S.
    destruct (one_sided_row _ _ _ _ I K) as [m [E G]]. rewrite E.
    rewrite force_row_other by apply (suffixed_not_forced _ S).
    rewrite compare_row_sl by exact S.
    rewrite <- kept_rows_count in N. apply length_zero_nil in N.
    destruct G as [l r _ Ir _|l _ _ ->|r _ Ir _].
    + rewrite N in Ir. contradiction.
    + rewrite join_row_sl by exact S. reflexivity.
    + rewrite N in Ir. contradiction.
  - intros M ir col I K S.
    destruct (one_sided_row _ _ _ _ I K) as [m [E G]]. rewrite E.
    rewrite force_row_other by apply (suffixed_not_forced _ S).
    rewrite compare_row_cmic by exact S.
    rewrite <- kept_rows_count in M. apply length_zero_nil in M.
    destruct G as [l r Il _ _|l Il _ _|r _ _ ->].
    + rewrite M in Il. contradiction.
    + rewrite M in Il. contradiction.
    + rewrite join_row_cmic by exact S. reflexivity.
Qed.

(** The key of the two CMIC change orders occurs twice in the CMIC
    frame, once in the SL frame, and twice in the result. *)
Lemma outer_join_repeats_id :
  map (fun ir : nat * row => snd ir "ID") ExampleCompare.cmic
  = [ Str "100_5_20_0010000_3_Contract"; Str "100_5_20_0010000_3_CO";
      Str "100_5_20_0010000_3_CO"; Str "100_5_21_0010000_3_CO" ]
  /\ map (fun ir : nat * row => snd ir "ID") ExampleCompare.sl_single
     = [ Str "100_5_20_0010000_3_Contract"; Str "100_5_20_0010000_3_CO" ]
  /\ map (fun ir : nat * row => snd ir "ID")
       (compare_dfs ExampleCompare.cmic ExampleCompare.sl_single)
     = [ Str "100_5_20_0010000_3_Contract"; Str "100_5_20_0010000_3_CO";
         Str "100_5_20_0010000_3_CO"; Str "100_5_21_0010000_3_CO" ].
Proof. repeat split; vm_compute; reflexivity. Qed.

(** A key that only the CMIC frame has: once in the result, with the
    [_sl] columns missing. *)
Lemma outer_join_by_id_witness :
  let k := Str "100_5_21_0010000_3_CO" in
  let out := compare_dfs ExampleCompare.cmic ExampleCompare.sl_single in
  id_count k out = 1
  /\ Forall (fun col => snd (ExampleCompare.row_at 3 out) (sl_of col) = Null)
       suffixed_cols.
Proof.
  cbv zeta.
  pose proof (outer_join_by_id ExampleCompare.cmic ExampleCompare.sl_single
                (Str "100_5_21_0010000_3_CO")) as T.
  cbv zeta in T. destruct T as (_ & Once & Left & _).
  split.
  - apply Once; vm_compute; repeat constructor.
  - apply Forall_forall. intros col S. apply Left.
    + vm_compute. reflexivity.
    + apply nth_In. vm_compute. repeat constructor.
    + vm_compute. reflexivity.
    + exact S.
Defined.

(** * Further properties *)

(** ** Splitting file names *)

Lemma of_rev_cons (c : ascii) (acc : list ascii) (s : string) :
  String.append (PyStr.of_rev (c :: acc)) s
  = String.append (PyStr.of_rev acc) (String c s).
Proof.
  unfold PyStr.of_rev. cbn [rev].
  generalize (rev acc). intro l.
  induction l as [|a l IH]; cbn; [reflexivity|]. now rewrite IH.
Qed.

Lemma append_nil_right (s : string) : String.append s "" = s.
Proof. induction s as [|c s IH]; cbn; [reflexivity|]. now rewrite IH. Qed.

Lemma append_assoc (a b c : string) :
  String.append (String.append a b) c = String.append a (String.append b c).
Proof. induction a as [|x a IH]; cbn; [reflexivity|]. now rewrite IH. Qed.

(** A text without white space is one word. *)
Lemma split_ws_aux_word (tok : string) (acc : list ascii) :
  no_space tok = true ->
  PyText.split_ws_aux tok acc
  = match acc, tok with
    | [], EmptyString => []
    | _, _ => [String.append (PyStr.of_rev acc) tok]
    end.
Proof.
  revert acc. induction tok as [|c tok IH]; intros acc N.
  - cbn. destruct acc; [reflexivity|]. now rewrite append_nil_right.
  - cbn in N. apply andb_prop in N. destruct N as [Nc N].
    apply negb_true_iff in Nc. cbn [PyText.split_ws_aux]. rewrite Nc.
    rewrite (IH _ N), of_rev_cons. now destruct acc.
Qed.

(** The last word of a text that ends with a space and a word. *)
Lemma split_ws_aux_last (tok s : string) (acc : list ascii) :
  no_space tok = true -> tok <> "" ->
  exists xs,
    PyText.split_ws_aux (String.append s (String " " tok)) acc = xs ++ [tok].
Proof.
  intros N E. revert acc. induction s as [|c s IH]; intro acc.
  - cbn [String.append PyText.split_ws_aux].
    change (PyStr.isspace " ") with true. cbv iota.
    rewrite (split_ws_aux_word _ _ N).
    destruct tok as [|t tok]; [contradiction|].
    change (PyStr.of_rev []) with "". cbn [String.append].
    destruct acc as [|a acc]; [exists []|exists [PyStr.of_rev (a :: acc)]];
      reflexivity.
  - cbn [String.append PyText.split_ws_aux].
    destruct (PyStr.isspace c).
    + destruct acc as [|a acc].
      * apply IH.
      * destruct (IH []) as [xs ->]. now exists (PyStr.of_rev (a :: acc) :: xs).
    + apply IH.
Qed.

Lemma item_last_app (xs : list string) (x : string) :
  item_last (xs ++ [x]) = Some x.
Proof. unfold item_last. now rewrite rev_app_distr. Qed.

Lemma prefix_nil (s : string) : String.prefix "" s = true.
Proof. now destruct s. Qed.

(** The part of a text before its first dot. *)
Lemma split_dot_head (j ext : string) (acc : list ascii) :
  no_dot j = true ->
  PyStr.split_aux "." (String.append j (String "." ext)) 0 acc
  = String.append (PyStr.of_rev acc) j :: PyStr.split_aux "." ext 0 [].
Proof.
  revert acc. induction j as [|c j IH]; intros acc N.
  - cbn. now rewrite prefix_nil, append_nil_right.
  - unfold no_dot in *. cbn [avoids] in N.
    apply andb_prop in N. destruct N as [Nc N].
    apply negb_true_iff in Nc.
    cbn [String.append PyStr.split_aux String.prefix].
    destruct (ascii_dec "." c) as [<-|D]; [now rewrite Ascii.eqb_refl in Nc|].
    now rewrite (IH _ N), of_rev_cons.
Qed.

Lemma prefix_app (a s b : string) :
  String.prefix a s = true -> String.prefix a (String.append s b) = true.
Proof.
  revert s. induction a as [|x a IH]; intros s P; [apply prefix_nil|].
  destruct s as [|y s]; [discriminate|]. cbn in *.
  destruct (ascii_dec x y); [now apply IH|discriminate].
Qed.

Lemma contains_nil (s : string) : PyText.contains "" s = true.
Proof. now destruct s. Qed.

Lemma contains_app (sub a b : string) :
  PyText.contains sub a = true ->
  PyText.contains sub (String.append a b) = true.
Proof.
  induction a as [|c a IH]; intro C.
  - cbn in C. destruct sub; [|discriminate]. apply contains_nil.
  - cbn [PyText.contains String.append] in *.
    apply orb_true_iff in C. apply orb_true_iff. destruct C as [P|C].
    + left. now apply (prefix_app _ (String c a)).
    + right. now apply IH.
Qed.

Lemma prefix_split (a s : string) :
  String.prefix a s = true -> exists b, s = String.append a b.
Proof.
  revert s. induction a as [|x a IH]; intros s P; [now exists s|].
  destruct s as [|y s]; [discriminate|]. cbn in P.
  destruct (ascii_dec x y) as [<-|]; [|discriminate].
  destruct (IH _ P) as [b ->]. now exists b.
Qed.

Lemma no_space_app (a b : string) :
  no_space (String.append a b) = no_space a && no_space b.
Proof.
  unfold no_space. induction a as [|c a IH]; cbn; [reflexivity|].
  now rewrite IH, andb_assoc.
Qed.

(** ** The loader *)

(** X1.  The job number of a CMIC file whose name ends with a space,
    the job number, a dot and an extension is that job number, whatever
    comes before the space. *)
Theorem job_no_of_spaced_name (pre job ext : string) :
  no_space job = true -> no_dot job = true -> no_space ext = true ->
  job_no_of_file
    (String.append pre (String " " (String.append job (String "." ext))))
  = Some job.
Proof.
  intros Nj Dj Ne. unfold job_no_of_file, PyText.split_ws.
  destruct (split_ws_aux_last (String.append job (String "." ext)) pre [])
    as [xs ->].
  - rewrite no_space_app, Nj. exact Ne.
  - now destruct job.
  - rewrite item_last_app. unfold PyStr.split.
    now rewrite split_dot_head.
Qed.

Lemma job_no_of_spaced_name_witness :
  job_no_of_file "/data/cmic 100.txt" = Some "100".
Proof.
  apply (job_no_of_spaced_name "/data/cmic" "100" "txt"); reflexivity.
Defined.

(** X2.  The job number of a CMIC path without white space is the
    whole path up to its first dot, the directory included. *)
Theorem job_no_of_unspaced_path (head ext : string) :
  no_space (String.append head (String "." ext)) = true ->
  no_dot head = true ->
  job_no_of_file (String.append head (String "." ext)) = Some head.
Proof.
  intros N D. unfold job_no_of_file, PyText.split_ws.
  rewrite (split_ws_aux_word _ _ N).
  change (PyStr.of_rev []) with "". cbn [String.append].
  replace (match String.append head (String "." ext) with
           | "" => []
           | String _ _ => [String.append head (String "." ext)]
           end)
    with ([] ++ [String.append head (String "." ext)])
    by now destruct head.
  rewrite item_last_app. unfold PyStr.split. now rewrite split_dot_head.
Qed.

Lemma job_no_of_unspaced_path_witness :
  job_no_of_file "./cmic_100.txt" = Some ""
  /\ job_no_of_file "/data/cmic_100.txt" = Some "/data/cmic_100".
Proof.
  split.
  - apply (job_no_of_unspaced_path "" "/cmic_100.txt"); reflexivity.
  - apply (job_no_of_unspaced_path "/data/cmic_100" "txt"); reflexivity.
Defined.

(** X3.  When the job number occurs in the text of the location, and
    so whenever the job number is empty, every SL path that starts
    with the location is taken for a match: the SL file compared is the
    first one of the list, whatever its name. *)
Theorem sl_file_of_job_in_location (loc job : string)
  (sl_files : list string) :
  PyText.contains job loc = true ->
  Forall (fun s => String.prefix loc s = true) sl_files ->
  sl_file_of job sl_files = nth_error sl_files 0.
Proof.
  intros C F. unfold sl_file_of.
  destruct F as [|s l P _]; [reflexivity|].
  destruct (prefix_split _ _ P) as [b ->].
  cbn [filter]. now rewrite contains_app.
Qed.

Lemma sl_file_of_job_in_location_witness :
  sl_file_of "100" ["/jobs/100/sl 200.csv"; "/jobs/100/sl 100.csv"]
  = Some "/jobs/100/sl 200.csv".
Proof.
  apply (sl_file_of_job_in_location "/jobs/100/" "100"
           ["/jobs/100/sl 200.csv"; "/jobs/100/sl 100.csv"]).
  - reflexivity.
  - repeat constructor.
Defined.

Lemma sl_file_of_none (job : string) (sl_files : list string) :
  Forall (fun s => PyText.contains job s = false) sl_files ->
  sl_file_of job sl_files = None.
Proof.
  unfold sl_file_of. induction 1 as [|s l C _ IH]; [reflexivity|].
  cbn [filter]. now rewrite C.
Qed.

Section FileLoaderProperties.

Context `{Pandas}.

Variable read_table : string -> option frame.
Variable read_csv : string -> option frame.

Lemma file_loader_app (loc : string) (done rest sl_files : list string)
  (ws : list (string * frame)) :
  Forall2 (fun f w => compare_files read_table read_csv loc sl_files f = Some w)
    done ws ->
  file_loader read_table read_csv loc (done ++ rest) sl_files
  = (ws ++ fst (file_loader read_table read_csv loc rest sl_files),
     snd (file_loader read_table read_csv loc rest sl_files)).
Proof.
  induction 1 as [|f w done ws E _ IH]; cbn [app file_loader].
  - now destruct (file_loader _ _ _ _ _).
  - rewrite E, IH. reflexivity.
Qed.

(** X4.  When no SL path contains the job number of a CMIC file, the
    loader raises at this file: the comparisons of the CMIC files
    before it have been written, and nothing is written for this file
    and for the files after it. *)
Theorem file_loader_without_sl_file (loc cmic_file job : string)
  (done rest sl_files : list string) (ws : list (string * frame)) :
  Forall2 (fun f w => compare_files read_table read_csv loc sl_files f = Some w)
    done ws ->
  job_no_of_file cmic_file = Some job ->
  Forall (fun s => PyText.contains job s = false) sl_files ->
  file_loader read_table read_csv loc (done ++ cmic_file :: rest) sl_files
  = (ws, false).
Proof.
  intros D J N. rewrite (file_loader_app _ _ _ _ _ D).
  cbn [file_loader]. unfold compare_files.
  rewrite J, (sl_file_of_none _ _ N). cbn. now rewrite app_nil_r.
Qed.

End FileLoaderProperties.

Lemma file_loader_without_sl_file_witness :
  @file_loader Plain.pandas ExampleLoader.read_table ExampleLoader.read_csv
    "/d/" (["/d/cmic 100.txt"] ++ "/d/cmic 300.txt" :: [])
    ExampleLoader.sl_files
  = ([("/d/comparison_100.csv",
       compare_dfs ExampleCompare.cmic ExampleCompare.sl)], false).
Proof.
  apply (@file_loader_without_sl_file Plain.pandas ExampleLoader.read_table
           ExampleLoader.read_csv "/d/" "/d/cmic 300.txt" "300"
           ["/d/cmic 100.txt"] [] ExampleLoader.sl_files).
  - constructor; [|constructor].
    assert (C : @clean_cmic Plain.pandas Example.cmic_table
                = Some ExampleCompare.cmic)
      by (apply returned_spec; vm_compute; reflexivity).
    assert (S : @clean_sl Plain.pandas
                  (range_index
                     [ExampleSl.dated_contract; ExampleSl.change_order_1])
                = Some ExampleCompare.sl)
      by (apply returned_spec; vm_compute; reflexivity).
    unfold compare_files.
    change (job_no_of_file "/d/cmic 100.txt") with (Some "100").
    change (sl_file_of "100" ExampleLoader.sl_files)
      with (Some "/d/sl 100.csv").
    change (comparison_file "/d/" "100") with "/d/comparison_100.csv".
    unfold ExampleLoader.read_table, ExampleLoader.read_csv.
    rewrite C, S. reflexivity.
  - reflexivity.
  - repeat constructor.
Defined.

(** ** When [clean_cmic] returns *)


Lemma Forall2_In_left {A B : Type} (R : A -> B -> Prop)
  (l : list A) (l' : list B) (x : A) :
  Forall2 R l l' -> In x l -> exists y, In y l' /\ R x y.
Proof.
  induction 1 as [|a b l l' Rab _ IH]; intro I; [contradiction|].
  destruct I as [<-|I].
  - exists b. split; [now left|exact Rab].
  - destruct (IH I) as [y [Iy Ry]]. exists y. split; [now right|exact Ry].
Qed.

Section CleanCmicReturns.

Context `{Pandas}.




End CleanCmicReturns.

(** ** The fields [clean_cmic] normalises *)

Lemma length_append (a b : string) :
  String.length (String.append a b) = String.length a + String.length b.
Proof. induction a as [|c a IH]; cbn; [reflexivity|]. now rewrite IH. Qed.

Lemma pad_phase_length (x : string) : String.length (pad_phase x) <> 6.
Proof.
  unfold pad_phase. destruct (Nat.eqb (String.length x) 6) eqn:E.
  - apply Nat.eqb_eq in E. rewrite length_append, E. discriminate.
  - now apply Nat.eqb_neq in E.
Qed.

Lemma lower_length (s : string) :
  String.length (PyStr.lower s) = String.length s.
Proof. induction s as [|c s IH]; cbn; [reflexivity|]. now rewrite IH. Qed.

Lemma lstrip_by_length (p : ascii -> bool) (s : string) :
  String.length (PyStr.lstrip_by p s) <= String.length s.
Proof.
  induction s as [|c s IH]; cbn; [lia|]. destruct (p c); cbn; lia.
Qed.

Lemma rstrip_by_length (p : ascii -> bool) (s : string) :
  String.length (PyStr.rstrip_by p s) <= String.length s.
Proof.
  induction s as [|c s IH]; cbn; [lia|].
  destruct (PyStr.rstrip_by p s); [destruct (p c)|]; cbn in *; lia.
Qed.

Lemma take_length (n : nat) (s : string) :
  String.length (PyStr.take n s) <= n.
Proof.
  unfold PyStr.take. revert s.
  induction n as [|n IH]; intros [|c s]; cbn; try lia.
  specialize (IH s). lia.
Qed.

Lemma lower_char_idempotent (c : ascii) :
  PyStr.lower_char (PyStr.lower_char c) = PyStr.lower_char c.
Proof.
  destruct c as [[] [] [] [] [] [] [] []]; vm_compute; reflexivity.
Qed.

Lemma lower_idempotent (s : string) :
  PyStr.lower (PyStr.lower s) = PyStr.lower s.
Proof.
  induction s as [|c s IH]; cbn; [reflexivity|].
  now rewrite lower_char_idempotent, IH.
Qed.

Lemma isspace_lower_char (c : ascii) :
  PyStr.isspace (PyStr.lower_char c) = PyStr.isspace c.
Proof.
  destruct c as [[] [] [] [] [] [] [] []]; vm_compute; reflexivity.
Qed.

Lemma lstrip_lower (s : string) :
  PyStr.lstrip_by PyStr.isspace (PyStr.lower s)
  = PyStr.lower (PyStr.lstrip_by PyStr.isspace s).
Proof.
  induction s as [|c s IH]; [reflexivity|].
  cbn [PyStr.lower PyStr.lstrip_by]. rewrite isspace_lower_char.
  now destruct (PyStr.isspace c).
Qed.

Lemma rstrip_lower (s : string) :
  PyStr.rstrip_by PyStr.isspace (PyStr.lower s)
  = PyStr.lower (PyStr.rstrip_by PyStr.isspace s).
Proof.
  induction s as [|c s IH]; [reflexivity|].
  cbn [PyStr.lower PyStr.rstrip_by]. rewrite IH, isspace_lower_char.
  destruct (PyStr.rstrip_by PyStr.isspace s); cbn [PyStr.lower];
    [now destruct (PyStr.isspace c)|reflexivity].
Qed.

Lemma rstrip_by_cons (p : ascii -> bool) (c : ascii) (s : string) :
  PyStr.rstrip_by p (String c s)
  = match PyStr.rstrip_by p s with
    | EmptyString => if p c then EmptyString else String c EmptyString
    | t => String c t
    end.
Proof. reflexivity. Qed.

Lemma rstrip_by_idempotent (p : ascii -> bool) (s : string) :
  PyStr.rstrip_by p (PyStr.rstrip_by p s) = PyStr.rstrip_by p s.
Proof.
  induction s as [|c s IH]; [reflexivity|].
  rewrite rstrip_by_cons.
  destruct (PyStr.rstrip_by p s) as [|d t] eqn:E.
  - destruct (p c) eqn:P; [reflexivity|]. cbn. now rewrite P.
  - rewrite rstrip_by_cons. now rewrite IH.
Qed.

(** What is left of a text without leading white space, once the
    trailing white space is cut, has no leading white space. *)
Lemma lstrip_rstrip_fixed (p : ascii -> bool) (s : string) :
  PyStr.lstrip_by p s = s ->
  PyStr.lstrip_by p (PyStr.rstrip_by p s) = PyStr.rstrip_by p s.
Proof.
  destruct s as [|c s]; [reflexivity|]. cbn [PyStr.lstrip_by].
  destruct (p c) eqn:P.
  - intro E. exfalso.
    pose proof (lstrip_by_length p s) as L. rewrite E in L. cbn in L. lia.
  - intros _. cbn [PyStr.rstrip_by].
    destruct (PyStr.rstrip_by p s); rewrite ?P; cbn [PyStr.lstrip_by];
      now rewrite P.
Qed.

Lemma lstrip_by_idempotent (p : ascii -> bool) (s : string) :
  PyStr.lstrip_by p (PyStr.lstrip_by p s) = PyStr.lstrip_by p s.
Proof.
  induction s as [|c s IH]; [reflexivity|]. cbn [PyStr.lstrip_by].
  destruct (p c) eqn:P; [exact IH|]. cbn [PyStr.lstrip_by]. now rewrite P.
Qed.

Lemma strip_by_idempotent (p : ascii -> bool) (s : string) :
  PyStr.strip_by p (PyStr.strip_by p s) = PyStr.strip_by p s.
Proof.
  unfold PyStr.strip_by.
  rewrite (lstrip_rstrip_fixed p _ (lstrip_by_idempotent p s)).
  apply rstrip_by_idempotent.
Qed.

(** The names [short_name] makes. *)
Lemma short_name_short_text (n : nat) (x : string) :
  short_text n (Str (short_name n x)).
Proof.
  exists (short_name n x). unfold short_name. split; [reflexivity|].
  split; [|split].
  - rewrite lower_length. unfold PyStr.strip, PyStr.strip_by.
    pose proof (rstrip_by_length PyStr.isspace
                  (PyStr.lstrip_by PyStr.isspace (PyStr.take n x))).
    pose proof (lstrip_by_length PyStr.isspace (PyStr.take n x)).
    pose proof (take_length n x). lia.
  - apply lower_idempotent.
  - unfold PyStr.strip at 1. unfold PyStr.strip_by.
    rewrite lstrip_lower, rstrip_lower.
    fold (PyStr.strip_by PyStr.isspace (PyStr.strip (PyStr.take n x))).
    unfold PyStr.strip. now rewrite strip_by_idempotent.
Qed.


Section CleanCmicFields.

Context `{Pandas}.


(** X7.  No phase number of six characters leaves [clean_cmic]: the
    phase number of every returned row is text whose length is not 6. *)
Theorem cmic_phase_no_never_six (df out : frame) :
  clean_cmic df = Some out ->
  Forall
    (fun ir' : nat * row =>
       exists s, snd ir' "phase_no" = Str s /\ String.length s <> 6)
    out.
Proof.
  intro E. apply clean_cmic_rows in E. apply Forall_forall. intros ir' I.
  destruct (Forall2_In_right _ _ _ _ E I) as [ir [_ [_ R]]].
  destruct R as [_ _ _ _ _ _ _ _ Rp _ _ _ _].
  eexists. split; [exact Rp|]. apply pad_phase_length.
Qed.

(** X8.  In every row [clean_cmic] returns, the item name is text of
    at most 30 characters and the vendor name text of at most 15, both
    in lower case and without white space at either end; a missing
    name of the input has become the text "nan". *)
Theorem cmic_names_normalised (df out : frame) :
  clean_cmic df = Some out ->
  Forall2
    (fun ir ir' : nat * row =>
       short_text 30 (snd ir' "item_name")
       /\ short_text 15 (snd ir' "vendor_name")
       /\ (snd ir "VLS_SCH_TASK_NAME" = Null ->
           snd ir' "item_name" = Str "nan")
       /\ (snd ir "VLS_JOBVEN2_NAME" = Null ->
           snd ir' "vendor_name" = Str "nan"))
    (cmic_input df) out.
Proof.
  intro E. apply clean_cmic_rows in E.
  eapply Forall2_impl; [|exact E].
  intros ir ir' [_ R]. destruct R as [_ _ _ _ _ _ _ _ _ _ Ri Rv _].
  change (rename cmic_columns (snd ir) "item_name")
    with (snd ir "VLS_SCH_TASK_NAME") in Ri.
  change (rename cmic_columns (snd ir) "vendor_name")
    with (snd ir "VLS_JOBVEN2_NAME") in Rv.
  rewrite Ri, Rv.
  split; [apply short_name_short_text|].
  split; [apply short_name_short_text|].
  split; intros ->; reflexivity.
Qed.

(** X9.  In every row [clean_cmic] returns, the job number, the item
    number, the phase number, the category and the tag are text.  When
    the subcontract number is text as well, [ID] is the six fields
    joined with "_"; when the subcontract number is missing, [ID] is
    missing. *)
Theorem cmic_ID_of_fields (df out : frame) :
  clean_cmic df = Some out ->
  Forall
    (fun ir' : nat * row =>
       exists j i p c t,
         snd ir' "job_no" = Str j /\ snd ir' "item_no" = Str i
         /\ snd ir' "phase_no" = Str p /\ snd ir' "category" = Str c
         /\ snd ir' "cont_or_co" = Str t
         /\ (forall s,
               snd ir' "subcontract_no" = Str s ->
               snd ir' "ID" = Str (join_sep [j; s; i; p; c; t]))
         /\ (snd ir' "subcontract_no" = Null -> snd ir' "ID" = Null))
    out.
Proof.
  intro E. apply clean_cmic_rows in E. apply Forall_forall. intros ir' I.
  destruct (Forall2_In_right _ _ _ _ E I) as [ir [_ [_ R]]].
  destruct R as [Rj _ Ri _ Rk _ _ Rt Rp _ _ _ Rid].
  unfold cmic_category in Rk. unfold convert_to_str in Rj, Ri, Rk.
  destruct (astype_int (rename cmic_columns (snd ir) "job_no")) as [zj|];
    [|discriminate Rj].
  destruct (astype_int (rename cmic_columns (snd ir) "item_no")) as [zi|];
    [|discriminate Ri].
  destruct (truediv _ 100) as [q|]; [|discriminate Rk].
  destruct (astype_int q) as [zk|]; [|discriminate Rk].
  injection Rj as Rj. injection Ri as Ri. injection Rk as Rk.
  symmetry in Rj, Ri, Rk.
  do 5 eexists.
  split; [exact Rj|]. split; [exact Ri|]. split; [exact Rp|].
  split; [exact Rk|]. split; [exact Rt|].
  cbn [combine_cols cols_to_combine] in Rid.
  rewrite Rj, Ri, Rp, Rk, Rt in Rid.
  split.
  - intros s S. rewrite S in Rid. cbn [py_add] in Rid.
    injection Rid as <-. reflexivity.
  - intro S. rewrite S in Rid. cbn [py_add] in Rid.
    injection Rid as <-. reflexivity.
Qed.

End CleanCmicFields.

(** ** The fields [clean_sl] extracts *)

Section CleanSlValues.

Context `{Pandas}.

Lemma sl_row_values (r r' : row) : sl_row r = Some r' -> sl_values r r'.
Proof.
  intro R. unfold sl_row in R. cbv zeta in R.
  bind_inv R. set_inv. lookups_in_results.
  split; unfold sl_pick; lookups; try reflexivity; try assumption;
    eexists; (split; [eassumption|reflexivity]).
Qed.

End CleanSlValues.

(** ** The rows [clean_sl] keeps *)

Lemma key_eqb_is_text (a b : cell) :
  key_eqb a b = true -> is_text a = is_text b.
Proof. destruct a, b; cbn; try discriminate; reflexivity. Qed.

Lemma key_eqb_isnull (a b : cell) :
  key_eqb a b = true -> isnull a = isnull b.
Proof. destruct a, b; cbn; try discriminate; reflexivity. Qed.

Lemma key_eqb_text (s : string) (c : cell) :
  key_eqb (Str s) c = true -> c = Str s.
Proof.
  destruct c; cbn; try discriminate.
  intro E. apply String.eqb_eq in E. now subst.
Qed.

Lemma keys_eqb_refl (k : list cell) : keys_eqb k k = true.
Proof.
  unfold keys_eqb. rewrite Nat.eqb_refl. cbn [andb].
  induction k as [|a k IH]; [reflexivity|].
  cbn. now rewrite key_eqb_refl.
Qed.

(** Every row has a kept row with the same key. *)
Lemma drop_duplicates_from_repr (subset : list label)
  (seen : list (list cell)) (df : frame) (x : nat * row) :
  In x df ->
  existsb (keys_eqb (key_of subset (snd x))) seen = true
  \/ exists y,
       In y (drop_duplicates_from subset seen df)
       /\ keys_eqb (key_of subset (snd x)) (key_of subset (snd y)) = true.
Proof.
  revert seen. induction df as [|z df IH]; intros seen I; [contradiction|].
  cbn [drop_duplicates_from].
  destruct I as [->|I].
  - destruct (existsb _ seen) eqn:S; [now left|]. right.
    exists x. split; [now left|apply keys_eqb_refl].
  - destruct (existsb (keys_eqb (key_of subset (snd z))) seen) eqn:S.
    + apply (IH seen I).
    + destruct (IH (key_of subset (snd z) :: seen) I) as [Q|[y [Iy Q]]].
      * cbn [existsb] in Q. apply orb_true_iff in Q. destruct Q as [Q|Q].
        -- right. exists z. split; [now left|exact Q].
        -- now left.
      * right. exists y. split; [now right|exact Q].
Qed.

Lemma mapM_In_left {A B : Type} (f : A -> option B) (l : list A)
  (l' : list B) (x : A) :
  mapM f l = Some l' -> In x l -> exists y, f x = Some y /\ In y l'.
Proof.
  intros M I. apply mapM_Forall2 in M.
  destruct (Forall2_In_left _ _ _ _ M I) as [y [Iy F]]. now exists y.
Qed.

Section CleanSlKept.

Context `{Pandas}.

(** The rows of the frame that [clean_sl] de-duplicates. *)
Lemma sl_tagged_In (df d0 : frame) (i : nat) (r : row) :
  assign_e "co_date" (fun r => to_datetime (r "co_date"))
    (assign "co_date" (fun r => r (Pos 102))
       (assign "cont_or_co"
          (fun x => Str (sl_cont_or_co (x (Pos 47)) (x (Pos 48)))) df))
  = Some d0 ->
  In (i, r) df ->
  exists date,
    to_datetime (r (Pos 102)) = Some date /\ In (i, sl_tagged r date) d0.
Proof.
  unfold assign_e, assign. intros A I.
  rewrite map_map in A.
  apply (in_map
           (fun x : nat * row =>
              (fst x,
               upd "co_date" (snd x (Pos 102))
                 (upd "cont_or_co"
                    (Str (sl_cont_or_co (snd x (Pos 47)) (snd x (Pos 48))))
                    (snd x))))) in I.
  destruct (mapM_In_left _ _ _ _ A I) as [y [F Iy]].
  cbn [fst snd] in F. lookups_in F.
  destruct (to_datetime (r (Pos 102))) as [date|]; [|discriminate].
  injection F as <-. exists date. now split.
Qed.

(** A row that passes the filter has, among the rows [clean_sl]
    extracts the fields of, a row with the same columns 41 and 42. *)
Lemma sl_kept_representative (df out : frame) (i : nat) (r : row) :
  clean_sl df = Some out ->
  In (i, r) df ->
  py_eq (r (Pos 47)) (r (Pos 48)) = true
  \/ (exists t, to_datetime (r (Pos 102)) = Some (Date t)) ->
  exists y r',
    sl_row y = Some r'
    /\ key_eqb (r (Pos 41)) (y (Pos 41)) = true
    /\ key_eqb (r (Pos 42)) (y (Pos 42)) = true.
Proof.
  intros E I K. unfold clean_sl in E.
  destruct (sl_dedup df) as [d|] eqn:D; [|discriminate].
  unfold sl_dedup in D. cbv zeta in D.
  destruct (assign_e _ _ _) as [d0|] eqn:A; [|discriminate].
  injection D as <-.
  destruct (sl_tagged_In _ _ _ _ A I) as [date [T I0]].
  destruct (drop_duplicates_from_repr sl_dedup_subset [] _ _ I0)
    as [Q|[y [Iy Q]]]; [discriminate Q|].
  cbn [snd] in Q.
  unfold keys_eqb, key_of, sl_dedup_subset in Q.
  cbn [map combine forallb List.length Nat.eqb fst snd andb] in Q.
  unfold sl_tagged in Q. lookups_in Q.
  apply andb_prop in Q. destruct Q as [Q41 Q].
  apply andb_prop in Q. destruct Q as [Q42 Q].
  apply andb_prop in Q. destruct Q as [Qt Q].
  apply andb_prop in Q. destruct Q as [Qd _].
  assert (F : In y (sl_filter (drop_duplicates sl_dedup_subset d0))).
  { unfold sl_filter, select. rewrite sort_index_In, in_app_iff, !filter_In.
    destruct K as [K|[t K]].
    - left. split; [exact Iy|].
      unfold sl_cont_or_co in Qt. rewrite K in Qt.
      apply key_eqb_text in Qt. rewrite Qt. reflexivity.
    - right. split; [exact Iy|].
      rewrite K in T. injection T as <-.
      apply key_eqb_isnull in Qd. now rewrite <- Qd. }
  apply sl_fields_rows, on_rows_Forall2 in E.
  destruct (Forall2_In_left _ _ _ _ E F) as [ir' [_ [_ R]]].
  exists (snd y), (snd ir'). now split.
Qed.

(** X10.  A date text in column 102 that [to_datetime] rejects makes
    [clean_sl] raise, in whatever row it stands: also in a row that
    the de-duplication or the filter would drop. *)
Theorem clean_sl_unparseable_date (df : frame) (ir : nat * row) :
  In ir df ->
  to_datetime (snd ir (Pos 102)) = None ->
  clean_sl df = None.
Proof.
  intros I T. unfold clean_sl.
  destruct (sl_dedup df) as [d|] eqn:D; [exfalso|reflexivity].
  unfold sl_dedup in D. cbv zeta in D.
  destruct (assign_e _ _ _) as [d0|] eqn:A; [|discriminate].
  destruct ir as [i r].
  destruct (sl_tagged_In _ _ _ _ A I) as [date [T' _]].
  cbn [snd] in T. congruence.
Qed.

(** X11.  A row that passes the filter, because its two amounts are
    equal or because it carries a date, must hold text in columns 41
    and 42: a missing value or a number there makes [clean_sl] raise. *)
Theorem clean_sl_needs_item_text (df : frame) (ir : nat * row) :
  In ir df ->
  py_eq (snd ir (Pos 47)) (snd ir (Pos 48)) = true
  \/ (exists t, to_datetime (snd ir (Pos 102)) = Some (Date t)) ->
  is_text (snd ir (Pos 41)) = false \/ is_text (snd ir (Pos 42)) = false ->
  clean_sl df = None.
Proof.
  intros I K T. destruct ir as [i r]. cbn [snd] in *.
  destruct (clean_sl df) as [out|] eqn:E; [exfalso|reflexivity].
  destruct (sl_kept_representative _ _ _ _ E I K) as (y & r' & R & Q41 & Q42).
  apply sl_row_inv in R. destruct R as [_ _ _ _ _ Ri Rc _ _].
  apply key_eqb_is_text in Q41, Q42.
  destruct T as [T|T].
  - rewrite T in Q41. destruct (y (Pos 41)); discriminate.
  - rewrite T in Q42. destruct (y (Pos 42)); discriminate.
Qed.

End CleanSlKept.

Lemma apply_text_Some (f : string -> option string) (c v : cell) :
  apply_text f c = Some v ->
  exists s t, c = Str s /\ f s = Some t /\ v = Str t.
Proof.
  destruct c as [|s| | | |]; try discriminate. cbn.
  destruct (f s) as [t|] eqn:F; [|discriminate].
  intro E. injection E as <-. now exists s, t.
Qed.

(** A single-character separator cuts a text into one part more than
    it occurs in the text. *)
Lemma split_char_length (c : ascii) (s : string) (acc : list ascii) :
  List.length (PyStr.split_aux (String c "") s 0 acc) = S (count_char c s).
Proof.
  revert acc. induction s as [|x s IH]; intro acc; [reflexivity|].
  cbn [PyStr.split_aux String.prefix count_char String.length Nat.sub].
  destruct (ascii_dec c x) as [<-|N].
  - rewrite prefix_nil, Ascii.eqb_refl. cbn [List.length]. now rewrite IH.
  - rewrite IH. destruct (Ascii.eqb x c) eqn:E; [|reflexivity].
    apply Ascii.eqb_eq in E. now subst.
Qed.

Section CleanSlFields.

Context `{Pandas}.

(** Every row of the frame [clean_sl] returns is what [sl_row] makes
    of an input row with its tag and its date. *)
Lemma clean_sl_row_source (df out : frame) (ir' : nat * row) :
  clean_sl df = Some out ->
  In ir' out ->
  exists ir0 date,
    In ir0 df
    /\ to_datetime (snd ir0 (Pos 102)) = Some date
    /\ sl_row (sl_tagged (snd ir0) date) = Some (snd ir').
Proof.
  unfold clean_sl. intros E I.
  destruct (sl_dedup df) as [d|] eqn:D; [|discriminate].
  apply sl_fields_rows, on_rows_Forall2 in E.
  destruct (Forall2_In_right _ _ _ _ E I) as [ir [Iir [_ R]]].
  apply sl_filter_In in Iir. destruct Iir as [Id _].
  destruct (sl_dedup_rows _ _ _ D Id) as (ir0 & date & I0 & _ & T & S).
  exists ir0, date. rewrite S in R. now split.
Qed.

Lemma sl_tag_cases (a b : cell) :
  sl_cont_or_co a b = "Contract" \/ sl_cont_or_co a b = "CO".
Proof. unfold sl_cont_or_co. destruct (py_eq a b); [now left|now right]. Qed.

(** X12.  In every row [clean_sl] returns, [co_code] is missing, the
    two totals are the floats of columns 128 and 129, and the unit,
    the quantity and the amount come from columns 56, 57 and 47 when
    the row is tagged "Contract" and from columns 105, 106 and 108
    when it is tagged "CO".  The unit is never missing, and an amount
    that is not text in its column has become missing. *)
Theorem sl_amounts_by_tag (df out : frame) :
  clean_sl df = Some out ->
  Forall
    (fun ir' : nat * row =>
       let r' := snd ir' in
       r' "co_code" = Null
       /\ astype_float (str_replace_comma (r' (Pos 128)))
          = Some (r' "cont_total")
       /\ astype_float (str_replace_comma (r' (Pos 129)))
          = Some (r' "vendor_total")
       /\ (r' "cont_or_co" = Str "Contract" /\ sl_amounts_from r' 56 57 47
           \/ r' "cont_or_co" = Str "CO" /\ sl_amounts_from r' 105 106 108)
       /\ isnull (r' "qty_type") = false
       /\ (is_text (sl_pick r' 47 108) = false ->
           r' "dollar_amount" = Null))
    out.
Proof.
  intro E. apply Forall_forall. intros ir' I. cbv zeta.
  destruct (clean_sl_row_source _ _ _ E I) as (ir0 & date & _ & _ & R).
  pose proof (sl_row_inv _ _ R) as [Rp Rt _ _ _ _ _ _ _].
  pose proof (sl_row_values _ _ R) as [Vc Vq Vu Vd Vt Vv _ _ _ _ _].
  assert (P : forall c co,
             sl_pick (sl_tagged (snd ir0) date) c co = sl_pick (snd ir') c co).
  { intros c co. unfold sl_pick. now rewrite Rt, !Rp. }
  rewrite P in Vq, Vu, Vd. rewrite <- Rp in Vt, Vv.
  split; [exact Vc|]. split; [exact Vt|]. split; [exact Vv|].
  assert (T : snd ir' "cont_or_co" = Str "Contract"
              \/ snd ir' "cont_or_co" = Str "CO").
  { rewrite Rt. unfold sl_tagged. lookups.
    destruct (sl_tag_cases (snd ir0 (Pos 47)) (snd ir0 (Pos 48))) as [->| ->];
      [now left|now right]. }
  split; [|split].
  - unfold sl_amounts_from.
    destruct T as [T|T]; [left|right]; (split; [exact T|]);
      unfold sl_pick in Vq, Vu, Vd; rewrite T in Vq, Vu, Vd;
      cbn [gather_co_rel_data py_eq String.eqb Ascii.eqb Bool.eqb] in Vq, Vu, Vd;
      now repeat split.
  - rewrite Vu. unfold fillna. now destruct (sl_pick (snd ir') 56 105).
  - intro N. destruct (sl_pick (snd ir') 47 108); try discriminate N;
      cbn in Vd; now injection Vd.
Qed.

(** X13.  In every row [clean_sl] returns, the vendor name is text of
    at most 15 characters and the item name text of at most 30, both
    in lower case and without white space at either end. *)
Theorem sl_names_normalised (df out : frame) :
  clean_sl df = Some out ->
  Forall
    (fun ir' : nat * row =>
       short_text 15 (snd ir' "vendor_name")
       /\ short_text 30 (snd ir' "item_name"))
    out.
Proof.
  intro E. apply Forall_forall. intros ir' I.
  destruct (clean_sl_row_source _ _ _ E I) as (ir0 & date & _ & _ & R).
  pose proof (sl_row_values _ _ R)
    as [_ _ _ _ _ _ [v [_ ->]] [w [_ ->]] _ _ _].
  split; apply short_name_short_text.
Qed.

(** X14.  The key of an SL record is never missing: in every row
    [clean_sl] returns the six key fields are text, and [ID] is these
    fields joined with "_". *)
Theorem sl_ID_of_fields (df out : frame) :
  clean_sl df = Some out ->
  Forall
    (fun ir' : nat * row =>
       exists j s i p c t,
         snd ir' "job_no" = Str j /\ snd ir' "subcontract_no" = Str s
         /\ snd ir' "item_no" = Str i /\ snd ir' "phase_no" = Str p
         /\ snd ir' "category" = Str c /\ snd ir' "cont_or_co" = Str t
         /\ snd ir' "ID" = Str (join_sep [j; s; i; p; c; t]))
    out.
Proof.
  intro E. apply Forall_forall. intros ir' I.
  destruct (clean_sl_row_source _ _ _ E I) as (ir0 & date & _ & _ & R).
  pose proof (sl_row_inv _ _ R) as [_ Rt _ Rj Rs Ri Rc Rp Rid].
  apply apply_text_Some in Rj, Rs, Ri, Rc, Rp.
  destruct Rj as (_ & j & _ & _ & Rj). destruct Rs as (_ & s & _ & _ & Rs).
  destruct Ri as (_ & i & _ & _ & Ri). destruct Rc as (_ & c & _ & _ & Rc).
  destruct Rp as (_ & p & _ & _ & Rp).
  unfold sl_tagged in Rt. lookups_in Rt.
  exists j, s, i, p, c, (sl_cont_or_co (snd ir0 (Pos 47)) (snd ir0 (Pos 48))).
  cbn [combine_cols cols_to_combine] in Rid.
  rewrite Rj, Rs, Ri, Rc, Rp, Rt in Rid.
  cbn [py_add] in Rid. injection Rid as <-.
  repeat split; try reflexivity; assumption.
Qed.

(** X15.  Among the rows that pass the filter, a column 20 with fewer
    than three spaces, or a column 26 with fewer than four, makes
    [clean_sl] raise: the subcontract number is the fourth and the job
    number the fifth of the parts that single spaces separate. *)
Theorem clean_sl_short_header (df d : frame) (ir : nat * row) (x : string) :
  sl_dedup df = Some d ->
  In ir (sl_filter d) ->
  snd ir (Pos 20) = Str x /\ count_char " " x < 3
  \/ snd ir (Pos 26) = Str x /\ count_char " " x < 4 ->
  clean_sl df = None.
Proof.
  intros D I B. unfold clean_sl. rewrite D.
  destruct (sl_fields (sl_filter d)) as [out|] eqn:E; [exfalso|reflexivity].
  apply sl_fields_rows, on_rows_Forall2 in E.
  destruct (Forall2_In_left _ _ _ _ E I) as [ir' [_ [_ R]]].
  apply sl_row_inv in R. destruct R as [_ _ _ Rj Rs _ _ _ _].
  destruct B as [[X C]|[X C]].
  - rewrite X in Rs. apply apply_text_Some in Rs.
    destruct Rs as (s & t & S & F & _). injection S as <-.
    unfold sl_subcontract_no in F.
    assert (L : 3 < List.length (PyStr.split " " x)).
    { apply nth_error_Some. now rewrite F. }
    unfold PyStr.split in L. rewrite split_char_length in L. lia.
  - rewrite X in Rj. apply apply_text_Some in Rj.
    destruct Rj as (s & t & S & F & _). injection S as <-.
    unfold sl_job_no in F.
    destruct (nth_error (PyStr.split " " x) 4) as [a|] eqn:N; [|discriminate].
    assert (L : 4 < List.length (PyStr.split " " x)).
    { apply nth_error_Some. now rewrite N. }
    unfold PyStr.split in L. rewrite split_char_length in L. lia.
Qed.

End CleanSlFields.

(** ** The rows of the comparison *)

Lemma project_kept (r : row) (col : string) :
  In col cols_to_keep -> project cols_to_keep r col = r col.
Proof.
  intro I. unfold cols_to_keep in I. simpl in I.
  repeat (destruct I as [<-|I]; [reflexivity|]). contradiction.
Qed.

Lemma suffixed_are_kept (col : string) :
  In col suffixed_cols -> In col cols_to_keep.
Proof. unfold suffixed_cols, cols_to_keep. simpl. tauto. Qed.

Lemma kept_rows_In (df : frame) (l : row) :
  In l (kept_rows df)
  <-> exists il, In il df /\ l = project cols_to_keep (snd il).
Proof.
  unfold kept_rows, keep. rewrite map_map. cbn [snd].
  rewrite in_map_iff. split; intros [il [E I]]; exists il; now split.
Qed.

(** The values of one side of a row of the result. *)
Lemma compared_side (m : row) (col : string) :
  In col suffixed_cols ->
  force_row (compare_row m cols_to_compare) (cmic_of col) = m (cmic_of col)
  /\ force_row (compare_row m cols_to_compare) (sl_of col) = m (sl_of col).
Proof.
  intro S. destruct (suffixed_not_forced _ S) as [F1 F2].
  rewrite !force_row_other by assumption.
  now rewrite compare_row_cmic, compare_row_sl.
Qed.

(** The value of a comparison column of a row of the result. *)
Lemma compared_value (m : row) (col : string) :
  In col cols_to_compare ->
  force_row (compare_row m cols_to_compare) (zcomparison_of col)
  = Bool (py_eq (m (cmic_of col)) (m (sl_of col))
          || (String.eqb col "co_date"
              && (py_eq (m "cont_or_co_sl") (Str "Contract")
                  && py_eq (m "cont_or_co_cmic") (Str "Contract")))).
Proof.
  intro C.
  pose proof (compare_row_zcomparison m col C) as Z.
  assert (S : In "cont_or_co" suffixed_cols)
    by (unfold suffixed_cols; simpl; tauto).
  pose proof (compare_row_cmic m "cont_or_co" S) as A.
  pose proof (compare_row_sl m "cont_or_co" S) as B.
  change (cmic_of "cont_or_co") with (Name "cont_or_co_cmic") in A.
  change (sl_of "cont_or_co") with (Name "cont_or_co_sl") in B.
  pose proof (zcomparison_forced_iff col C) as F.
  revert Z A B. generalize (compare_row m cols_to_compare). intros r Z A B.
  unfold force_row. rewrite A, B.
  destruct (py_eq (m "cont_or_co_sl") (Str "Contract")
            && py_eq (m "cont_or_co_cmic") (Str "Contract")).
  - unfold upd. rewrite F.
    destruct (String.eqb col "co_date").
    + now rewrite orb_true_r.
    + now rewrite Z, orb_false_r.
  - now rewrite Z, andb_false_r, orb_false_r.
Qed.

Lemma merge_keys_has (left right : list row) (k : cell) :
  existsb (fun x => key_eqb x k)
    (map (fun r : row => r "ID") left ++ map (fun r : row => r "ID") right)
  = true ->
  exists k', In k' (merge_keys "ID" left right) /\ key_eqb k' k = true.
Proof.
  intro X. pose proof (merge_keys_count k left right) as C.
  rewrite X in C.
  destruct (filter (fun x => key_eqb x k) (merge_keys "ID" left right))
    as [|k' l] eqn:F; [discriminate C|].
  assert (I : In k' (filter (fun x => key_eqb x k)
                       (merge_keys "ID" left right)))
    by (rewrite F; now left).
  apply filter_In in I. now exists k'.
Qed.

(** Every row of either side is in the group of its key. *)
Lemma merge_group_has_left (left right : list row) (k : cell) (l : row) :
  In l (with_key "ID" k left) ->
  exists o,
    In (join_row (l "ID") (Some l) o)
      (merge_group "ID" suffixed_cols "_cmic" "_sl" left right k).
Proof.
  intro I. unfold merge_group.
  destruct (with_key "ID" k left) as [|l0 ls] eqn:L; [contradiction|].
  destruct (with_key "ID" k right) as [|r0 rs] eqn:R.
  - exists None. apply in_map_iff. now exists l.
  - exists (Some r0). apply in_flat_map. exists l. split; [exact I|].
    now left.
Qed.

Lemma merge_group_has_right (left right : list row) (k : cell) (r : row) :
  In r (with_key "ID" k right) ->
  exists k0 o,
    In (join_row k0 o (Some r))
      (merge_group "ID" suffixed_cols "_cmic" "_sl" left right k)
    /\ key_eqb k0 (r "ID") = true.
Proof.
  intro I. pose proof (with_key_In _ _ _ I) as K. unfold merge_group.
  destruct (with_key "ID" k left) as [|l0 ls] eqn:L.
  - exists (r "ID"), None. split; [|apply key_eqb_refl].
    apply in_map_iff. now exists r.
  - destruct (with_key "ID" k right) as [|r0 rs] eqn:R; [contradiction|].
    exists (l0 "ID"), (Some l0). split.
    + apply in_flat_map. exists l0. split; [now left|].
      apply in_map_iff. now exists r.
    + assert (K0 : key_eqb (l0 "ID") k = true).
      { apply (with_key_In k left). rewrite L. now left. }
      rewrite key_eqb_sym in K. exact (key_eqb_trans _ _ _ K0 K).
Qed.

Lemma cons_inj {A : Type} (a b : A) (l l' : list A) :
  a :: l = b :: l' -> a = b /\ l = l'.
Proof. intro E. now injection E. Qed.

Lemma compare_dfs_has (cmic sl : frame) (k : cell) (m : row) :
  In k (merge_keys "ID" (kept_rows cmic) (kept_rows sl)) ->
  In m (merge_group "ID" suffixed_cols "_cmic" "_sl"
          (kept_rows cmic) (kept_rows sl) k) ->
  exists ir,
    In ir (compare_dfs cmic sl)
    /\ snd ir = force_row (compare_row m cols_to_compare).
Proof.
  intros K M.
  pose proof (compare_dfs_snd cmic sl) as E.
  assert (F : In m (flat_map
                      (merge_group "ID" suffixed_cols "_cmic" "_sl"
                         (kept_rows cmic) (kept_rows sl))
                      (merge_keys "ID" (kept_rows cmic) (kept_rows sl)))).
  { apply in_flat_map. exists k. split; [exact K|exact M]. }
  revert E F. generalize (compare_dfs cmic sl).
  generalize (flat_map
                (merge_group "ID" suffixed_cols "_cmic" "_sl"
                   (kept_rows cmic) (kept_rows sl))
                (merge_keys "ID" (kept_rows cmic) (kept_rows sl))).
  clear. intros l out E F.
  revert out E. induction l as [|x l IH]; intros out E; [contradiction|].
  destruct out as [|ir out]; [discriminate E|].
  cbn [map] in E. apply cons_inj in E. destruct E as [E1 E2].
  destruct F as [->|F].
  - exists ir. split; [now left|exact E1].
  - destruct (IH F out E2) as [ir' [I' E']]. exists ir'.
    split; [now right|exact E'].
Qed.

Lemma key_in_left (left right : list row) (l : row) :
  In l left ->
  existsb (fun x => key_eqb x (l "ID"))
    (map (fun r : row => r "ID") left ++ map (fun r : row => r "ID") right)
  = true.
Proof.
  intro I. apply existsb_exists. exists (l "ID").
  split; [|apply key_eqb_refl].
  apply in_or_app. left. apply in_map_iff. now exists l.
Qed.

Lemma key_in_right (left right : list row) (r : row) :
  In r right ->
  existsb (fun x => key_eqb x (r "ID"))
    (map (fun r : row => r "ID") left ++ map (fun r : row => r "ID") right)
  = true.
Proof.
  intro I. apply existsb_exists. exists (r "ID").
  split; [|apply key_eqb_refl].
  apply in_or_app. right. apply in_map_iff. now exists r.
Qed.

(** X16.  The comparison loses no record: every row of the CMIC frame
    is in some row of the result with its key and all its kept columns
    under their [_cmic] names, and every row of the SL frame with a key
    equal to its own and all its kept columns under their [_sl]
    names. *)
Theorem compare_dfs_keeps_every_record (cmic sl : frame) :
  (forall il : nat * row,
     In il cmic ->
     exists ir,
       In ir (compare_dfs cmic sl)
       /\ snd ir "ID" = snd il "ID"
       /\ forall col, In col suffixed_cols ->
                      snd ir (cmic_of col) = snd il col)
  /\ (forall il : nat * row,
        In il sl ->
        exists ir,
          In ir (compare_dfs cmic sl)
          /\ key_eqb (snd ir "ID") (snd il "ID") = true
          /\ forall col, In col suffixed_cols ->
                         snd ir (sl_of col) = snd il col).
Proof.
  assert (ID : In "ID" cols_to_keep) by (unfold cols_to_keep; simpl; tauto).
  split; intros il I.
  - set (l := project cols_to_keep (snd il)).
    assert (L : In l (kept_rows cmic)) by (apply kept_rows_In; now exists il).
    destruct (merge_keys_has _ (kept_rows sl) _ (key_in_left _ (kept_rows sl) _ L))
      as [k [K Q]].
    assert (W : In l (with_key "ID" k (kept_rows cmic))).
    { apply filter_In. split; [exact L|]. now rewrite key_eqb_sym. }
    destruct (merge_group_has_left _ (kept_rows sl) _ _ W) as [o M].
    destruct (compare_dfs_has _ _ _ _ K M) as [ir [Iir E]].
    exists ir. split; [exact Iir|]. rewrite E. split.
    + rewrite compared_ID, join_row_ID. exact (project_kept _ _ ID).
    + intros col S. rewrite (proj1 (compared_side _ _ S)).
      rewrite join_row_cmic by exact S. cbn [side].
      exact (project_kept _ _ (suffixed_are_kept _ S)).
  - set (r := project cols_to_keep (snd il)).
    assert (R : In r (kept_rows sl)) by (apply kept_rows_In; now exists il).
    destruct (merge_keys_has (kept_rows cmic) _ _
                (key_in_right (kept_rows cmic) _ _ R)) as [k [K Q]].
    assert (W : In r (with_key "ID" k (kept_rows sl))).
    { apply filter_In. split; [exact R|]. now rewrite key_eqb_sym. }
    destruct (merge_group_has_right (kept_rows cmic) _ _ _ W)
      as (k0 & o & M & Q0).
    destruct (compare_dfs_has _ _ _ _ K M) as [ir [Iir E]].
    exists ir. split; [exact Iir|]. rewrite E. split.
    + rewrite compared_ID, join_row_ID.
      unfold r in Q0. rewrite (project_kept _ _ ID) in Q0. exact Q0.
    + intros col S. rewrite (proj2 (compared_side _ _ S)).
      rewrite join_row_sl by exact S. cbn [side].
      exact (project_kept _ _ (suffixed_are_kept _ S)).
Qed.

(** X17.  The comparison pairs only records with equal keys and
    invents no value: every row of the result is a CMIC record beside
    an SL record with an equal key, or a CMIC record whose key no SL
    record has, beside missing values, or an SL record whose key no
    CMIC record has, beside missing values. *)
Theorem compare_dfs_rows_are_records (cmic sl : frame) (ir : nat * row) :
  In ir (compare_dfs cmic sl) ->
  (exists il isl,
     In il cmic /\ In isl sl
     /\ key_eqb (snd il "ID") (snd isl "ID") = true
     /\ snd ir "ID" = snd il "ID"
     /\ forall col, In col suffixed_cols ->
                    snd ir (cmic_of col) = snd il col
                    /\ snd ir (sl_of col) = snd isl col)
  \/ (exists il,
        In il cmic /\ id_count (snd il "ID") sl = 0
        /\ snd ir "ID" = snd il "ID"
        /\ forall col, In col suffixed_cols ->
                       snd ir (cmic_of col) = snd il col
                       /\ snd ir (sl_of col) = Null)
  \/ (exists isl,
        In isl sl /\ id_count (snd isl "ID") cmic = 0
        /\ snd ir "ID" = snd isl "ID"
        /\ forall col, In col suffixed_cols ->
                       snd ir (cmic_of col) = Null
                       /\ snd ir (sl_of col) = snd isl col).
Proof.
  assert (ID : In "ID" cols_to_keep) by (unfold cols_to_keep; simpl; tauto).
  intro I.
  destruct (one_sided_row _ _ (snd ir "ID") _ I (key_eqb_refl _)) as [m [E G]].
  rewrite E. rewrite E in G. rewrite compared_ID in *.
  destruct G as [l r Il Ir M|l Il R M|r L Ir M].
  - left.
    pose proof (with_key_In _ _ _ Il) as Kl.
    pose proof (with_key_In _ _ _ Ir) as Kr.
    apply filter_In in Il, Ir. destruct Il as [Il _], Ir as [Ir _].
    apply kept_rows_In in Il, Ir.
    destruct Il as [il [Il ->]], Ir as [isl [Ir ->]].
    rewrite (project_kept _ _ ID) in Kl. rewrite (project_kept _ _ ID) in Kr.
    exists il, isl. split; [exact Il|]. split; [exact Ir|].
    split.
    { rewrite key_eqb_sym in Kr. exact (key_eqb_trans _ _ _ Kl Kr). }
    rewrite M, join_row_ID. split; [exact (project_kept _ _ ID)|].
    intros col S.
    rewrite (proj1 (compared_side _ _ S)), (proj2 (compared_side _ _ S)).
    rewrite join_row_cmic, join_row_sl by exact S. cbn [side].
    split; exact (project_kept _ _ (suffixed_are_kept _ S)).
  - right. left.
    pose proof (with_key_In _ _ _ Il) as Kl.
    apply filter_In in Il. destruct Il as [Il _].
    apply kept_rows_In in Il. destruct Il as [il [Il ->]].
    rewrite (project_kept _ _ ID) in Kl.
    exists il. split; [exact Il|]. split.
    { rewrite <- kept_rows_count.
      rewrite (with_key_congr _ _ _ Kl), R. reflexivity. }
    rewrite M, join_row_ID. split; [exact (project_kept _ _ ID)|].
    intros col S.
    rewrite (proj1 (compared_side _ _ S)), (proj2 (compared_side _ _ S)).
    rewrite join_row_cmic, join_row_sl by exact S. cbn [side].
    split; [exact (project_kept _ _ (suffixed_are_kept _ S))|reflexivity].
  - right. right.
    pose proof (with_key_In _ _ _ Ir) as Kr.
    apply filter_In in Ir. destruct Ir as [Ir _].
    apply kept_rows_In in Ir. destruct Ir as [isl [Ir ->]].
    rewrite (project_kept _ _ ID) in Kr.
    exists isl. split; [exact Ir|]. split.
    { rewrite <- kept_rows_count.
      rewrite (with_key_congr _ _ _ Kr), L. reflexivity. }
    rewrite M, join_row_ID. split; [exact (project_kept _ _ ID)|].
    intros col S.
    rewrite (proj1 (compared_side _ _ S)), (proj2 (compared_side _ _ S)).
    rewrite join_row_cmic, join_row_sl by exact S. cbn [side].
    split; [reflexivity|exact (project_kept _ _ (suffixed_are_kept _ S))].
Qed.

(** X18.  Every comparison column of every row of the result is a
    boolean: true when the two values it compares are present and
    equal, and, for [co_date], also when both sides are tagged
    "Contract"; false in every other case. *)
Theorem zcomparison_values (cmic sl : frame) (ir : nat * row) (col : string) :
  In ir (compare_dfs cmic sl) ->
  In col cols_to_compare ->
  snd ir (zcomparison_of col)
  = Bool (py_eq (snd ir (cmic_of col)) (snd ir (sl_of col))
          || (String.eqb col "co_date"
              && (py_eq (snd ir "cont_or_co_sl") (Str "Contract")
                  && py_eq (snd ir "cont_or_co_cmic") (Str "Contract")))).
Proof.
  intros I C. destruct (compare_dfs_row_shape _ _ _ I) as [m [_ E]].
  rewrite E. clear E I.
  pose proof (compared_are_suffixed _ C) as S.
  destruct (compared_side (snd m) col S) as [-> ->].
  assert (T : In "cont_or_co" suffixed_cols)
    by (unfold suffixed_cols; simpl; tauto).
  destruct (compared_side (snd m) "cont_or_co" T) as [A B].
  change (cmic_of "cont_or_co") with (Name "cont_or_co_cmic") in A.
  change (sl_of "cont_or_co") with (Name "cont_or_co_sl") in B.
  rewrite A, B. exact (compared_value _ _ C).
Qed.

(** X19.  A record without counterpart compares false everywhere: in
    the rows of a key that only one of the two frames has, all sixteen
    comparison columns are false. *)
Theorem unmatched_rows_compare_false
  (cmic sl : frame) (k : cell) (ir : nat * row) (col : string) :
  In ir (compare_dfs cmic sl) ->
  key_eqb (snd ir "ID") k = true ->
  id_count k cmic = 0 \/ id_count k sl = 0 ->
  In col cols_to_compare ->
  snd ir (zcomparison_of col) = Bool false.
Proof.
  intros I K N C.
  destruct (one_sided_row _ _ _ _ I K) as [m [E G]]. rewrite E.
  rewrite (compared_value _ _ C).
  pose proof (compared_are_suffixed _ C) as S.
  assert (T : In "cont_or_co" suffixed_cols)
    by (unfold suffixed_cols; simpl; tauto).
  rewrite <- !kept_rows_count in N.
  assert (X : (m (cmic_of col) = Null /\ m "cont_or_co_cmic" = Null)
              \/ (m (sl_of col) = Null /\ m "cont_or_co_sl" = Null)).
  { destruct G as [l r Il Ir M|l Il R M|r L Ir M].
    - exfalso. destruct N as [N|N]; apply length_zero_nil in N;
        [rewrite N in Il|rewrite N in Ir]; contradiction.
    - right. rewrite M. split.
      + rewrite join_row_sl by exact S. reflexivity.
      + change (Name "cont_or_co_sl") with (sl_of "cont_or_co").
        rewrite join_row_sl by exact T. reflexivity.
    - left. rewrite M. split.
      + rewrite join_row_cmic by exact S. reflexivity.
      + change (Name "cont_or_co_cmic") with (cmic_of "cont_or_co").
        rewrite join_row_cmic by exact T. reflexivity. }
  destruct X as [[-> ->]|[-> ->]]; cbn [py_eq].
  - rewrite !andb_false_r. reflexivity.
  - destruct (m (cmic_of col)); cbn [py_eq andb orb];
      rewrite ?andb_false_r; reflexivity.
Qed.

(** ** The columns of the comparison *)

Lemma insert_name_In (x y : string) (l : list string) :
  In y (insert_name x l) <-> y = x \/ In y l.
Proof.
  induction l as [|z l IH]; cbn.
  - split; intros [->|[]]; now left.
  - destruct (String.leb x z); cbn.
    + split; intros [E|I]; auto.
    + rewrite IH. split; intros [E|[E|I]]; auto.
Qed.

Lemma sorted_In (y : string) (l : list string) :
  In y (sorted l) <-> In y l.
Proof.
  induction l as [|x l IH]; cbn; [reflexivity|].
  rewrite insert_name_In, IH. split; intros [E|I]; auto.
Qed.

Lemma increasing_sorted (l : list string) :
  increasing l = true ->
  StronglySorted (fun a b => String.ltb a b = true) l.
Proof.
  induction l as [|x l IH]; intro E; [constructor|].
  cbn in E. apply andb_prop in E. destruct E as [F E].
  constructor; [now apply IH|].
  apply Forall_forall. now apply forallb_forall.
Qed.

Lemma label_neq (l : label) (c : string) :
  l <> Name c -> label_eqb l (Name c) = false.
Proof.
  destruct l as [n|s]; [reflexivity|]. intro N. cbn.
  apply String.eqb_neq. congruence.
Qed.

(** A column that [compare_cols] does not add is left as it was. *)
Lemma compare_row_other (r : row) (cols : list string) (l : label) :
  (forall c, In c cols -> label_eqb l (zcomparison_of c) = false) ->
  compare_row r cols l = r l.
Proof.
  unfold compare_row. revert r.
  induction cols as [|c cols IH]; intros r N; [reflexivity|].
  cbn [fold_left]. rewrite IH by (intros x I; apply N; now right).
  apply upd_other. apply N. now left.
Qed.

(** A column that is neither the key nor a suffixed column is missing
    in a row of the join. *)
Lemma merged_row_other (key : string) (others : list string)
  (suffix_l suffix_r : string) (k : cell) (o1 o2 : option row) (l : label) :
  label_eqb l (Name key) = false ->
  (forall c, In c others ->
             label_eqb l (Name (String.append c suffix_l)) = false
             /\ label_eqb l (Name (String.append c suffix_r)) = false) ->
  merged_row key others suffix_l suffix_r k o1 o2 l = Null.
Proof.
  intros K N. unfold merged_row.
  induction others as [|c others IH]; cbn [fold_right].
  - rewrite upd_other by exact K. reflexivity.
  - destruct (N c (or_introl eq_refl)) as [N1 N2].
    rewrite upd_other by exact N1. rewrite upd_other by exact N2.
    apply IH. intros x I. apply N. now right.
Qed.

Lemma compare_dfs_columns_In (c : string) :
  In c compare_dfs_columns
  <-> c = "ID"
      \/ (exists x, In x suffixed_cols
                    /\ (c = String.append x "_cmic"
                        \/ c = String.append x "_sl"))
      \/ (exists x, In x cols_to_compare
                    /\ c = String.append x "_zcomparison").
Proof.
  unfold compare_dfs_columns, merge_columns, zcomparison_columns.
  rewrite sorted_In, !in_app_iff, !in_map_iff.
  fold suffixed_cols. split.
  - intros [[[x [E I]]|[x [E I]]]|[x [E I]]].
    + destruct (String.eqb x "ID") eqn:Q.
      * left. apply String.eqb_eq in Q. congruence.
      * right. left. exists x. split; [|now left].
        unfold suffixed_cols. apply filter_In. split; [exact I|].
        now rewrite Q.
    + right. left. exists x. split; [exact I|now right].
    + right. right. now exists x.
  - intros [->|[[x [I [->| ->]]]|[x [I ->]]]].
    + left. left. exists "ID". split; [reflexivity|].
      unfold cols_to_keep. simpl. tauto.
    + left. left. exists x. unfold suffixed_cols in I.
      apply filter_In in I. destruct I as [I Q].
      apply negb_true_iff in Q. rewrite Q. now split.
    + left. right. now exists x.
    + right. now exists x.
Qed.

(** X20.  The frame [compare_dfs] returns holds nothing outside its 51
    columns: the key, the 17 kept columns under both suffixes and the
    16 comparison columns.  The final [reindex] puts these columns in
    strictly ascending order of their names, so that no name occurs
    twice, and [ID] comes first. *)
Theorem compare_dfs_columns_cover (cmic sl : frame) :
  (forall (ir : nat * row) (l : label),
     In ir (compare_dfs cmic sl) ->
     (forall c, In c compare_dfs_columns -> l <> Name c) ->
     snd ir l = Null)
  /\ StronglySorted (fun a b => String.ltb a b = true) compare_dfs_columns
  /\ List.length compare_dfs_columns = 51
  /\ nth_error compare_dfs_columns 0 = Some "ID".
Proof.
  split;
    [|split; [apply increasing_sorted|split]; vm_compute; reflexivity].
  intros ir l I N.
  assert (Nid : label_eqb l "ID" = false).
  { apply label_neq, N, compare_dfs_columns_In. left. reflexivity. }
  assert (Ns : forall c, In c suffixed_cols ->
                         label_eqb l (cmic_of c) = false
                         /\ label_eqb l (sl_of c) = false).
  { intros c S. split; apply label_neq, N, compare_dfs_columns_In;
      right; left; exists c; (split; [exact S|]);
      [left; reflexivity|right; reflexivity]. }
  assert (Nz : forall c, In c cols_to_compare ->
                         label_eqb l (zcomparison_of c) = false).
  { intros c C. apply label_neq, N, compare_dfs_columns_In.
    right. right. exists c. split; [exact C|reflexivity]. }
  destruct (one_sided_row _ _ (snd ir "ID") _ I (key_eqb_refl _)) as [m [E G]].
  rewrite E.
  rewrite force_row_other
    by (apply (Nz "co_date"); unfold cols_to_compare; simpl; tauto).
  rewrite compare_row_other by exact Nz.
  assert (J : exists k o1 o2, m = join_row k o1 o2).
  { destruct G as [a b _ _ M|a _ _ M|b _ _ M]; rewrite M;
      do 3 eexists; reflexivity. }
  destruct J as (k & o1 & o2 & ->).
  exact (merged_row_other "ID" suffixed_cols "_cmic" "_sl" k o1 o2 l Nid Ns).
Qed.

(** ** On the example tables *)



(** The phase code "001000" leaves [clean_cmic] as "0010000". *)
Lemma cmic_phase_no_never_six_witness :
  Forall
    (fun ir' : nat * row =>
       exists s, snd ir' "phase_no" = Str s /\ String.length s <> 6)
    (returned (@clean_cmic Plain.pandas ExampleFields.cmic_table)).
Proof.
  apply (@cmic_phase_no_never_six Plain.pandas ExampleFields.cmic_table).
  apply returned_spec. vm_compute. reflexivity.
Defined.

Lemma cmic_names_normalised_witness :
  Forall2
    (fun ir ir' : nat * row =>
       short_text 30 (snd ir' "item_name")
       /\ short_text 15 (snd ir' "vendor_name")
       /\ (snd ir "VLS_SCH_TASK_NAME" = Null ->
           snd ir' "item_name" = Str "nan")
       /\ (snd ir "VLS_JOBVEN2_NAME" = Null ->
           snd ir' "vendor_name" = Str "nan"))
    (cmic_input ExampleFields.cmic_table)
    (returned (@clean_cmic Plain.pandas ExampleFields.cmic_table)).
Proof.
  apply (@cmic_names_normalised Plain.pandas ExampleFields.cmic_table).
  apply returned_spec. vm_compute. reflexivity.
Defined.

Lemma cmic_ID_of_fields_witness :
  Forall
    (fun ir' : nat * row =>
       exists j i p c t,
         snd ir' "job_no" = Str j /\ snd ir' "item_no" = Str i
         /\ snd ir' "phase_no" = Str p /\ snd ir' "category" = Str c
         /\ snd ir' "cont_or_co" = Str t
         /\ (forall s,
               snd ir' "subcontract_no" = Str s ->
               snd ir' "ID" = Str (join_sep [j; s; i; p; c; t]))
         /\ (snd ir' "subcontract_no" = Null -> snd ir' "ID" = Null))
    (returned (@clean_cmic Plain.pandas ExampleFields.cmic_table)).
Proof.
  apply (@cmic_ID_of_fields Plain.pandas ExampleFields.cmic_table).
  apply returned_spec. vm_compute. reflexivity.
Defined.

(** The date "soon" of a change order makes [clean_sl] raise. *)
Lemma clean_sl_unparseable_date_witness :
  @clean_sl Plain.pandas ExampleFields.sl_bad_date = None.
Proof.
  apply (@clean_sl_unparseable_date Plain.pandas ExampleFields.sl_bad_date
           (1, ExampleSl.sl_line (Str "1,500.00") (Str "1,750.00")
                 (Str "soon") Null)).
  - right. left. reflexivity.
  - reflexivity.
Defined.

(** A contract line without column 41 makes [clean_sl] raise. *)
Lemma clean_sl_needs_item_text_witness :
  @clean_sl Plain.pandas ExampleFields.sl_no_item = None.
Proof.
  apply (@clean_sl_needs_item_text Plain.pandas ExampleFields.sl_no_item
           (0, upd (Pos 41) Null ExampleSl.contract)).
  - left. reflexivity.
  - left. reflexivity.
  - left. reflexivity.
Defined.

Lemma sl_amounts_by_tag_witness :
  Forall
    (fun ir' : nat * row =>
       let r' := snd ir' in
       r' "co_code" = Null
       /\ @astype_float Plain.pandas (str_replace_comma (r' (Pos 128)))
          = Some (r' "cont_total")
       /\ @astype_float Plain.pandas (str_replace_comma (r' (Pos 129)))
          = Some (r' "vendor_total")
       /\ (r' "cont_or_co" = Str "Contract"
           /\ @sl_amounts_from Plain.pandas r' 56 57 47
           \/ r' "cont_or_co" = Str "CO"
              /\ @sl_amounts_from Plain.pandas r' 105 106 108)
       /\ isnull (r' "qty_type") = false
       /\ (is_text (sl_pick r' 47 108) = false ->
           r' "dollar_amount" = Null))
    (returned (@clean_sl Plain.pandas ExampleFields.sl_numeric_amount)).
Proof.
  apply (@sl_amounts_by_tag Plain.pandas ExampleFields.sl_numeric_amount).
  apply returned_spec. vm_compute. reflexivity.
Defined.

Lemma sl_names_normalised_witness :
  Forall
    (fun ir' : nat * row =>
       short_text 15 (snd ir' "vendor_name")
       /\ short_text 30 (snd ir' "item_name"))
    (returned (@clean_sl Plain.pandas ExampleSl.sl_table)).
Proof.
  apply (@sl_names_normalised Plain.pandas ExampleSl.sl_table).
  apply returned_spec. vm_compute. reflexivity.
Defined.

Lemma sl_ID_of_fields_witness :
  Forall
    (fun ir' : nat * row =>
       exists j s i p c t,
         snd ir' "job_no" = Str j /\ snd ir' "subcontract_no" = Str s
         /\ snd ir' "item_no" = Str i /\ snd ir' "phase_no" = Str p
         /\ snd ir' "category" = Str c /\ snd ir' "cont_or_co" = Str t
         /\ snd ir' "ID" = Str (join_sep [j; s; i; p; c; t]))
    (returned (@clean_sl Plain.pandas ExampleSl.sl_table)).
Proof.
  apply (@sl_ID_of_fields Plain.pandas ExampleSl.sl_table).
  apply returned_spec. vm_compute. reflexivity.
Defined.

(** A contract line whose column 20 is "Sub 5" makes [clean_sl]
    raise. *)
Lemma clean_sl_short_header_witness :
  @clean_sl Plain.pandas ExampleFields.sl_short_header = None.
Proof.
  apply (@clean_sl_short_header Plain.pandas ExampleFields.sl_short_header
           (returned (@sl_dedup Plain.pandas ExampleFields.sl_short_header))
           (ExampleCompare.row_at 0
              (sl_filter
                 (returned
                    (@sl_dedup Plain.pandas ExampleFields.sl_short_header))))
           "Sub 5").
  - apply returned_spec. vm_compute. reflexivity.
  - apply nth_In. vm_compute. repeat constructor.
  - left. split; [vm_compute; reflexivity|vm_compute; repeat constructor].
Defined.

(** The first record of the example CMIC frame is in the comparison. *)
Lemma compare_dfs_keeps_every_record_witness :
  exists ir,
    In ir (compare_dfs ExampleCompare.cmic ExampleCompare.sl)
    /\ snd ir "ID" = snd (ExampleCompare.row_at 0 ExampleCompare.cmic) "ID"
    /\ forall col,
         In col suffixed_cols ->
         snd ir (cmic_of col)
         = snd (ExampleCompare.row_at 0 ExampleCompare.cmic) col.
Proof.
  apply (proj1 (compare_dfs_keeps_every_record
                  ExampleCompare.cmic ExampleCompare.sl)).
  apply nth_In. vm_compute. repeat constructor.
Defined.

(** The first row of the example comparison. *)
Lemma compare_dfs_rows_are_records_witness :
  let cmic := ExampleCompare.cmic in
  let sl := ExampleCompare.sl in
  let ir := ExampleCompare.row_at 0 (compare_dfs cmic sl) in
  (exists il isl,
     In il cmic /\ In isl sl
     /\ key_eqb (snd il "ID") (snd isl "ID") = true
     /\ snd ir "ID" = snd il "ID"
     /\ forall col, In col suffixed_cols ->
                    snd ir (cmic_of col) = snd il col
                    /\ snd ir (sl_of col) = snd isl col)
  \/ (exists il,
        In il cmic /\ id_count (snd il "ID") sl = 0
        /\ snd ir "ID" = snd il "ID"
        /\ forall col, In col suffixed_cols ->
                       snd ir (cmic_of col) = snd il col
                       /\ snd ir (sl_of col) = Null)
  \/ (exists isl,
        In isl sl /\ id_count (snd isl "ID") cmic = 0
        /\ snd ir "ID" = snd isl "ID"
        /\ forall col, In col suffixed_cols ->
                       snd ir (cmic_of col) = Null
                       /\ snd ir (sl_of col) = snd isl col).
Proof.
  cbv zeta.
  apply (compare_dfs_rows_are_records ExampleCompare.cmic ExampleCompare.sl).
  apply nth_In. vm_compute. repeat constructor.
Defined.

(** The quantities of the first row of the example comparison. *)
Lemma zcomparison_values_witness :
  let ir :=
    ExampleCompare.row_at 0
      (compare_dfs ExampleCompare.cmic ExampleCompare.sl) in
  snd ir (zcomparison_of "qty")
  = Bool (py_eq (snd ir (cmic_of "qty")) (snd ir (sl_of "qty"))
          || (String.eqb "qty" "co_date"
              && (py_eq (snd ir "cont_or_co_sl") (Str "Contract")
                  && py_eq (snd ir "cont_or_co_cmic") (Str "Contract")))).
Proof.
  cbv zeta.
  apply (zcomparison_values ExampleCompare.cmic ExampleCompare.sl).
  - apply nth_In. vm_compute. repeat constructor.
  - unfold cols_to_compare. simpl. tauto.
Defined.

(** A key that only the CMIC frame has. *)
Lemma unmatched_rows_compare_false_witness :
  let ir :=
    ExampleCompare.row_at 4
      (compare_dfs ExampleCompare.cmic ExampleCompare.sl) in
  snd ir (zcomparison_of "job_no") = Bool false.
Proof.
  cbv zeta.
  apply (unmatched_rows_compare_false ExampleCompare.cmic ExampleCompare.sl
           (Str "100_5_21_0010000_3_CO")).
  - apply nth_In. vm_compute. repeat constructor.
  - vm_compute. reflexivity.
  - right. vm_compute. reflexivity.
  - unfold cols_to_compare. simpl. tauto.
Defined.

(** A positional column of the SL table is not in the comparison. *)
Lemma compare_dfs_columns_cover_witness :
  snd (ExampleCompare.row_at 0
         (compare_dfs ExampleCompare.cmic ExampleCompare.sl)) (Pos 47)
  = Null.
Proof.
  apply (proj1 (compare_dfs_columns_cover ExampleCompare.cmic
                  ExampleCompare.sl)).
  - apply nth_In. vm_compute. repeat constructor.
  - intros c _. discriminate.
Defined.
